(** * The E2 API test runner (scripts/run-e2-api-tests.py)

    A shallow embedding of the test-plan execution engine and the
    properties of its specification.

    Modelling conventions.
    - A Python [str] is a [string]; a character stands for the code point
      of the same number (0..255, the range http.client yields for header
      text).  Text with larger code points is outside the model.
    - A value obtained from JSON (the plan, a response body, the session
      state) is a [json]; Python's [None] is [JNull]; numbers are
      integers ([Z]); floating point is outside the model.
    - A [dict] is an association list in insertion order.
    - Exceptions are explicit: effectful functions live in the monad [M],
      which threads the runner's world (session state and the log of HTTP
      calls) and may raise.
    - [time.sleep] has no effect that the model observes and is dropped. *)

From Stdlib Require Import ZArith List String Ascii Bool Lia.
From Stdlib Require Import DecimalString DecimalZ.
Import ListNotations.
Local Open Scope string_scope.
Local Open Scope Z_scope.

(** ** Python strings *)

Module PyStr.

(** [needle in hay] *)
Fixpoint contains (needle hay : string) : bool :=
  if String.prefix needle hay then true
  else match hay with
       | EmptyString => false
       | String _ hay' => contains needle hay'
       end.

(** [s.startswith(p)] *)
Definition startswith (s p : string) : bool := String.prefix p s.

(** [s[n:]] *)
Fixpoint drop (n : nat) (s : string) : string :=
  match n, s with
  | O, _ => s
  | S n', String _ s' => drop n' s'
  | S _, EmptyString => EmptyString
  end.

(** [s[:n]] *)
Fixpoint take (n : nat) (s : string) : string :=
  match n, s with
  | O, _ => EmptyString
  | S n', String c s' => String c (take n' s')
  | S _, EmptyString => EmptyString
  end.

(** [s.split(sep)] for a separator of one character: the pieces between
    the separators, empty pieces included; never the empty list. *)
Fixpoint split (sep : ascii) (s : string) : list string :=
  match s with
  | EmptyString => [EmptyString]
  | String c s' =>
      if Ascii.eqb c sep then EmptyString :: split sep s'
      else match split sep s' with
           | p :: ps => String c p :: ps
           | [] => [String c EmptyString]
           end
  end.

(** [s.split(sep, 1)[1]]: what follows the first separator, when there
    is one. *)
Fixpoint after_first (sep : ascii) (s : string) : option string :=
  match s with
  | EmptyString => None
  | String c s' => if Ascii.eqb c sep then Some s' else after_first sep s'
  end.

(** [c.isspace()] on the code points 0..255 *)
Definition isspace (c : ascii) : bool :=
  let n := nat_of_ascii c in
  ((9 <=? n) && (n <=? 13) || (28 <=? n) && (n <=? 32)
   || (n =? 133) || (n =? 160))%nat.

Fixpoint lstrip (s : string) : string :=
  match s with
  | String c s' => if isspace c then lstrip s' else s
  | EmptyString => EmptyString
  end.

Fixpoint rstrip (s : string) : string :=
  match s with
  | EmptyString => EmptyString
  | String c s' =>
      match rstrip s' with
      | EmptyString => if isspace c then EmptyString else String c EmptyString
      | r => String c r
      end
  end.

(** [s.strip()] *)
Definition strip (s : string) : string := rstrip (lstrip s).

(** [c.lower()] on the code points 0..255: A-Z and the accented capitals
    0xC0-0xDE (0xD7, the multiplication sign, apart) move up by 32. *)
Definition lower_char (c : ascii) : ascii :=
  let n := nat_of_ascii c in
  if ((65 <=? n) && (n <=? 90)
      || (192 <=? n) && (n <=? 222) && negb (n =? 215))%nat
  then ascii_of_nat (n + 32) else c.

(** [s.lower()] *)
Fixpoint lower (s : string) : string :=
  match s with
  | EmptyString => EmptyString
  | String c s' => String (lower_char c) (lower s')
  end.

(** [s.replace(old, new)]: the occurrences of [old] are found from the
    left and do not overlap.  [skip] counts the characters of a match
    still to be dropped.  With an empty [old], [new] goes before every
    character and at the end. *)
Fixpoint replace_from (skip : nat) (old new s : string) : string :=
  match s with
  | EmptyString =>
      match old with EmptyString => new | _ => EmptyString end
  | String c s' =>
      match skip with
      | S k => replace_from k old new s'
      | O =>
          if String.prefix old s then
            match old with
            | EmptyString => new ++ String c (replace_from O old new s')
            | String _ old' =>
                new ++ replace_from (String.length old') old new s'
            end
          else String c (replace_from O old new s')
      end
  end.

Definition replace (s old new : string) : string :=
  replace_from O old new s.

(** [str(z)] for an integer *)
Definition of_Z (z : Z) : string := NilZero.string_of_int (Z.to_int z).

End PyStr.


(** ** JSON values, as Python holds them *)

#[warnings="-register-all"]
Inductive json : Type :=
| JNull
| JBool (b : bool)
| JNum (z : Z)
| JStr (s : string)
| JList (l : list json)
| JDict (d : list (string * json)).

Module PyDict.

(** [d.get(k)], [None] of the option standing for an absent key *)
Fixpoint get {A : Type} (k : string) (d : list (string * A)) : option A :=
  match d with
  | [] => None
  | (k', v) :: d' => if String.eqb k k' then Some v else get k d'
  end.

(** [k in d] *)
Definition mem {A : Type} (k : string) (d : list (string * A)) : bool :=
  match get k d with Some _ => true | None => false end.

(** [d[k] = v]: an existing key keeps its place *)
Fixpoint set {A : Type} (k : string) (v : A) (d : list (string * A))
  : list (string * A) :=
  match d with
  | [] => [(k, v)]
  | (k', v') :: d' =>
      if String.eqb k k' then (k, v) :: d' else (k', v') :: set k v d'
  end.

(** [dict(pairs)] *)
Definition of_pairs {A : Type} (pairs : list (string * A))
  : list (string * A) :=
  fold_left (fun d kv => set (fst kv) (snd kv) d) pairs [].

(** the keys of a dict are pairwise distinct *)
Fixpoint distinct_keys {A : Type} (d : list (string * A)) : bool :=
  match d with
  | [] => true
  | (k, _) :: d' => negb (mem k d') && distinct_keys d'
  end.

End PyDict.

(** Truth value of a JSON value in a Python condition. *)
Definition truthy (v : json) : bool :=
  match v with
  | JNull => false
  | JBool b => b
  | JNum z => negb (z =? 0)
  | JStr s => negb (String.eqb s "")
  | JList l => match l with [] => false | _ => true end
  | JDict d => match d with [] => false | _ => true end
  end.

(** [a or b] *)
Definition py_or (a b : json) : json := if truthy a then a else b.

(** [a == b] on JSON values: [True == 1], lists compare pointwise, dicts
    compare as maps. *)
Fixpoint py_eq (a b : json) {struct a} : bool :=
  match a, b with
  | JNull, JNull => true
  | JBool x, JBool y => Bool.eqb x y
  | JBool x, JNum n => (if x then 1 else 0) =? n
  | JNum n, JBool y => n =? (if y then 1 else 0)
  | JNum n, JNum m => n =? m
  | JStr s, JStr t => String.eqb s t
  | JList l, JList m =>
      (fix all2 (l m : list json) {struct l} : bool :=
         match l, m with
         | [], [] => true
         | x :: l', y :: m' => py_eq x y && all2 l' m'
         | _, _ => false
         end) l m
  | JDict d, JDict e =>
      (List.length d =? List.length e)%nat &&
      (fix sub (d : list (string * json)) {struct d} : bool :=
         match d with
         | [] => true
         | (k, v) :: d' =>
             match PyDict.get k e with
             | Some w => py_eq v w && sub d'
             | None => false
             end
         end) d
  | _, _ => false
  end.

(** *** json.dumps, with its defaults *)

Definition dquote : ascii := ascii_of_nat 34.
Definition backslash : ascii := ascii_of_nat 92.

Module Json.

Definition hex_digit (n : nat) : ascii :=
  if (n <? 10)%nat then ascii_of_nat (48 + n) else ascii_of_nat (87 + n).

(** One character of a string literal: the two-character escapes of the
    encoder, the character itself from space to tilde, a u-escape with
    four lower-case hexadecimal digits otherwise. *)
Definition escape_char (c : ascii) : string :=
  let n := nat_of_ascii c in
  if (n =? 34)%nat then String backslash (String dquote "")
  else if (n =? 92)%nat then String backslash (String backslash "")
  else if (n =? 10)%nat then String backslash "n"
  else if (n =? 13)%nat then String backslash "r"
  else if (n =? 9)%nat then String backslash "t"
  else if (n =? 8)%nat then String backslash "b"
  else if (n =? 12)%nat then String backslash "f"
  else if ((32 <=? n) && (n <=? 126))%nat then String c ""
  else String backslash
         (String "u" (String "0" (String "0"
            (String (hex_digit (n / 16)) (String (hex_digit (n mod 16)) ""))))).

Fixpoint escape (s : string) : string :=
  match s with
  | EmptyString => EmptyString
  | String c s' => escape_char c ++ escape s'
  end.

Definition quote (s : string) : string :=
  String dquote (escape s ++ String dquote "").

Fixpoint dumps (v : json) : string :=
  match v with
  | JNull => "null"
  | JBool true => "true"
  | JBool false => "false"
  | JNum z => PyStr.of_Z z
  | JStr s => quote s
  | JList l =>
      "[" ++
      (fix items (l : list json) : string :=
         match l with
         | [] => ""
         | x :: l' =>
             dumps x ++ match l' with [] => "" | _ => ", " ++ items l' end
         end) l ++ "]"
  | JDict d =>
      "{" ++
      (fix members (d : list (string * json)) : string :=
         match d with
         | [] => ""
         | (k, x) :: d' =>
             quote k ++ ": " ++ dumps x
             ++ match d' with [] => "" | _ => ", " ++ members d' end
         end) d ++ "}"
  end.


(** *** json.loads

    The decoder is the scanner of the json module: no leading zeros, no
    control character inside a string literal, the nine escapes, objects
    built pair by pair.  A parse has three outcomes: a value and the
    remaining text, a JSONDecodeError, or a text whose value is outside
    the model (a float, NaN, an infinity, a u-escape above 255).  The
    recursion is on [fuel]; running out of it counts as outside the
    model, and [loads] supplies two units for every character of the
    text, which the deepest nesting does not use up. *)

Inductive parse (A : Type) : Type :=
| Parsed (a : A) (rest : string)
| Invalid
| Unmodelled.
Arguments Parsed {A} a rest.
Arguments Invalid {A}.
Arguments Unmodelled {A}.

Definition parse_map {A B : Type} (f : A -> B) (p : parse A) : parse B :=
  match p with
  | Parsed a rest => Parsed (f a) rest
  | Invalid => Invalid
  | Unmodelled => Unmodelled
  end.

Definition is_ws (c : ascii) : bool :=
  let n := nat_of_ascii c in
  ((n =? 32) || (n =? 9) || (n =? 10) || (n =? 13))%nat.

Fixpoint skip_ws (s : string) : string :=
  match s with
  | String c s' => if is_ws c then skip_ws s' else s
  | EmptyString => EmptyString
  end.

Definition is_digit (c : ascii) : bool :=
  let n := nat_of_ascii c in ((48 <=? n) && (n <=? 57))%nat.

Definition hex_value (c : ascii) : option nat :=
  let n := nat_of_ascii c in
  if ((48 <=? n) && (n <=? 57))%nat then Some (n - 48)%nat
  else if ((97 <=? n) && (n <=? 102))%nat then Some (n - 87)%nat
  else if ((65 <=? n) && (n <=? 70))%nat then Some (n - 55)%nat
  else None.

Definition hex4 (a b c d : ascii) : option nat :=
  match hex_value a, hex_value b, hex_value c, hex_value d with
  | Some x, Some y, Some z, Some w =>
      Some (((x * 16 + y) * 16 + z) * 16 + w)%nat
  | _, _, _, _ => None
  end.

(** the character an escape letter stands for *)
Definition unescape (e : ascii) : option ascii :=
  let n := nat_of_ascii e in
  if (n =? 34)%nat then Some dquote
  else if (n =? 92)%nat then Some backslash
  else if (n =? 47)%nat then Some "/"%char
  else if (n =? 98)%nat then Some (ascii_of_nat 8)
  else if (n =? 102)%nat then Some (ascii_of_nat 12)
  else if (n =? 110)%nat then Some (ascii_of_nat 10)
  else if (n =? 114)%nat then Some (ascii_of_nat 13)
  else if (n =? 116)%nat then Some (ascii_of_nat 9)
  else None.

(** [scanstring]: the text after an opening quote, up to the closing
    one. *)
Fixpoint scanstring (s : string) : parse string :=
  match s with
  | EmptyString => Invalid
  | String c s1 =>
      if Ascii.eqb c dquote then Parsed EmptyString s1
      else if Ascii.eqb c backslash then
        match s1 with
        | EmptyString => Invalid
        | String e s2 =>
            if Ascii.eqb e "u" then
              match s2 with
              | String h1 (String h2 (String h3 (String h4 s3))) =>
                  match hex4 h1 h2 h3 h4 with
                  | None => Invalid
                  | Some n =>
                      if (n <? 256)%nat
                      then parse_map (String (ascii_of_nat n)) (scanstring s3)
                      else Unmodelled
                  end
              | _ => Invalid
              end
            else
              match unescape e with
              | Some ch => parse_map (String ch) (scanstring s2)
              | None => Invalid
              end
        end
      else if (nat_of_ascii c <? 32)%nat then Invalid
      else parse_map (String c) (scanstring s1)
  end.

(** the longest prefix of digits, and the rest *)
Fixpoint span_digits (s : string) : string * string :=
  match s with
  | String c s' =>
      if is_digit c
      then let (ds, rest) := span_digits s' in (String c ds, rest)
      else (EmptyString, s)
  | EmptyString => (EmptyString, EmptyString)
  end.

Definition starts_with_digit (s : string) : bool :=
  match s with String c _ => is_digit c | EmptyString => false end.

(** a fraction or an exponent follows: the number is a float *)
Definition float_follows (s : string) : bool :=
  match s with
  | String c s' =>
      if Ascii.eqb c "." then starts_with_digit s'
      else if Ascii.eqb c "e" || Ascii.eqb c "E" then
        match s' with
        | String c' s'' =>
            if Ascii.eqb c' "+" || Ascii.eqb c' "-"
            then starts_with_digit s''
            else starts_with_digit s'
        | EmptyString => false
        end
      else false
  | EmptyString => false
  end.

Definition digits_value (ds : string) : Z :=
  match NilEmpty.uint_of_string ds with
  | Some u => Z.of_uint u
  | None => 0
  end.

(** the integer part of a number: a single zero, or digits that do not
    start with zero *)
Definition match_unsigned (s : string) : option (Z * string) :=
  match s with
  | String c s' =>
      if Ascii.eqb c "0" then Some (0, s')
      else if is_digit c
      then let (ds, rest) := span_digits s in Some (digits_value ds, rest)
      else None
  | EmptyString => None
  end.

Definition match_number (s : string) : parse json :=
  let '(neg, s1) :=
    match s with
    | String c s' => if Ascii.eqb c "-" then (true, s') else (false, s)
    | EmptyString => (false, s)
    end in
  match match_unsigned s1 with
  | Some (n, rest) =>
      if float_follows rest then Unmodelled
      else Parsed (JNum (if neg then - n else n)) rest
  | None =>
      if neg && String.prefix "Infinity" s1 then Unmodelled else Invalid
  end.

Fixpoint scan_once (fuel : nat) (s : string) {struct fuel} : parse json :=
  match fuel with
  | O => Unmodelled
  | S fuel' =>
      match s with
      | EmptyString => Invalid
      | String c s' =>
          if Ascii.eqb c dquote then parse_map JStr (scanstring s')
          else if Ascii.eqb c "{" then
            match skip_ws s' with
            | String c1 s1 =>
                if Ascii.eqb c1 "}" then Parsed (JDict []) s1
                else if Ascii.eqb c1 dquote
                then parse_map (fun ps => JDict (PyDict.of_pairs ps))
                       (scan_members fuel' s1)
                else Invalid
            | EmptyString => Invalid
            end
          else if Ascii.eqb c "[" then
            match skip_ws s' with
            | String c1 s1 =>
                if Ascii.eqb c1 "]" then Parsed (JList []) s1
                else parse_map JList (scan_items fuel' (String c1 s1))
            | EmptyString => parse_map JList (scan_items fuel' EmptyString)
            end
          else if String.prefix "null" s then Parsed JNull (PyStr.drop 4 s)
          else if String.prefix "true" s
          then Parsed (JBool true) (PyStr.drop 4 s)
          else if String.prefix "false" s
          then Parsed (JBool false) (PyStr.drop 5 s)
          else if String.prefix "NaN" s then Unmodelled
          else if String.prefix "Infinity" s then Unmodelled
          else match_number s
      end
  end

(** the items of an array, from the first character of an item to the
    closing bracket *)
with scan_items (fuel : nat) (s : string) {struct fuel} : parse (list json) :=
  match fuel with
  | O => Unmodelled
  | S fuel' =>
      match scan_once fuel' s with
      | Parsed v rest =>
          match skip_ws rest with
          | String c r =>
              if Ascii.eqb c "]" then Parsed [v] r
              else if Ascii.eqb c ","
              then parse_map (cons v) (scan_items fuel' (skip_ws r))
              else Invalid
          | EmptyString => Invalid
          end
      | Invalid => Invalid
      | Unmodelled => Unmodelled
      end
  end

(** the members of an object, from the text after the opening quote of
    a key to the closing brace *)
with scan_members (fuel : nat) (s : string) {struct fuel}
  : parse (list (string * json)) :=
  match fuel with
  | O => Unmodelled
  | S fuel' =>
      match scanstring s with
      | Parsed k rest =>
          match skip_ws rest with
          | String c0 r =>
              if negb (Ascii.eqb c0 ":") then Invalid else
              match scan_once fuel' (skip_ws r) with
              | Parsed v rest' =>
                  match skip_ws rest' with
                  | String c r' =>
                      if Ascii.eqb c "}" then Parsed [(k, v)] r'
                      else if Ascii.eqb c "," then
                        match skip_ws r' with
                        | String c2 r2 =>
                            if Ascii.eqb c2 dquote
                            then parse_map (cons (k, v))
                                   (scan_members fuel' r2)
                            else Invalid
                        | EmptyString => Invalid
                        end
                      else Invalid
                  | EmptyString => Invalid
                  end
              | Invalid => Invalid
              | Unmodelled => Unmodelled
              end
          | EmptyString => Invalid
          end
      | Invalid => Invalid
      | Unmodelled => Unmodelled
      end
  end.

(** [json.loads(s)]: one value, white space around it, nothing else *)
Definition loads (s : string) : parse json :=
  match scan_once (2 * String.length s + 2) (skip_ws s) with
  | Parsed v rest =>
      match skip_ws rest with
      | EmptyString => Parsed v EmptyString
      | _ => Invalid
      end
  | Invalid => Invalid
  | Unmodelled => Unmodelled
  end.

End Json.

(** ** The data model of the runner *)

(** *** Shared state across tests (class [State]) *)

Record State : Type := mkState {
  access_token : json;
  refresh_cookie_value : option string;
  admin_user_id : json;
  company_id : json;
  created_user_ids : list json;
  old_refresh_cookie_value : option string
}.

Definition initial_state : State :=
  mkState JNull None JNull JNull [] None.

(** *** The test plan *)

(** [tc["request"]].  An absent "headers" or "cookies" is the empty dict,
    an absent "body" is [JNull] and an absent "repeat" is 1, as the
    [req.get] calls of [run_test] read them. *)
Record RequestSpec : Type := mkRequestSpec {
  req_method : string;
  req_url : string;
  req_headers : list (string * string);
  req_body : json;
  req_cookies : list (string * string);
  req_repeat : Z
}.

(** [tc["expected"]]; an absent cookie name is [None]. *)
Record Expectation : Type := mkExpectation {
  exp_status : Z;
  exp_body_contains : list string;
  exp_body_exact : list (string * json);
  exp_headers_contain : list string;
  exp_cookie_set : option string;
  exp_cookie_not_set : option string;
  exp_cookie_cleared : option string
}.

Record TestCase : Type := mkTestCase {
  tc_id : string;
  tc_name : string;
  tc_type : string;
  tc_request : RequestSpec;
  tc_expected : Expectation;
  tc_db_verification : list (string * json)
}.

Record Endpoint : Type := mkEndpoint {
  ep_method : string;
  ep_path : string;
  ep_auth_required : bool;
  ep_test_cases : list TestCase
}.

(** *** Results *)

(** One entry of a result's "assertions"; a key the entry does not have
    is [None]. *)
Record Assertion : Type := mkAssertion {
  a_check : string;
  a_passed : option bool;
  a_expected : option json;
  a_actual : option json;
  a_note : option json
}.

Record Result : Type := mkResult {
  r_endpoint : string;
  r_test_id : string;
  r_test_name : string;
  r_type : string;
  r_status : string;
  r_expected_status : Z;
  r_actual_status : option Z;
  r_response_body : json;
  r_assertions : list Assertion;
  r_error : option string
}.

(** *** HTTP, as the requests library shows it to the runner *)

(** The keyword arguments of one [http.request] or [http.post] call. *)
Record HttpCall : Type := mkHttpCall {
  call_method : string;
  call_url : string;
  call_json : json;
  call_headers : option (list (string * json));
  call_cookies : option (list (string * string));
  call_timeout : Z;
  call_allow_redirects : bool
}.

(** A response object: [resp_json] is what [resp.json()] returns, [None]
    when it raises. *)
Record Response : Type := mkResponse {
  status_code : Z;
  resp_headers : list (string * string);
  resp_json : option json;
  resp_text : string
}.

(** The exception classes that [execute_request] tells apart, in the order
    of its handlers. *)
Inductive transport_error : Type :=
| ConnectionError
| Timeout
| OtherError.

(** What a call to the library comes to: a response, or an exception with
    its [str(e)]. *)
Inductive http_outcome : Type :=
| Responded (resp : Response)
| Failed (kind : transport_error) (msg : string).

(** [bool(resp)] of a requests response: [resp.ok], false exactly for the
    status codes 400 to 599. *)
Definition resp_truthy (resp : Response) : bool :=
  negb ((400 <=? status_code resp) && (status_code resp <? 600)).

(** [resp.headers.get(name, default)]: header names compare without
    regard to case. *)
Fixpoint header_get (name : string) (hs : list (string * string))
  (default : string) : string :=
  match hs with
  | [] => default
  | (k, v) :: hs' =>
      if String.eqb (PyStr.lower k) (PyStr.lower name) then v
      else header_get name hs' default
  end.

(** ** Effects: the world, exceptions, the monad *)

Record World : Type := mkWorld {
  state : State;
  log : list HttpCall
}.

Inductive exn : Type :=
| TypeError
| AttributeError
| JSONDecodeError
| HttpException (kind : transport_error) (msg : string).

(** A computation returns, raises, or leaves the model. *)
Inductive outcome (A : Type) : Type :=
| Ok (a : A)
| Raise (e : exn)
| Stuck.
Arguments Ok {A} a.
Arguments Raise {A} e.
Arguments Stuck {A}.

Definition M (A : Type) : Type := World -> outcome A * World.

Definition ret {A : Type} (a : A) : M A := fun w => (Ok a, w).

Definition bind {A B : Type} (m : M A) (k : A -> M B) : M B :=
  fun w =>
    match m w with
    | (Ok a, w') => k a w'
    | (Raise e, w') => (Raise e, w')
    | (Stuck, w') => (Stuck, w')
    end.

Definition raise {A : Type} (e : exn) : M A := fun w => (Raise e, w).

Definition lift {A : Type} (o : outcome A) : M A := fun w => (o, w).

(** [try: m except Exception: h] *)
Definition try_except {A : Type} (m : M A) (h : exn -> M A) : M A :=
  fun w =>
    match m w with
    | (Raise e, w') => h e w'
    | r => r
    end.

Definition get_state : M State := fun w => (Ok (state w), w).

Definition set_state (f : State -> State) : M unit :=
  fun w => (Ok tt, mkWorld (f (state w)) (log w)).

Declare Scope py_scope.
Delimit Scope py_scope with py.
Notation "x <- m ;; k" := (bind m (fun x => k))
  (at level 61, m at next level, right associativity) : py_scope.
Notation "m ;;; k" := (bind m (fun _ => k))
  (at level 61, right associativity) : py_scope.
Notation "' pat <- m ;; k" := (bind m (fun x => match x with pat => k end))
  (at level 61, pat pattern, m at next level, right associativity) : py_scope.

(** [v.get(k, default)]: an AttributeError unless [v] is a dict *)
Definition json_get (v : json) (k : string) (default : json) : outcome json :=
  match v with
  | JDict d =>
      Ok (match PyDict.get k d with Some x => x | None => default end)
  | _ => Raise AttributeError
  end.

(** [str(v)], what an f-string puts for [v]; the text of a list or a dict
    is outside the model. *)
Definition py_str (v : json) : option string :=
  match v with
  | JNull => Some "None"
  | JBool true => Some "True"
  | JBool false => Some "False"
  | JNum z => Some (PyStr.of_Z z)
  | JStr s => Some s
  | JList _ | JDict _ => None
  end.

(** [s.replace(old, v)] with a value read from JSON: a TypeError unless
    [v] is a str *)
Definition replace_with (s old : string) (v : json) : outcome string :=
  match v with
  | JStr new => Ok (PyStr.replace s old new)
  | _ => Raise TypeError
  end.

Definition truthy_str (o : option string) : bool :=
  match o with
  | Some s => negb (String.eqb s "")
  | None => false
  end.

Definition obind {A B : Type} (o : outcome A) (k : A -> outcome B)
  : outcome B :=
  match o with
  | Ok a => k a
  | Raise e => Raise e
  | Stuck => Stuck
  end.

(** ** Helpers *)

Definition MISSING : string := "__MISSING__".

(** The loop of [get_nested] over the split keys. *)
Fixpoint get_path (current : json) (keys : list string) : json :=
  match keys with
  | [] => current
  | k :: keys' =>
      match current with
      | JDict d =>
          match PyDict.get k d with
          | Some v => get_path v keys'
          | None => JStr MISSING
          end
      | _ => JStr MISSING
      end
  end.

Definition get_nested (obj : json) (dotted_key : string) : json :=
  get_path obj (PyStr.split "." dotted_key).

(** The loop of [extract_refresh_cookie] over the pieces of the header.
    A piece that starts with the cookie name and "=" has an "=", so the
    index 1 of its split exists. *)
Fixpoint first_refresh_part (parts : list string) : option string :=
  match parts with
  | [] => None
  | part :: parts' =>
      let part := PyStr.strip part in
      if PyStr.startswith part "nexa_refresh_token="
      then PyStr.after_first "=" part
      else first_refresh_part parts'
  end.

Definition extract_refresh_cookie (resp : Response) : option string :=
  let sc := header_get "set-cookie" (resp_headers resp) "" in
  if negb (PyStr.contains "nexa_refresh_token=" sc) then None
  else first_refresh_part (PyStr.split ";" sc).

(** ** Test case execution: the static tables *)

Definition SKIP_TOTP_TESTS : list string := ["LOGIN-014"; "MFA-VERIFY-001"].

Definition SKIP_MISSING_SEED : list (string * string) :=
  [ ("LOGIN-010", "Requires seeded inactive user (inactive@test.com)");
    ("LOGIN-011", "Account lockout requires 5+ sequential argon2 verifications (>30s total, times out)");
    ("LOGIN-012", "Requires seeded user with no company role (norole@test.com)");
    ("LOGIN-013", "Requires seeded MFA-enabled user (mfa-user@test.com)");
    ("LOGIN-015", "Requires seeded MFA-enabled user with valid TOTP");
    ("LOGIN-016", "Requires non-MFA user for mfaToken validation test");
    ("LOGIN-017", "Requires non-MFA user for mfaToken non-digit validation test");
    ("REFRESH-004", "Requires a previously-rotated refresh token");
    ("REFRESH-005", "Requires an expired refresh token record");
    ("REFRESH-006", "Requires a deactivated user's refresh token");
    ("MFA-SETUP-003", "Requires a user with mfaEnabled=true");
    ("MFA-VERIFY-005", "Requires a user with mfaSecret=null (no setup initiated)");
    ("MFA-VERIFY-007", "Requires authenticated MFA verify attempts (needs working login first)");
    ("MFA-RESET-001", "Requires MFA-enabled target user + working admin auth");
    ("MFA-RESET-002", "Requires non-admin token for RBAC denial test");
    ("MFA-RESET-003", "Requires staff-level token for RBAC denial test");
    ("MFA-RESET-004", "Requires manager-level token for RBAC denial test");
    ("MFA-RESET-005", "Requires self-reset test with working admin auth");
    ("MFA-RESET-006", "Requires non-existent user ID test with working admin auth");
    ("MFA-RESET-007", "Requires admin auth for unauthenticated test");
    ("MFA-RESET-008", "Requires cross-company target user");
    ("MFA-RESET-009", "Requires admin auth for missing userId body test") ].

Definition SKIP_TOTP_REASON : string :=
  "Requires valid TOTP generation (cannot automate)".

(** [x in xs] for a collection of strings *)
Definition str_in (x : string) (xs : list string) : bool :=
  existsb (String.eqb x) xs.

(** ** Placeholder resolution *)

Definition LIVE_TOKEN_MARKERS : list string :=
  ["<valid-access-token>"; "<admin-token>"; "<admin_access_token>"].

Definition NO_TOKEN_SENTINEL : string := "Bearer __NO_TOKEN_AVAILABLE__".

(** The value [resolve_headers] gives the Authorization header whose
    template is [val]; [None] when it leaves the header as it is. *)
Definition resolve_authorization (st : State) (val : string)
  : outcome (option string) :=
  if existsb (fun p => PyStr.contains p val) LIVE_TOKEN_MARKERS then
    if truthy (access_token st) then
      match py_str (access_token st) with
      | Some tok => Ok (Some ("Bearer " ++ tok))
      | None => Stuck
      end
    else Ok (Some NO_TOKEN_SENTINEL)
  else if PyStr.contains "<expired-access-token>" val
  then Ok (Some "Bearer expired.jwt.token.value")
  else if PyStr.contains "<mfa-enabled-user-token>" val
  then Ok (Some "Bearer __MFA_USER_TOKEN_PLACEHOLDER__")
  else if PyStr.contains "<user-without-mfa-secret-token>" val
  then Ok (Some "Bearer __NO_MFA_SECRET_TOKEN__")
  else if PyStr.contains "<viewer-token>" val
          || PyStr.contains "<staff-token>" val
  then Ok (Some "Bearer __LOW_ROLE_TOKEN__")
  else Ok None.

(** [resolve_headers].  [headers] starts as a copy of the template, whose
    values are strs; the two keys are read before they are written, so
    they are read from the template. *)
Definition resolve_headers (st : State) (headers_spec : list (string * string))
  (id : string) : outcome (list (string * json)) :=
  let headers := List.map (fun kv => (fst kv, JStr (snd kv))) headers_spec in
  obind
    (match PyDict.get "Authorization" headers_spec with
     | Some val =>
         obind (resolve_authorization st val) (fun r =>
         match r with
         | Some v => Ok (PyDict.set "Authorization" (JStr v) headers)
         | None => Ok headers
         end)
     | None => Ok headers
     end)
    (fun headers =>
       match PyDict.get "X-Company-ID" headers_spec with
       | Some val =>
           if PyStr.contains "<" val && PyStr.contains ">" val
           then Ok (PyDict.set "X-Company-ID"
                      (py_or (company_id st)
                         (JStr "00000000-0000-4000-a000-000000000001"))
                      headers)
           else Ok headers
       | None => Ok headers
       end).

(** [state.created_user_ids[-1]] *)
Definition last_created (st : State) : json :=
  List.last (created_user_ids st) JNull.

(** The [replacements] dict of [resolve_body], in its order. *)
Definition replacements (st : State) : list (string * json) :=
  [ ("<userId>",
     py_or (admin_user_id st) (JStr "00000000-0000-4000-a000-000000000002"));
    ("<valid-totp>", JStr "000000");
    ("<valid-totp-from-secret>", JStr "000000");
    ("<target-user-id>",
     match created_user_ids st with
     | [] => JStr "00000000-0000-0000-0000-000000000099"
     | _ => last_created st
     end) ].

Fixpoint replace_each (rs : list (string * json)) (body_str : string)
  : outcome string :=
  match rs with
  | [] => Ok body_str
  | (placeholder, value) :: rs' =>
      obind (replace_with body_str placeholder value) (replace_each rs')
  end.

Definition loads_outcome (s : string) : outcome json :=
  match Json.loads s with
  | Json.Parsed v _ => Ok v
  | Json.Invalid => Raise JSONDecodeError
  | Json.Unmodelled => Stuck
  end.

Definition resolve_body (st : State) (body_spec : json) (id : string)
  : outcome json :=
  match body_spec with
  | JNull => Ok JNull
  | _ =>
      obind (replace_each (replacements st) (Json.dumps body_spec))
        loads_outcome
  end.

Definition resolve_url (st : State) (url : string) : outcome string :=
  if PyStr.contains ":id" url then
    match created_user_ids st with
    | _ :: _ => replace_with url ":id" (last_created st)
    | [] =>
        if truthy (admin_user_id st)
        then replace_with url ":id" (admin_user_id st)
        else Ok (PyStr.replace url ":id" "00000000-0000-4000-a000-000000000002")
    end
  else Ok url.

(** The value the cookie loop of [run_test] stores for one cookie. *)
Definition resolve_cookie (st : State) (cval : string) : string :=
  if PyStr.contains "<valid-refresh-token>" cval then
    if truthy_str (refresh_cookie_value st)
    then match refresh_cookie_value st with Some v => v | None => "" end
    else "no-valid-cookie"
  else if PyStr.contains "<already-revoked-token>" cval then
    if truthy_str (old_refresh_cookie_value st)
    then match old_refresh_cookie_value st with Some v => v | None => "" end
    else "revoked-placeholder"
  else if PyStr.contains "<" cval && PyStr.contains ">" cval
  then "invalid-placeholder-token"
  else cval.

Definition resolve_cookies (st : State) (cookies_spec : list (string * string))
  : list (string * string) :=
  fold_left
    (fun cookies kv => PyDict.set (fst kv) (resolve_cookie st (snd kv)) cookies)
    cookies_spec [].

(** ** Assertions *)

Definition is_missing (v : json) : bool := py_eq v (JStr MISSING).

Definition simple_assertion (name : string) (ok : bool) : Assertion :=
  mkAssertion name (Some ok) None None None.

(** [bool(resp)] where [resp] may be [None] *)
Definition resp_present (resp : option Response) : bool :=
  match resp with
  | Some r => resp_truthy r
  | None => false
  end.

(** [resp.headers.get("set-cookie", "")], under a guard that has [resp] *)
Definition set_cookie_header (resp : option Response) : string :=
  match resp with
  | Some r => header_get "set-cookie" (resp_headers r) ""
  | None => ""
  end.

(** 1) Status code *)
Definition assert_status (expected : Expectation) (status : option Z)
  : list Assertion :=
  let exp := exp_status expected in
  let status_ok := match status with Some s => s =? exp | None => false end in
  [ mkAssertion "status code" (Some status_ok) (Some (JNum exp))
      (Some (match status with Some s => JNum s | None => JNull end)) None ].

(** 2) body_contains *)
Definition body_contains_found (body : json) (field : string) : bool :=
  let val := get_nested body field in
  let val := if is_missing val then get_nested body ("data." ++ field)
             else val in
  negb (is_missing val).

Definition assert_body_contains (expected : Expectation) (body : json)
  : list Assertion :=
  List.map
    (fun field =>
       simple_assertion ("body contains '" ++ field ++ "'")
         (body_contains_found body field))
    (exp_body_contains expected).

(** 3) body_exact *)
Definition assert_body_exact (expected : Expectation) (body : json)
  : list Assertion :=
  List.map
    (fun kv =>
       let dotted_key := fst kv in
       let exp_val := snd kv in
       let actual_val := get_nested body dotted_key in
       let matched := py_eq actual_val exp_val in
       mkAssertion
         ("body['" ++ dotted_key ++ "'] == " ++ Json.dumps exp_val)
         (Some matched) (Some exp_val)
         (Some (if negb (is_missing actual_val) then actual_val else JNull))
         None)
    (exp_body_exact expected).

(** 4) headers_contain *)
Definition assert_headers (expected : Expectation) (resp : option Response)
  : list Assertion :=
  match resp with
  | Some r =>
      if resp_truthy r then
        let resp_headers_lower :=
          List.map (fun kv => PyStr.lower (fst kv)) (resp_headers r) in
        List.map
          (fun hdr =>
             simple_assertion ("header '" ++ hdr ++ "' present")
               (str_in (PyStr.lower hdr) resp_headers_lower))
          (exp_headers_contain expected)
      else []
  | None => []
  end.

(** 5) cookie_set *)
Definition assert_cookie_set (expected : Expectation) (resp : option Response)
  : list Assertion :=
  if truthy_str (exp_cookie_set expected) && resp_present resp then
    match exp_cookie_set expected with
    | Some cookie_set =>
        let sc := set_cookie_header resp in
        [ simple_assertion ("cookie '" ++ cookie_set ++ "' set")
            (PyStr.contains cookie_set sc) ]
    | None => []
    end
  else [].

(** 6) cookie_not_set *)
Definition assert_cookie_not_set (expected : Expectation)
  (resp : option Response) : list Assertion :=
  if truthy_str (exp_cookie_not_set expected) && resp_present resp then
    match exp_cookie_not_set expected with
    | Some cookie_not_set =>
        let sc := set_cookie_header resp in
        [ simple_assertion ("cookie '" ++ cookie_not_set ++ "' NOT set")
            (negb (PyStr.contains cookie_not_set sc)) ]
    | None => []
    end
  else [].

(** 7) cookie_cleared *)
Definition cookie_is_cleared (cookie_cleared sc : string) : bool :=
  PyStr.contains cookie_cleared sc
  && (PyStr.contains "max-age=0" (PyStr.lower sc)
      || PyStr.contains "expires=thu, 01 jan 1970" (PyStr.lower sc)).

Definition assert_cookie_cleared (expected : Expectation)
  (resp : option Response) : list Assertion :=
  if truthy_str (exp_cookie_cleared expected) && resp_present resp then
    match exp_cookie_cleared expected with
    | Some cookie_cleared =>
        let sc := set_cookie_header resp in
        [ simple_assertion ("cookie '" ++ cookie_cleared ++ "' cleared")
            (cookie_is_cleared cookie_cleared sc) ]
    | None => []
    end
  else [].

(** 8) DB verification note *)
Definition assert_db_note (tc : TestCase) : list Assertion :=
  let db_v := tc_db_verification tc in
  match PyDict.get "enabled" db_v with
  | Some e =>
      if truthy e then
        [ mkAssertion "db_verification (manual)" None None None
            (Some (match PyDict.get "expected" db_v with
                   | Some n => n
                   | None => JStr ""
                   end)) ]
      else []
  | None => []
  end.

(** The assertion list of [run_test], in its order. *)
Definition run_assertions (tc : TestCase) (status : option Z) (body : json)
  (resp : option Response) : list Assertion :=
  let expected := tc_expected tc in
  assert_status expected status
  ++ assert_body_contains expected body
  ++ assert_body_exact expected body
  ++ assert_headers expected resp
  ++ assert_cookie_set expected resp
  ++ assert_cookie_not_set expected resp
  ++ assert_cookie_cleared expected resp
  ++ assert_db_note tc.

(** Determine pass/fail *)
Definition is_definite (a : Assertion) : bool :=
  match a_passed a with Some _ => true | None => false end.

Definition passed_true (a : Assertion) : bool :=
  match a_passed a with Some b => b | None => false end.

Definition all_passed (assertions : list Assertion) : bool :=
  let definite := List.filter is_definite assertions in
  match definite with
  | [] => false
  | _ => forallb passed_true definite
  end.

Definition make_result (endpoint : Endpoint) (tc : TestCase) (status : string)
  (actual_status : option Z) (body : json) (assertions : list Assertion)
  (error : option string) : Result :=
  mkResult
    (req_method (tc_request tc) ++ " " ++ req_url (tc_request tc))
    (tc_id tc) (tc_name tc) (tc_type tc) status
    (exp_status (tc_expected tc)) actual_status body assertions error.

(** ** The engine *)

Definition TIMEOUT : Z := 30.

Local Open Scope py_scope.

Section Engine.

(** [BASE_URL] comes from the environment; [http] is the target server
    seen through the requests library: what a call returns given the
    calls made before it. *)
Variable BASE_URL : string.
Variable http : list HttpCall -> HttpCall -> http_outcome.

(** One call through the library: the call is logged and the library
    answers or raises. *)
Definition http_call (c : HttpCall) : M Response :=
  fun w =>
    let w' := mkWorld (state w) (log w ++ [c]) in
    match http (log w) c with
    | Responded resp => (Ok resp, w')
    | Failed kind msg => (Raise (HttpException kind msg), w')
    end.

(** [resp.json()], or the raw text when that raises *)
Definition body_of (resp : Response) : json :=
  match resp_json resp with
  | Some body => body
  | None => JDict [("_raw", JStr (PyStr.take 500 (resp_text resp)))]
  end.

Definition do_login (email password : string) : M (Z * json * Response) :=
  resp <- http_call
            (mkHttpCall "POST" (BASE_URL ++ "/auth/login")
               (JDict [("email", JStr email); ("password", JStr password)])
               None None TIMEOUT true) ;;
  ret (status_code resp, body_of resp, resp).

(** The body of the loop of [ensure_login], after the call to [do_login]:
    [true] when the function returns True, [false] when the loop goes
    on. *)
Definition login_capture (status : Z) (body : json) (resp : Response)
  : M bool :=
  if status =? 200 then
    success <- lift (json_get body "success" JNull) ;;
    if truthy success then
      data <- lift (json_get body "data" (JDict [])) ;;
      tok <- lift (json_get data "accessToken" JNull) ;;
      set_state (fun st =>
        mkState tok (refresh_cookie_value st) (admin_user_id st)
          (company_id st) (created_user_ids st)
          (old_refresh_cookie_value st)) ;;;
      user <- lift (json_get data "user" (JDict [])) ;;
      uid <- lift (json_get user "id" JNull) ;;
      set_state (fun st =>
        mkState (access_token st) (refresh_cookie_value st) uid
          (company_id st) (created_user_ids st)
          (old_refresh_cookie_value st)) ;;;
      tenant <- lift (json_get user "tenantId" JNull) ;;
      company <- (if truthy tenant then ret tenant
                  else lift (json_get user "companyId" JNull)) ;;
      set_state (fun st =>
        mkState (access_token st) (refresh_cookie_value st)
          (admin_user_id st) company (created_user_ids st)
          (old_refresh_cookie_value st)) ;;;
      let cookie_val := extract_refresh_cookie resp in
      (if truthy_str cookie_val
       then set_state (fun st =>
              mkState (access_token st) cookie_val (admin_user_id st)
                (company_id st) (created_user_ids st)
                (old_refresh_cookie_value st))
       else ret tt) ;;;
      ret true
    else ret false
  else ret false.

Definition login_attempt (email pw : string) : M bool :=
  ' (status, body, resp) <- do_login email pw ;;
  login_capture status body resp.

Definition LOGIN_CREDENTIALS : list (string * string) :=
  [ ("admin@nexa-erp.dev", "NexaDev2026!");
    ("admin@test.com", "ValidPassword123!") ].

Fixpoint try_logins (creds : list (string * string)) : M bool :=
  match creds with
  | [] => ret false
  | (email, pw) :: creds' =>
      done <- try_except (login_attempt email pw) (fun _ => ret false) ;;
      if done then ret true else try_logins creds'
  end.

Definition ensure_login : M bool :=
  st <- get_state ;;
  if truthy (access_token st) then ret true
  else try_logins LOGIN_CREDENTIALS.

(** [execute_request]: the 4-tuple (status_code, body, resp, error). *)
Definition execute_request (method url : string)
  (headers : list (string * json)) (json_body : json)
  (cookies : option (list (string * string)))
  : M (option Z * json * option Response * option string) :=
  fun w =>
    let full_url := BASE_URL ++ url in
    let c := mkHttpCall method full_url json_body (Some headers)
               (match cookies with
                | Some (_ :: _) => cookies
                | _ => None
                end) TIMEOUT false in
    let w' := mkWorld (state w) (log w ++ [c]) in
    match http (log w) c with
    | Responded resp =>
        (Ok (Some (status_code resp), body_of resp, Some resp, None), w')
    | Failed ConnectionError msg =>
        (Ok (None, JNull, None,
             Some ("Connection error: " ++ PyStr.take 200 msg)), w')
    | Failed Timeout _ =>
        (Ok (None, JNull, None,
             Some "Request timed out (server may be busy with argon2 hashing)"),
         w')
    | Failed OtherError msg =>
        (Ok (None, JNull, None, Some ("Error: " ++ PyStr.take 200 msg)), w')
    end.

(** *** The steps of [run_test] *)

(** Check for skip conditions: the reason, when the case is skipped. *)
Definition skip_reason (id : string) : option string :=
  if str_in id SKIP_TOTP_TESTS then Some SKIP_TOTP_REASON
  else PyDict.get id SKIP_MISSING_SEED.

(** Pre-conditions: ensure auth if needed *)
Definition preconditions (endpoint : Endpoint) (tc : TestCase) : M unit :=
  (if ep_auth_required endpoint then ensure_login ;;; ret tt else ret tt) ;;;
  (if String.eqb (tc_id tc) "REFRESH-001" then ensure_login ;;; ret tt
   else ret tt) ;;;
  (if String.eqb (tc_id tc) "LOGOUT-001" then ensure_login ;;; ret tt
   else ret tt).

(** One turn of the repeat loop. *)
Definition warm_up_call (tc : TestCase) : M unit :=
  let req := tc_request tc in
  try_except
    (st <- get_state ;;
     headers <- lift (resolve_headers st (req_headers req) (tc_id tc)) ;;
     json_body <- lift (resolve_body st (req_body req) (tc_id tc)) ;;
     execute_request (req_method req) (req_url req) headers json_body None ;;;
     ret tt)
    (fun _ => ret tt).

Fixpoint times (n : nat) (m : M unit) : M unit :=
  match n with
  | O => ret tt
  | S n' => m ;;; times n' m
  end.

(** Handle repeat tests *)
Definition warm_up (tc : TestCase) : M unit :=
  let repeat := req_repeat (tc_request tc) in
  if repeat >? 1 then times (Z.to_nat (repeat - 1)) (warm_up_call tc)
  else ret tt.

(** Resolve request parameters, cookie handling, and the call itself. *)
Definition primary_call (tc : TestCase)
  : M (option Z * json * option Response * option string) :=
  let req := tc_request tc in
  st <- get_state ;;
  let method := req_method req in
  url <- lift (resolve_url st (req_url req)) ;;
  headers <- lift (resolve_headers st (req_headers req) (tc_id tc)) ;;
  json_body <- lift (resolve_body st (req_body req) (tc_id tc)) ;;
  let cookies := resolve_cookies st (req_cookies req) in
  execute_request method url headers json_body
    (match cookies with [] => None | _ => Some cookies end).

(** [resp.headers] when [resp] may be [None] *)
Definition refresh_cookie_of (resp : option Response) : M (option string) :=
  match resp with
  | Some r => ret (extract_refresh_cookie r)
  | None => raise AttributeError
  end.

(** [state.old_refresh_cookie_value = state.refresh_cookie_value;
    state.refresh_cookie_value = cv] when [cv] is truthy *)
Definition rotate_cookie (cv : option string) : M unit :=
  if truthy_str cv then
    set_state (fun st =>
      mkState (access_token st) cv (admin_user_id st) (company_id st)
        (created_user_ids st) (refresh_cookie_value st))
  else ret tt.

Definition status_is (status : option Z) (n : Z) : bool :=
  match status with Some s => s =? n | None => false end.

(** Capture state from a login response *)
Definition capture_login (req : RequestSpec) (status : option Z)
  (body : json) (resp : option Response) : M unit :=
  if String.eqb (req_url req) "/auth/login" && status_is status 200 then
    success <- lift (json_get body "success" JNull) ;;
    if truthy success then
      data <- lift (json_get body "data" (JDict [])) ;;
      tok <- lift (json_get data "accessToken" JNull) ;;
      if truthy tok then
        mfa <- lift (json_get data "requiresMfa" JNull) ;;
        if negb (truthy mfa) then
          set_state (fun st =>
            mkState tok (refresh_cookie_value st) (admin_user_id st)
              (company_id st) (created_user_ids st)
              (old_refresh_cookie_value st)) ;;;
          user <- lift (json_get data "user" (JDict [])) ;;
          uid <- lift (json_get user "id" JNull) ;;
          (if truthy uid then
             set_state (fun st =>
               mkState (access_token st) (refresh_cookie_value st) uid
                 (company_id st) (created_user_ids st)
                 (old_refresh_cookie_value st))
           else ret tt) ;;;
          tenant <- lift (json_get user "tenantId" JNull) ;;
          (if truthy tenant then
             set_state (fun st =>
               mkState (access_token st) (refresh_cookie_value st)
                 (admin_user_id st) tenant (created_user_ids st)
                 (old_refresh_cookie_value st))
           else ret tt) ;;;
          cv <- refresh_cookie_of resp ;;
          rotate_cookie cv
        else ret tt
      else ret tt
    else ret tt
  else ret tt.

(** Capture state from a refresh response *)
Definition capture_refresh (req : RequestSpec) (status : option Z)
  (body : json) (resp : option Response) : M unit :=
  if String.eqb (req_url req) "/auth/refresh" && status_is status 200 then
    data <- lift (json_get body "data" (JDict [])) ;;
    tok <- lift (json_get data "accessToken" JNull) ;;
    (if truthy tok then
       set_state (fun st =>
         mkState tok (refresh_cookie_value st) (admin_user_id st)
           (company_id st) (created_user_ids st)
           (old_refresh_cookie_value st))
     else ret tt) ;;;
    cv <- refresh_cookie_of resp ;;
    rotate_cookie cv
  else ret tt.

(** Capture the identifier of a created user *)
Definition capture_created (req : RequestSpec) (status : option Z)
  (body : json) : M unit :=
  if String.eqb (req_method req) "POST"
     && PyStr.contains "/system/users" (req_url req)
     && (status_is status 200 || status_is status 201) then
    data <- lift (json_get body "data" (JDict [])) ;;
    id <- lift (json_get data "id" JNull) ;;
    if truthy id then
      set_state (fun st =>
        mkState (access_token st) (refresh_cookie_value st)
          (admin_user_id st) (company_id st)
          (created_user_ids st ++ [id]) (old_refresh_cookie_value st))
    else ret tt
  else ret tt.

Definition capture_state (req : RequestSpec) (status : option Z)
  (body : json) (resp : option Response) : M unit :=
  capture_login req status body resp ;;;
  capture_refresh req status body resp ;;;
  capture_created req status body.

(** The scoring of an exchange: assertions, then pass or fail. *)
Definition score (endpoint : Endpoint) (tc : TestCase) (status : option Z)
  (body : json) (resp : option Response) : Result :=
  let assertions := run_assertions tc status body resp in
  let ok := all_passed assertions in
  make_result endpoint tc (if ok then "pass" else "fail") status body
    assertions
    (if ok then None else Some "One or more assertions failed").

Definition TRANSPORT_ASSERTION : Assertion :=
  mkAssertion "request execution" (Some false) None None None.

Definition run_test (endpoint : Endpoint) (tc : TestCase) : M Result :=
  let req := tc_request tc in
  match skip_reason (tc_id tc) with
  | Some reason =>
      ret (make_result endpoint tc "skip" None JNull [] (Some reason))
  | None =>
      preconditions endpoint tc ;;;
      warm_up tc ;;;
      ' (status_code, body, resp, err) <- primary_call tc ;;
      if truthy_str err then
        ret (make_result endpoint tc "fail" None JNull
               [TRANSPORT_ASSERTION] err)
      else
        capture_state req status_code body resp ;;;
        ret (score endpoint tc status_code body resp)
  end.

(** *** The loops of [main] *)

(** The running totals: total, passed, failed, skipped. *)
Record Totals : Type := mkTotals {
  total : Z;
  passed : Z;
  failed : Z;
  skipped : Z
}.

Definition count (t : Totals) (result : Result) : Totals :=
  if String.eqb (r_status result) "pass"
  then mkTotals (total t + 1) (passed t + 1) (failed t) (skipped t)
  else if String.eqb (r_status result) "skip"
  then mkTotals (total t + 1) (passed t) (failed t) (skipped t + 1)
  else mkTotals (total t + 1) (passed t) (failed t + 1) (skipped t).

(** The loop over the test cases of one endpoint. *)
Fixpoint run_cases (endpoint : Endpoint) (tcs : list TestCase)
  (acc : list Result * Totals) : M (list Result * Totals) :=
  match tcs with
  | [] => ret acc
  | tc :: tcs' =>
      result <- run_test endpoint tc ;;
      run_cases endpoint tcs'
        ((fst acc ++ [result])%list, count (snd acc) result)
  end.

(** The loop over the endpoints of the plan. *)
Fixpoint run_endpoints (endpoints : list Endpoint)
  (acc : list Result * Totals) : M (list Result * Totals) :=
  match endpoints with
  | [] => ret acc
  | endpoint :: endpoints' =>
      acc' <- run_cases endpoint (ep_test_cases endpoint) acc ;;
      run_endpoints endpoints' acc'
  end.

Definition run_plan (endpoints : list Endpoint) : M (list Result * Totals) :=
  run_endpoints endpoints ([], mkTotals 0 0 0 0).

End Engine.

(** ** Report generation: what [write_markdown_report] computes *)

(** [pass_rate], from the summary of the run; [//] is the floor
    division. *)
Definition pass_rate (s : Totals) : string :=
  let executed := total s - skipped s in
  if executed >? 0 then PyStr.of_Z (passed s * 100 / executed) ++ "%"
  else "N/A".

(** [by_ep]: the results grouped by their endpoint label, the groups in
    the order of their first result. *)
Definition group_by_endpoint (results : list Result)
  : list (string * list Result) :=
  fold_left
    (fun by_ep r =>
       let ep := r_endpoint r in
       PyDict.set ep
         ((match PyDict.get ep by_ep with Some tests => tests | None => [] end)
          ++ [r])%list
         by_ep)
    results [].

(** [sum(1 for t in tests if t["status"] == status)] *)
Definition count_status (status : string) (tests : list Result) : Z :=
  Z.of_nat
    (List.length (List.filter (fun t => String.eqb (r_status t) status) tests)).

(** [tag], the rollup of one endpoint *)
Definition endpoint_tag (tests : list Result) : string :=
  let ep_p := count_status "pass" tests in
  let ep_f := count_status "fail" tests in
  if (ep_f =? 0) && (ep_p >? 0) then "PASS"
  else if ep_p >? 0 then "PARTIAL" else "FAIL".

(** [failures] and [skipped] *)
Definition report_failures (results : list Result) : list Result :=
  List.filter (fun r => String.eqb (r_status r) "fail") results.

Definition report_skipped (results : list Result) : list Result :=
  List.filter (fun r => String.eqb (r_status r) "skip") results.

(** ** Sample plans and servers, for the examples below *)

Module Sample.

Definition base : string := "http://localhost:3000".

Definition world0 : World := mkWorld initial_state [].

Definition no_expectation (status : Z) : Expectation :=
  mkExpectation status [] [] [] None None None.

Definition open_endpoint (method path : string) : Endpoint :=
  mkEndpoint method path false [].

(** a server that answers every call in the same way *)
Definition always (resp : Response) : list HttpCall -> HttpCall -> http_outcome :=
  fun _ _ => Responded resp.

(** a target that cannot be reached *)
Definition unreachable : list HttpCall -> HttpCall -> http_outcome :=
  fun _ _ => Failed ConnectionError "connection refused".

(** a logout case that declares the session cookie cleared *)
Definition logout_case (status : Z) : TestCase :=
  mkTestCase "LOGOUT-002" "logout clears the cookie" "negative"
    (mkRequestSpec "POST" "/auth/logout" [] JNull [] 1)
    (mkExpectation status [] [] [] None None (Some "session_token"))
    [].

Definition cookie_response (status : Z) (set_cookie : string) : Response :=
  mkResponse status [("Set-Cookie", set_cookie)] (Some (JDict [])) "{}".

(** a health check, made once *)
Definition ping_case : TestCase :=
  mkTestCase "HEALTH-001" "health check" "positive"
    (mkRequestSpec "GET" "/health" [] JNull [] 1)
    (no_expectation 200) [].

(** a failed login, made three times *)
Definition lockout_case : TestCase :=
  mkTestCase "LOGIN-018" "three wrong passwords" "negative"
    (mkRequestSpec "POST" "/auth/login" []
       (JDict [("email", JStr "admin@test.com"); ("password", JStr "wrong")])
       [] 3)
    (no_expectation 401) [].

(** a read of a user by id on an endpoint that requires authentication,
    made twice *)
Definition users_endpoint : Endpoint :=
  mkEndpoint "GET" "/system/users/:id" true [].

Definition repeat_read_case : TestCase :=
  mkTestCase "USERS-010" "repeated read" "positive"
    (mkRequestSpec "GET" "/system/users/:id"
       [("Authorization", "Bearer <admin-token>")] JNull [] 2)
    (no_expectation 200) [].

(** a login case with an exact expectation on the e-mail address *)
Definition login_email_case : TestCase :=
  mkTestCase "LOGIN-001" "valid login" "positive"
    (mkRequestSpec "POST" "/auth/login" []
       (JDict [("email", JStr "admin@nexa-erp.dev");
               ("password", JStr "NexaDev2026!")])
       [] 1)
    (mkExpectation 200 [] [("data.user.email", JStr "admin@nexa-erp.dev")]
       [] None None None)
    [].

Definition login_ok_response : Response :=
  mkResponse 200 []
    (Some (JDict [("success", JBool true);
                  ("data",
                   JDict [("accessToken", JStr "t0");
                          ("user",
                           JDict [("id", JStr "u0");
                                  ("email", JStr "admin@nexa-erp.dev")])])]))
    "".

Definition login_denied_response : Response :=
  mkResponse 401 []
    (Some (JDict [("success", JBool false);
                  ("error", JDict [("code", JStr "UNAUTHORIZED")])]))
    "".

End Sample.

(** * The vocabulary of the properties *)

(** ** The dotted-path lookup, described *)

(** The lookup in the words of its description: [reaches obj keys v] when
    following each key through nested dicts leads from [obj] to [v];
    [breaks_off obj keys] when, on the way, the current value is not a
    dict or lacks the key. *)
Inductive reaches : json -> list string -> json -> Prop :=
| reaches_end : forall v, reaches v [] v
| reaches_step : forall d k keys v r,
    PyDict.get k d = Some v -> reaches v keys r ->
    reaches (JDict d) (k :: keys) r.

Definition is_dict (v : json) : bool :=
  match v with JDict _ => true | _ => false end.

Inductive breaks_off : json -> list string -> Prop :=
| breaks_not_dict : forall v k keys,
    is_dict v = false -> breaks_off v (k :: keys)
| breaks_no_key : forall d k keys,
    PyDict.get k d = None -> breaks_off (JDict d) (k :: keys)
| breaks_later : forall d k keys v,
    PyDict.get k d = Some v -> breaks_off v keys ->
    breaks_off (JDict d) (k :: keys).

(** ** Runs and worlds *)

(** [keeps R m]: whatever [m] does, the world it leaves is related by [R]
    to the world it found. *)
Definition keeps (R : World -> World -> Prop) {A : Type} (m : M A)
  : Prop :=
  forall w o w', m w = (o, w') -> R w w'.

(** [unstuck m]: [m] returns or raises; it does not leave the model. *)
Definition unstuck {A : Type} (m : M A) : Prop :=
  forall w, fst (m w) <> Stuck.

(** The relation of a step that touches neither the log nor the three
    identity slots of the state. *)
Definition same_identity (w w' : World) : Prop :=
  admin_user_id (state w') = admin_user_id (state w)
  /\ company_id (state w') = company_id (state w)
  /\ created_user_ids (state w') = created_user_ids (state w)
  /\ log w' = log w.

(** The relation of a step that leaves the cookie slots alone or rotates
    them: a new non-empty value in, the previous value demoted. *)
Definition cookie_rotated (w w' : World) : Prop :=
  (refresh_cookie_value (state w') = refresh_cookie_value (state w)
   /\ old_refresh_cookie_value (state w') = old_refresh_cookie_value (state w))
  \/ (exists cv, cv <> ""
        /\ refresh_cookie_value (state w') = Some cv
        /\ old_refresh_cookie_value (state w') = refresh_cookie_value (state w)).

Definition same_log (w w' : World) : Prop := log w' = log w.

(** The assertions of a result, from the outcome of the scored call. *)
Definition scored_assertions (tc : TestCase) (o : http_outcome)
  : list Assertion :=
  match o with
  | Responded resp =>
      run_assertions tc (Some (status_code resp)) (body_of resp) (Some resp)
  | Failed _ _ => [TRANSPORT_ASSERTION]
  end.

(** ** The text and the structure of JSON values *)

(** A character that the encoder writes as itself. *)
Definition is_plain (c : ascii) : bool :=
  let n := nat_of_ascii c in
  ((32 <=? n) && (n <=? 126) && negb (n =? 34) && negb (n =? 92))%nat.

Fixpoint all_plain (s : string) : bool :=
  match s with
  | EmptyString => true
  | String c s' => is_plain c && all_plain s'
  end.

Definition is_lt (c : ascii) : bool := Ascii.eqb c "<".

Fixpoint no_lt (s : string) : bool :=
  match s with
  | EmptyString => true
  | String c s' => negb (is_lt c) && no_lt s'
  end.

(** [subst_json f v]: [v] with [f] applied to every string in it, keys
    included. *)
Fixpoint subst_json (f : string -> string) (v : json) : json :=
  match v with
  | JStr s => JStr (f s)
  | JList l => JList (List.map (subst_json f) l)
  | JDict d => JDict (List.map (fun kv => (f (fst kv), subst_json f (snd kv))) d)
  | _ => v
  end.

(** The shape of a value: its tree of lists and dicts with the kinds of
    its leaves. *)
#[warnings="-register-all"]
Inductive shape : Type :=
| SNull | SBool | SNum | SStr
| SList (items : list shape)
| SDict (values : list shape).

Fixpoint shape_of (v : json) : shape :=
  match v with
  | JNull => SNull
  | JBool _ => SBool
  | JNum _ => SNum
  | JStr _ => SStr
  | JList l => SList (List.map shape_of l)
  | JDict d => SDict (List.map (fun kv => shape_of (snd kv)) d)
  end.

(** The items of a list and the members of a dict, as [dumps] writes
    them. *)
Fixpoint dumps_items (l : list json) : string :=
  match l with
  | [] => ""
  | x :: l' =>
      Json.dumps x ++ match l' with [] => "" | _ => ", " ++ dumps_items l' end
  end.

Fixpoint dumps_members (d : list (string * json)) : string :=
  match d with
  | [] => ""
  | (k, x) :: d' =>
      Json.quote k ++ ": " ++ Json.dumps x
      ++ match d' with [] => "" | _ => ", " ++ dumps_members d' end
  end.

(** The text after a value that [dumps] wrote: nothing, a comma, or a
    closing bracket or brace. *)
Definition closes (rest : string) : bool :=
  match rest with
  | EmptyString => true
  | String c _ => Ascii.eqb c "," || Ascii.eqb c "]" || Ascii.eqb c "}"
  end.

Definition nonzero_head (u : Decimal.uint) : Prop :=
  match u with
  | Decimal.Nil | Decimal.D0 _ => False
  | _ => True
  end.

(** The first character of the text of a value. *)
Definition value_start (c : ascii) : bool :=
  Ascii.eqb c dquote || Ascii.eqb c "[" || Ascii.eqb c "{"
  || Ascii.eqb c "n" || Ascii.eqb c "t" || Ascii.eqb c "f"
  || Json.is_digit c || Ascii.eqb c "-".

Definition number_start (c : ascii) : bool :=
  Json.is_digit c || Ascii.eqb c "-".

(** The fuel that reading a value back takes. *)
Fixpoint json_size (v : json) : nat :=
  match v with
  | JList l =>
      S ((fix items_size (l : list json) : nat :=
            match l with
            | [] => O
            | x :: l' => S (json_size x + items_size l')
            end) l)
  | JDict d =>
      S ((fix members_size (d : list (string * json)) : nat :=
            match d with
            | [] => O
            | (_, x) :: d' => S (json_size x + members_size d')
            end) d)
  | _ => 1%nat
  end.

Fixpoint items_size (l : list json) : nat :=
  match l with
  | [] => O
  | x :: l' => S (json_size x + items_size l')
  end.

Fixpoint members_size (d : list (string * json)) : nat :=
  match d with
  | [] => O
  | (_, x) :: d' => S (json_size x + members_size d')
  end.

(** Every dict in the value has pairwise distinct keys, as every Python
    dict has. *)
Fixpoint valid_keys (v : json) : bool :=
  match v with
  | JList l => forallb valid_keys l
  | JDict d =>
      PyDict.distinct_keys d && forallb (fun kv => valid_keys (snd kv)) d
  | _ => true
  end.

(** One replacement of [resolve_body], on a string. *)
Definition substitute_one (r : string * json) (s : string) : string :=
  match snd r with
  | JStr new => PyStr.replace s (fst r) new
  | _ => s
  end.

(** The template with the replacements of [resolve_body] done, in their
    order, in every string of it. *)
Definition resolve_json (st : State) (body_spec : json) : json :=
  fold_left (fun v r => subst_json (substitute_one r) v) (replacements st)
    body_spec.

(** A value that the encoder writes as itself: a str of characters from
    space to tilde, the double quote and the backslash apart. *)
Definition plain_value (v : json) : bool :=
  match v with
  | JStr s => all_plain s
  | _ => false
  end.

Definition plain_replacements (st : State) : bool :=
  forallb (fun r => plain_value (snd r)) (replacements st).

Definition is_placeholder (p : string) : bool :=
  match p with
  | String c _ => Ascii.eqb c "<" && all_plain p
  | EmptyString => false
  end.

(** ** The calls of a run *)

Section CallVocabulary.

Variable BASE_URL : string.

(** The call that [execute_request] makes from its arguments. *)
Definition call_of (method url : string) (headers : list (string * json))
  (json_body : json) (cookies : option (list (string * string))) : HttpCall :=
  mkHttpCall method (BASE_URL ++ url) json_body (Some headers)
    (match cookies with
     | Some (_ :: _) => cookies
     | _ => None
     end) TIMEOUT false.

(** The 4-tuple that [execute_request] returns for an outcome. *)
Definition tuple_of (o : http_outcome)
  : option Z * json * option Response * option string :=
  match o with
  | Responded resp =>
      (Some (status_code resp), body_of resp, Some resp, None)
  | Failed ConnectionError msg =>
      (None, JNull, None, Some ("Connection error: " ++ PyStr.take 200 msg))
  | Failed Timeout _ =>
      (None, JNull, None,
       Some "Request timed out (server may be busy with argon2 hashing)")
  | Failed OtherError msg =>
      (None, JNull, None, Some ("Error: " ++ PyStr.take 200 msg))
  end.

(** The scored call of a case, resolved against a state. *)
Definition primary_request (st : State) (tc : TestCase) : outcome HttpCall :=
  let req := tc_request tc in
  obind (resolve_url st (req_url req)) (fun url =>
  obind (resolve_headers st (req_headers req) (tc_id tc)) (fun headers =>
  obind (resolve_body st (req_body req) (tc_id tc)) (fun json_body =>
  let cookies := resolve_cookies st (req_cookies req) in
  Ok (call_of (req_method req) url headers json_body
        (match cookies with [] => None | _ => Some cookies end))))).

(** A warm-up call of a case, resolved against a state. *)
Definition warm_up_request (st : State) (tc : TestCase) : outcome HttpCall :=
  let req := tc_request tc in
  obind (resolve_headers st (req_headers req) (tc_id tc)) (fun headers =>
  obind (resolve_body st (req_body req) (tc_id tc)) (fun json_body =>
  Ok (call_of (req_method req) (req_url req) headers json_body None))).

(** The login call of [do_login]. *)
Definition login_call (email password : string) : HttpCall :=
  mkHttpCall "POST" (BASE_URL ++ "/auth/login")
    (JDict [("email", JStr email); ("password", JStr password)])
    None None TIMEOUT true.

Definition is_login_call (c : HttpCall) : Prop :=
  exists email password,
    In (email, password) LOGIN_CREDENTIALS /\ c = login_call email password.

Definition after_call (w : World) (c : HttpCall) : World :=
  mkWorld (state w) (log w ++ [c]).

End CallVocabulary.

(** ** More relations between worlds *)

(** The log and the list of created ids have only grown, at their end,
    the latter by truthy ids. *)
Definition only_grows (w w' : World) : Prop :=
  (exists calls, log w' = (log w ++ calls)%list)
  /\ (exists ids,
        created_user_ids (state w')
        = (created_user_ids (state w) ++ ids)%list
        /\ Forall (fun id => truthy id = true) ids).


(** What a login through [ensure_login] leaves alone: the created ids
    and the demoted refresh cookie. *)
Definition login_frame (w w' : World) : Prop :=
  created_user_ids (state w') = created_user_ids (state w)
  /\ old_refresh_cookie_value (state w')
     = old_refresh_cookie_value (state w).

(** The login calls for the first [k] of the given credentials. *)
Definition login_calls_of (BASE_URL : string) (creds : list (string * string))
  (k : nat) : list HttpCall :=
  List.map (fun cred => login_call BASE_URL (fst cred) (snd cred))
    (firstn k creds).

(** ** The refresh cookie in a Set-Cookie header *)

(** A piece of the header names the refresh cookie when, stripped, it
    starts with the name of the cookie and "=". *)
Definition names_refresh_cookie (piece : string) : bool :=
  PyStr.startswith (PyStr.strip piece) "nexa_refresh_token=".

(** [v] is what follows the name in the first piece, between semicolons,
    that names the refresh cookie. *)
Definition first_refresh_value (sc v : string) : Prop :=
  exists before piece after,
    PyStr.split ";" sc = (before ++ piece :: after)%list
    /\ Forall (fun p => names_refresh_cookie p = false) before
    /\ PyStr.strip piece = "nexa_refresh_token=" ++ v.

(** ** Templates without placeholders *)

(** No string of the value, key or leaf, has a "<". *)
Fixpoint lt_free (v : json) : bool :=
  match v with
  | JStr s => no_lt s
  | JList l => forallb lt_free l
  | JDict d => forallb (fun kv => no_lt (fst kv) && lt_free (snd kv)) d
  | _ => true
  end.

Definition is_str (v : json) : bool :=
  match v with JStr _ => true | _ => false end.

(** The values that [resolve_body] substitutes are strs. *)
Definition str_replacements (st : State) : bool :=
  forallb (fun r => is_str (snd r)) (replacements st).

(** ** Results *)

(** The three ways in which [run_test] builds a result. *)
Inductive result_of (endpoint : Endpoint) (tc : TestCase) : Result -> Prop :=
| result_skipped : forall reason,
    skip_reason (tc_id tc) = Some reason ->
    result_of endpoint tc
      (make_result endpoint tc "skip" None JNull [] (Some reason))
| result_not_executed : forall err,
    skip_reason (tc_id tc) = None ->
    truthy_str err = true ->
    result_of endpoint tc
      (make_result endpoint tc "fail" None JNull [TRANSPORT_ASSERTION] err)
| result_scored : forall status body resp,
    skip_reason (tc_id tc) = None ->
    result_of endpoint tc (score endpoint tc status body resp).

(** The case with another database note. *)
Definition with_db_verification (tc : TestCase) (db_v : list (string * json))
  : TestCase :=
  mkTestCase (tc_id tc) (tc_name tc) (tc_type tc) (tc_request tc)
    (tc_expected tc) db_v.

(** The expectation without its header and cookie checks. *)
Definition body_checks_only (e : Expectation) : Expectation :=
  mkExpectation (exp_status e) (exp_body_contains e) (exp_body_exact e)
    [] None None None.

Definition with_expected (tc : TestCase) (e : Expectation) : TestCase :=
  mkTestCase (tc_id tc) (tc_name tc) (tc_type tc) (tc_request tc) e
    (tc_db_verification tc).

(** ** What a capture may do to the session *)

Definition kept_or_truthy (old new : json) : Prop :=
  new = old \/ truthy new = true.

(** The log is as it was; the token, the two ids and the refresh cookie
    are as they were or truthy; the created ids have grown by truthy
    ids. *)
Definition never_blanks (w w' : World) : Prop :=
  log w' = log w
  /\ kept_or_truthy (access_token (state w)) (access_token (state w'))
  /\ kept_or_truthy (admin_user_id (state w)) (admin_user_id (state w'))
  /\ kept_or_truthy (company_id (state w)) (company_id (state w'))
  /\ (refresh_cookie_value (state w') = refresh_cookie_value (state w)
      \/ truthy_str (refresh_cookie_value (state w')) = true)
  /\ exists ids,
       created_user_ids (state w')
       = (created_user_ids (state w) ++ ids)%list
       /\ Forall (fun id => truthy id = true) ids.

(** ** The plan and the summary *)

(** The cases of a plan, each with its endpoint, in the order of the
    run. *)
Definition plan_cases (endpoints : list Endpoint)
  : list (Endpoint * TestCase) :=
  flat_map (fun ep => List.map (fun tc => (ep, tc)) (ep_test_cases ep))
    endpoints.

(** The summary that counts the given results. *)
Definition summary_of (results : list Result) : Totals :=
  mkTotals (Z.of_nat (List.length results))
    (count_status "pass" results) (count_status "fail" results)
    (count_status "skip" results).

(** The results with a given endpoint label, in their order. *)
Definition results_of_endpoint (ep : string) (results : list Result)
  : list Result :=
  List.filter (fun r => String.eqb (r_endpoint r) ep) results.

(** * Properties *)

(** ** The helpers at work *)

Example contains_example :
  PyStr.contains "max-age=0" "a=; max-age=0" = true
  /\ PyStr.contains "" "" = true
  /\ PyStr.contains "abc" "ab" = false.
Proof. repeat split. Qed.

Example split_example :
  PyStr.split "." "a..b" = ["a"; ""; "b"] /\ PyStr.split "." "" = [""].
Proof. split; reflexivity. Qed.

Example strip_lower_example :
  PyStr.strip "  a b  " = "a b"
  /\ PyStr.lower "Max-Age=0; EXPIRES" = "max-age=0; expires".
Proof. split; reflexivity. Qed.

Example replace_example :
  PyStr.replace "a<x>b<x><x" "<x>" "12" = "a12b12<x"
  /\ PyStr.replace "aaa" "aa" "b" = "ba"
  /\ PyStr.replace "ab" "" "-" = "-a-b-".
Proof. repeat split. Qed.

Example of_Z_example : PyStr.of_Z (-120) = "-120" /\ PyStr.of_Z 0 = "0".
Proof. split; reflexivity. Qed.

Example get_nested_example :
  get_nested (JDict [("data", JDict [("user", JDict [("id", JNum 7)])])])
    "data.user.id" = JNum 7
  /\ get_nested (JDict [("data", JNull)]) "data.user" = JStr MISSING
  /\ get_nested (JList []) "" = JStr MISSING.
Proof. repeat split. Qed.

Example extract_refresh_cookie_example :
  extract_refresh_cookie
    (mkResponse 200
       [("set-cookie", "a=b; nexa_refresh_token=abc=def; Path=/")] None "")
  = Some "abc=def".
Proof. reflexivity. Qed.

Example dumps_example :
  Json.dumps (JDict [("a", JList [JNum 1; JStr "x"; JNull]); ("b", JDict [])])
  = "{" ++ Json.quote "a" ++ ": [1, " ++ Json.quote "x" ++ ", null], "
    ++ Json.quote "b" ++ ": {}}".
Proof. reflexivity. Qed.

Example loads_example :
  Json.loads ("[1, {" ++ Json.quote "k" ++ " : true}] ")
  = Json.Parsed (JList [JNum 1; JDict [("k", JBool true)]]) ""
  /\ Json.loads "[1,]" = Json.Invalid
  /\ Json.loads "01" = Json.Invalid
  /\ Json.loads "1.5" = Json.Unmodelled.
Proof. repeat split. Qed.

(** The two login scenarios: the expected answer passes with both
    assertions true; a 401 fails, with the status assertion false and the
    exact-value assertion reporting no actual value. *)
Example login_scenarios :
  (exists r w,
     run_test Sample.base (Sample.always Sample.login_ok_response)
       (Sample.open_endpoint "POST" "/auth/login") Sample.login_email_case
       Sample.world0 = (Ok r, w)
     /\ r_status r = "pass"
     /\ List.map a_passed (r_assertions r) = [Some true; Some true]
     /\ access_token (state w) = JStr "t0")
  /\ (exists r w,
        run_test Sample.base (Sample.always Sample.login_denied_response)
          (Sample.open_endpoint "POST" "/auth/login") Sample.login_email_case
          Sample.world0 = (Ok r, w)
        /\ r_status r = "fail"
        /\ List.map a_passed (r_assertions r) = [Some false; Some false]
        /\ List.map a_actual (r_assertions r)
           = [Some (JNum 401); Some JNull]
        /\ access_token (state w) = JNull).
Proof.
  split; do 2 eexists; (split; [vm_compute; reflexivity | repeat split]).
Qed.

(** ** The dotted-path lookup *)

Lemma get_path_reaches : forall keys obj v,
  reaches obj keys v -> get_path obj keys = v.
Proof.
  intros keys obj v H. induction H as [v | d k keys v r Hk _ IH].
  - reflexivity.
  - simpl. rewrite Hk. exact IH.
Qed.

Lemma get_path_breaks : forall keys obj,
  breaks_off obj keys -> get_path obj keys = JStr MISSING.
Proof.
  intros keys obj H.
  induction H as [v k keys Hv | d k keys Hk | d k keys v Hk _ IH]; simpl.
  - destruct v; simpl in Hv; try reflexivity. discriminate.
  - now rewrite Hk.
  - now rewrite Hk.
Qed.

Lemma reaches_or_breaks : forall keys obj,
  (exists v, reaches obj keys v) \/ breaks_off obj keys.
Proof.
  induction keys as [| k keys IH]; intros obj.
  - left. exists obj. constructor.
  - destruct obj as [| b | z | s | l | d];
      try (right; apply breaks_not_dict; reflexivity).
    destruct (PyDict.get k d) as [v |] eqn:Hk.
    + destruct (IH v) as [[r Hr] | Hb].
      * left. exists r. econstructor; eassumption.
      * right. eapply breaks_later; eassumption.
    + right. now apply breaks_no_key.
Qed.

Lemma reaches_not_breaks : forall keys obj v,
  reaches obj keys v -> ~ breaks_off obj keys.
Proof.
  intros keys obj v H. induction H as [v | d k keys v r Hk _ IH]; intro Hb.
  - inversion Hb.
  - inversion Hb; subst; try discriminate; congruence.
Qed.

Lemma is_missing_iff : forall v, is_missing v = true <-> v = JStr MISSING.
Proof.
  intros v. unfold is_missing. destruct v; simpl; split; intro H;
    try discriminate; try congruence.
  - apply String.eqb_eq in H. now subst.
  - injection H as ->. apply String.eqb_refl.
Qed.

(** C10. The dotted-path lookup is a total function of any value and any
    dotted key: it returns the value reached by following each key of
    the split through nested dicts, or else the missing marker, exactly
    when some value on the way is not a dict or lacks its key; the two
    cases exclude each other.  A reached value equal to the marker string
    is reported as missing, like an absent path. *)
Theorem get_nested_total_spec : forall (obj : json) (dotted_key : string),
  ((exists v, reaches obj (PyStr.split "." dotted_key) v
              /\ get_nested obj dotted_key = v
              /\ ~ breaks_off obj (PyStr.split "." dotted_key))
   \/ (breaks_off obj (PyStr.split "." dotted_key)
       /\ get_nested obj dotted_key = JStr MISSING
       /\ ~ exists v, reaches obj (PyStr.split "." dotted_key) v))
  /\ (reaches obj (PyStr.split "." dotted_key) (JStr MISSING) ->
      is_missing (get_nested obj dotted_key) = true
      /\ body_contains_found obj dotted_key
         = negb (is_missing (get_nested obj ("data." ++ dotted_key)))).
Proof.
  intros obj dotted_key. set (keys := PyStr.split "." dotted_key). split.
  - destruct (reaches_or_breaks keys obj) as [[v Hv] | Hb].
    + left. exists v. split; [exact Hv |]. split.
      * now apply get_path_reaches.
      * eapply reaches_not_breaks; eassumption.
    + right. split; [exact Hb |]. split.
      * now apply get_path_breaks.
      * intros [v Hv]. eapply reaches_not_breaks; eassumption.
  - intros H. pose proof (get_path_reaches _ _ _ H) as E.
    unfold body_contains_found, get_nested. fold keys. rewrite E.
    split; reflexivity.
Qed.

(** ** The assertion evaluator *)

Lemma nth_error_map_some : forall (A B : Type) (f : A -> B) l n x,
  nth_error l n = Some x -> nth_error (List.map f l) n = Some (f x).
Proof.
  intros A B f l. induction l as [| y l IH]; intros [| n] x H;
    simpl in *; try discriminate.
  - now injection H as ->.
  - now apply IH.
Qed.

(** C8. The assertion of the n-th declared body path is the one after
    the status assertion and the n earlier paths; it looks the path up at
    the top level and, only when that reports the path missing, under
    "data."; it passes iff one of the two lookups does not report the
    path missing. *)
Theorem body_contains_envelope :
  forall (tc : TestCase) (status : option Z) (body : json)
         (resp : option Response) (n : nat) (field : string),
    nth_error (exp_body_contains (tc_expected tc)) n = Some field ->
    exists a,
      nth_error (run_assertions tc status body resp) (S n) = Some a
      /\ a_check a = "body contains '" ++ field ++ "'"
      /\ a_passed a
         = Some (if is_missing (get_nested body field)
                 then negb (is_missing (get_nested body ("data." ++ field)))
                 else true)
      /\ (a_passed a = Some true <->
          get_nested body field <> JStr MISSING
          \/ get_nested body ("data." ++ field) <> JStr MISSING).
Proof.
  intros tc status body resp n field Hn.
  exists (simple_assertion ("body contains '" ++ field ++ "'")
            (body_contains_found body field)).
  assert (Hfound : body_contains_found body field
                   = if is_missing (get_nested body field)
                     then negb (is_missing (get_nested body ("data." ++ field)))
                     else true).
  { unfold body_contains_found.
    destruct (is_missing (get_nested body field)) eqn:E; [reflexivity |].
    now rewrite E. }
  split; [| split; [reflexivity | split]].
  - unfold run_assertions, assert_status. cbn [app nth_error].
    rewrite nth_error_app1.
    + now apply nth_error_map_some
        with (f := fun field =>
                     simple_assertion ("body contains '" ++ field ++ "'")
                       (body_contains_found body field)).
    + unfold assert_body_contains. rewrite length_map.
      apply nth_error_Some. congruence.
  - cbn [a_passed simple_assertion]. now rewrite Hfound.
  - cbn [a_passed simple_assertion]. rewrite Hfound.
    destruct (is_missing (get_nested body field)) eqn:E1.
    + apply is_missing_iff in E1.
      destruct (is_missing (get_nested body ("data." ++ field))) eqn:E2.
      * apply is_missing_iff in E2. cbn [negb]. split; [discriminate |].
        intros [H | H]; contradiction.
      * cbn [negb]. split; [| reflexivity]. intros _. right. intro H.
        apply (proj2 (is_missing_iff _)) in H. congruence.
    + split; [| reflexivity]. intros _. left. intro H.
      apply (proj2 (is_missing_iff _)) in H. congruence.
Qed.



Lemma truthy_str_some : forall c, c <> "" -> truthy_str (Some c) = true.
Proof.
  intros c Hc. unfold truthy_str.
  destruct (String.eqb c "") eqn:E; [| reflexivity].
  apply String.eqb_eq in E. contradiction.
Qed.


(** With a response whose status is within 400..599, or with no response,
    the cookie-cleared step adds nothing to the assertion list. *)
Lemma cookie_cleared_guard : forall expected resp,
  resp_present resp = false -> assert_cookie_cleared expected resp = [].
Proof.
  intros expected resp H. unfold assert_cookie_cleared. rewrite H.
  now rewrite andb_false_r.
Qed.

(** The two scenarios of the cookie-cleared check. *)
Lemma cookie_cleared_scenarios :
  cookie_is_cleared "session_token" "session_token=; Max-Age=0" = true
  /\ cookie_is_cleared "session_token" "session_token=abc123" = false.
Proof. split; reflexivity. Qed.


(** ** Header resolution *)

Lemma dict_get_set_same : forall (A : Type) k (v : A) d,
  PyDict.get k (PyDict.set k v d) = Some v.
Proof.
  intros A k v d. induction d as [| [k' v'] d IH]; simpl.
  - now rewrite String.eqb_refl.
  - destruct (String.eqb k k') eqn:E; simpl.
    + now rewrite String.eqb_refl.
    + now rewrite E.
Qed.

Lemma dict_get_set_other : forall (A : Type) k k' (v : A) d,
  k <> k' -> PyDict.get k (PyDict.set k' v d) = PyDict.get k d.
Proof.
  intros A k k' v d Hk. apply String.eqb_neq in Hk.
  induction d as [| [k0 v0] d IH]; simpl.
  - now rewrite Hk.
  - destruct (String.eqb k' k0) eqn:E; simpl.
    + apply String.eqb_eq in E. subst k0. now rewrite Hk.
    + destruct (String.eqb k k0); auto.
Qed.

(** The Authorization header after [resolve_headers] is the one the
    Authorization branch wrote. *)
Lemma resolve_headers_authorization : forall st headers_spec id val v,
  PyDict.get "Authorization" headers_spec = Some val ->
  resolve_authorization st val = Ok (Some v) ->
  exists headers,
    resolve_headers st headers_spec id = Ok headers
    /\ PyDict.get "Authorization" headers = Some (JStr v).
Proof.
  intros st headers_spec id val v Hget Hres.
  unfold resolve_headers. rewrite Hget, Hres. cbn [obind].
  destruct (PyDict.get "X-Company-ID" headers_spec) as [cval |].
  - destruct (PyStr.contains "<" cval && PyStr.contains ">" cval).
    + eexists. split; [reflexivity |].
      rewrite dict_get_set_other by discriminate.
      apply dict_get_set_same.
    + eexists. split; [reflexivity |]. apply dict_get_set_same.
  - eexists. split; [reflexivity |]. apply dict_get_set_same.
Qed.

(** C4. When the Authorization header of the template contains one of the
    live-token markers, [resolve_headers] returns headers whose
    Authorization is "Bearer " followed by the held access token when one
    is held, and the fixed sentinel "Bearer __NO_TOKEN_AVAILABLE__" when
    none is held, as in the state a run starts with. *)
Theorem live_token_authorization :
  forall (st : State) (headers_spec : list (string * string))
         (id val : string),
    PyDict.get "Authorization" headers_spec = Some val ->
    existsb (fun p => PyStr.contains p val) LIVE_TOKEN_MARKERS = true ->
    (forall tok, access_token st = JStr tok -> tok <> "" ->
       exists headers,
         resolve_headers st headers_spec id = Ok headers
         /\ PyDict.get "Authorization" headers
            = Some (JStr ("Bearer " ++ tok)))
    /\ (truthy (access_token st) = false ->
        exists headers,
          resolve_headers st headers_spec id = Ok headers
          /\ PyDict.get "Authorization" headers
             = Some (JStr "Bearer __NO_TOKEN_AVAILABLE__"))
    /\ access_token initial_state = JNull
    /\ truthy JNull = false.
Proof.
  intros st headers_spec id val Hget Hmark. repeat split.
  - intros tok Htok Hne.
    apply resolve_headers_authorization with (val := val); [exact Hget |].
    unfold resolve_authorization. rewrite Hmark, Htok. cbn [truthy py_str].
    destruct (String.eqb tok "") eqn:E; [| reflexivity].
    apply String.eqb_eq in E. contradiction.
  - intros Hnone.
    apply resolve_headers_authorization with (val := val); [exact Hget |].
    unfold resolve_authorization. now rewrite Hmark, Hnone.
Qed.

Lemma live_token_authorization_witness :
  (exists headers,
     resolve_headers
       (mkState (JStr "eyJhbGciOi") None JNull JNull [] None)
       [("Authorization", "Bearer <valid-access-token>")] "USERS-001"
     = Ok headers
     /\ PyDict.get "Authorization" headers
        = Some (JStr "Bearer eyJhbGciOi"))
  /\ (exists headers,
        resolve_headers initial_state
          [("Authorization", "Bearer <admin-token>")] "USERS-002"
        = Ok headers
        /\ PyDict.get "Authorization" headers
           = Some (JStr "Bearer __NO_TOKEN_AVAILABLE__")).
Proof.
  split.
  - apply (proj1 (live_token_authorization
                    (mkState (JStr "eyJhbGciOi") None JNull JNull [] None)
                    [("Authorization", "Bearer <valid-access-token>")]
                    "USERS-001" "Bearer <valid-access-token>"
                    eq_refl eq_refl) "eyJhbGciOi" eq_refl).
    discriminate.
  - apply (proj1 (proj2 (live_token_authorization initial_state
                    [("Authorization", "Bearer <admin-token>")]
                    "USERS-002" "Bearer <admin-token>"
                    eq_refl eq_refl)) eq_refl).
Defined.

(** ** Scoring *)

Lemma all_passed_iff : forall assertions,
  all_passed assertions = true <->
  (exists a, In a assertions /\ a_passed a <> None)
  /\ (forall a, In a assertions -> a_passed a <> None ->
                a_passed a = Some true).
Proof.
  intros assertions. unfold all_passed.
  assert (Hall : forallb passed_true (List.filter is_definite assertions) = true
                 <-> forall a, In a assertions -> a_passed a <> None ->
                               a_passed a = Some true).
  { rewrite forallb_forall. split.
    - intros H a Ha Hd.
      assert (Hin : In a (List.filter is_definite assertions)).
      { apply filter_In. split; [exact Ha |]. unfold is_definite.
        destruct (a_passed a); [reflexivity | contradiction]. }
      specialize (H a Hin). unfold passed_true in H.
      destruct (a_passed a) as [[|] |]; congruence.
    - intros H a Ha. apply filter_In in Ha as [Ha Hd].
      unfold is_definite in Hd. unfold passed_true.
      destruct (a_passed a) as [b |] eqn:E; [| discriminate].
      assert (Hb : Some b = Some true) by (rewrite <- E; apply (H a Ha); congruence).
      now injection Hb as ->. }
  destruct (List.filter is_definite assertions) as [| a0 l] eqn:Ef.
  - split; [discriminate |]. intros [[a [Ha Hd]] _]. exfalso.
    assert (Hin : In a (List.filter is_definite assertions)).
    { apply filter_In. split; [exact Ha |]. unfold is_definite.
      destruct (a_passed a); [reflexivity | contradiction]. }
    rewrite Ef in Hin. exact Hin.
  - rewrite Hall. split.
    + intros H. split; [| exact H]. exists a0.
      assert (Hin : In a0 (List.filter is_definite assertions))
        by (rewrite Ef; now left).
      apply filter_In in Hin as [Hin Hd]. split; [exact Hin |].
      unfold is_definite in Hd. destruct (a_passed a0); congruence.
    + intros [_ H]. exact H.
Qed.

Section RunTest.

Variable BASE_URL : string.
Variable http : list HttpCall -> HttpCall -> http_outcome.

(** C1. For an executed (not skipped) case, the result that [run_test]
    returns has status "pass" iff its assertion list has an assertion
    with a non-null outcome and every assertion with a non-null outcome
    passed; so a result whose assertions all have null outcomes is not
    "pass". *)
Theorem pass_iff_definite_all_passed :
  forall (endpoint : Endpoint) (tc : TestCase) (w w' : World) (r : Result),
    skip_reason (tc_id tc) = None ->
    run_test BASE_URL http endpoint tc w = (Ok r, w') ->
    (r_status r = "pass" <->
     (exists a, In a (r_assertions r) /\ a_passed a <> None)
     /\ (forall a, In a (r_assertions r) -> a_passed a <> None ->
                   a_passed a = Some true))
    /\ ((forall a, In a (r_assertions r) -> a_passed a = None) ->
        r_status r <> "pass").
Proof.
  intros endpoint tc w w' r Hskip Hrun.
  assert (Hiff : r_status r = "pass" <->
     (exists a, In a (r_assertions r) /\ a_passed a <> None)
     /\ (forall a, In a (r_assertions r) -> a_passed a <> None ->
                   a_passed a = Some true)).
  { unfold run_test in Hrun. rewrite Hskip in Hrun. unfold bind in Hrun.
    destruct (preconditions BASE_URL http endpoint tc w) as [[[] | e |] w1];
      try discriminate.
    destruct (warm_up BASE_URL http tc w1) as [[[] | e |] w2];
      try discriminate.
    destruct (primary_call BASE_URL http tc w2)
      as [[[[[status body] resp] err] | e |] w3]; try discriminate.
    destruct (truthy_str err).
    - injection Hrun as <- _. cbn. split; [discriminate |].
      intros [_ H]. specialize (H TRANSPORT_ASSERTION (or_introl eq_refl)).
      cbn in H. assert (Some false = Some true) by (apply H; discriminate).
      discriminate.
    - destruct (capture_state (tc_request tc) status body resp w3)
        as [[[] | e |] w4]; try discriminate.
      injection Hrun as <- _. unfold score, make_result.
      cbn [r_status r_assertions].
      rewrite <- all_passed_iff.
      destruct (all_passed (run_assertions tc status body resp));
        split; congruence. }
  split; [exact Hiff |].
  intros Hnull Hpass. apply Hiff in Hpass as [[a [Ha Hd]] _].
  apply Hd. now apply Hnull.
Qed.

Lemma skip_seed_lookup : forall id reason,
  In (id, reason) SKIP_MISSING_SEED ->
  skip_reason id = Some reason.
Proof.
  intros id reason H. unfold SKIP_MISSING_SEED in H. simpl in H.
  repeat (destruct H as [H | H];
          [injection H as <- <-; reflexivity |]).
  contradiction.
Qed.

Lemma skip_totp_lookup : forall id,
  In id SKIP_TOTP_TESTS -> skip_reason id = Some SKIP_TOTP_REASON.
Proof.
  intros id H. unfold SKIP_TOTP_TESTS in H. simpl in H.
  repeat (destruct H as [H | H]; [subst id; reflexivity |]).
  contradiction.
Qed.

(** C2. For a case whose identifier is in one of the two static skip
    tables, [run_test] returns at once: the world is unchanged (no HTTP
    call is logged, no state is touched) and the result has status
    "skip", no assertion, and as its error the reason configured for
    the identifier: the TOTP reason for the TOTP set, the entry of the
    identifier for the missing-seed table. *)
Theorem skipped_case_issues_no_request :
  forall (endpoint : Endpoint) (tc : TestCase) (w : World),
    In (tc_id tc) SKIP_TOTP_TESTS
    \/ (exists reason, In (tc_id tc, reason) SKIP_MISSING_SEED) ->
    exists r,
      run_test BASE_URL http endpoint tc w = (Ok r, w)
      /\ r_status r = "skip"
      /\ r_assertions r = []
      /\ r_actual_status r = None
      /\ (In (tc_id tc) SKIP_TOTP_TESTS ->
          r_error r = Some SKIP_TOTP_REASON)
      /\ (forall reason, In (tc_id tc, reason) SKIP_MISSING_SEED ->
          r_error r = Some reason).
Proof.
  intros endpoint tc w Hin.
  assert (Hsk : exists reason, skip_reason (tc_id tc) = Some reason).
  { destruct Hin as [H | [reason H]].
    - eexists. now apply skip_totp_lookup.
    - exists reason. now apply skip_seed_lookup. }
  destruct Hsk as [reason Hsk].
  exists (make_result endpoint tc "skip" None JNull [] (Some reason)).
  split; [unfold run_test; now rewrite Hsk |].
  repeat split.
  - intros H. apply skip_totp_lookup in H. cbn. congruence.
  - intros reason' H. apply skip_seed_lookup in H. cbn. congruence.
Qed.

End RunTest.

Lemma pass_iff_definite_all_passed_witness :
  exists r w',
    run_test Sample.base
      (Sample.always (Sample.cookie_response 200 "session_token=; Max-Age=0"))
      (Sample.open_endpoint "POST" "/auth/logout")
      (Sample.logout_case 200) Sample.world0 = (Ok r, w')
    /\ (r_status r = "pass" <->
        (exists a, In a (r_assertions r) /\ a_passed a <> None)
        /\ (forall a, In a (r_assertions r) -> a_passed a <> None ->
                      a_passed a = Some true)).
Proof.
  eexists. eexists.
  match goal with
  | |- ?A /\ _ => assert (E : A) by (vm_compute; reflexivity)
  end.
  split; [exact E |].
  exact (proj1 (pass_iff_definite_all_passed Sample.base _
                  (Sample.open_endpoint "POST" "/auth/logout")
                  (Sample.logout_case 200) Sample.world0 _ _
                  (eq_refl : skip_reason (tc_id (Sample.logout_case 200)) = None)
                  E)).
Defined.

Lemma skipped_case_issues_no_request_witness :
  exists r,
    run_test Sample.base Sample.unreachable
      (mkEndpoint "POST" "/auth/login" true [])
      (mkTestCase "LOGIN-011" "lockout after five failures" "negative"
         (mkRequestSpec "POST" "/auth/login" [] JNull [] 6)
         (Sample.no_expectation 423) [])
      Sample.world0 = (Ok r, Sample.world0)
    /\ r_status r = "skip"
    /\ r_error r
       = Some "Account lockout requires 5+ sequential argon2 verifications (>30s total, times out)".
Proof.
  destruct (skipped_case_issues_no_request Sample.base Sample.unreachable
              (mkEndpoint "POST" "/auth/login" true [])
              (mkTestCase "LOGIN-011" "lockout after five failures" "negative"
                 (mkRequestSpec "POST" "/auth/login" [] JNull [] 6)
                 (Sample.no_expectation 423) [])
              Sample.world0)
    as (r & Hrun & Hst & _ & _ & _ & Hreason).
  - right. eexists. simpl. right. left. reflexivity.
  - exists r. split; [exact Hrun |]. split; [exact Hst |].
    apply Hreason. simpl. right. left. reflexivity.
Defined.

Lemma body_contains_envelope_witness :
  exists a,
    nth_error
      (run_assertions
         (mkTestCase "LOGIN-001" "valid login" "positive"
            (mkRequestSpec "POST" "/auth/login" [] JNull [] 1)
            (mkExpectation 200 ["accessToken"] [] [] None None None) [])
         (Some 200)
         (JDict [("success", JBool true);
                 ("data", JDict [("accessToken", JStr "t0")])])
         None) 1
    = Some a
    /\ a_check a = "body contains 'accessToken'"
    /\ a_passed a = Some true.
Proof.
  destruct (body_contains_envelope
              (mkTestCase "LOGIN-001" "valid login" "positive"
                 (mkRequestSpec "POST" "/auth/login" [] JNull [] 1)
                 (mkExpectation 200 ["accessToken"] [] [] None None None) [])
              (Some 200)
              (JDict [("success", JBool true);
                      ("data", JDict [("accessToken", JStr "t0")])])
              None 0%nat "accessToken" eq_refl)
    as (a & Hn & Hc & Hp & _).
  exists a. split; [exact Hn |]. split; [exact Hc |].
  rewrite Hp. reflexivity.
Defined.

Lemma get_nested_total_spec_witness :
  reaches (JDict [("token", JStr MISSING)]) (PyStr.split "." "token")
    (JStr MISSING)
  /\ is_missing (get_nested (JDict [("token", JStr MISSING)]) "token") = true
  /\ get_nested (JDict [("token", JStr MISSING)]) "token"
     = get_nested (JDict []) "token".
Proof.
  assert (H : reaches (JDict [("token", JStr MISSING)])
                (PyStr.split "." "token") (JStr MISSING)).
  { apply reaches_step with (v := JStr MISSING); [reflexivity | constructor]. }
  split; [exact H |]. split.
  - exact (proj1 (proj2 (get_nested_total_spec
                           (JDict [("token", JStr MISSING)]) "token") H)).
  - reflexivity.
Defined.

(** ** Reasoning about computations in [M] *)

Section Keeps.

Context {R : World -> World -> Prop}.
Hypothesis R_refl : forall w, R w w.
Hypothesis R_trans : forall a b c, R a b -> R b c -> R a c.

Lemma keeps_ret : forall (A : Type) (a : A), keeps R (ret a).
Proof. intros A a w o w' H. injection H as _ <-. apply R_refl. Qed.

Lemma keeps_raise : forall (A : Type) (e : exn), keeps R (@raise A e).
Proof. intros A e w o w' H. injection H as _ <-. apply R_refl. Qed.

Lemma keeps_lift : forall (A : Type) (o : outcome A), keeps R (lift o).
Proof. intros A o w o' w' H. injection H as _ <-. apply R_refl. Qed.

Lemma keeps_get_state : keeps R get_state.
Proof. intros w o w' H. injection H as _ <-. apply R_refl. Qed.

Lemma keeps_set_state : forall f,
  (forall w, R w (mkWorld (f (state w)) (log w))) -> keeps R (set_state f).
Proof. intros f Hf w o w' H. injection H as _ <-. apply Hf. Qed.

Lemma keeps_bind : forall (A B : Type) (m : M A) (k : A -> M B),
  keeps R m -> (forall a, keeps R (k a)) -> keeps R (bind m k).
Proof.
  intros A B m k Hm Hk w o w' H. unfold bind in H.
  destruct (m w) as [[a | e |] w1] eqn:E.
  - eapply R_trans; [eapply Hm; exact E | eapply Hk; exact H].
  - injection H as _ <-. eapply Hm; exact E.
  - injection H as _ <-. eapply Hm; exact E.
Qed.

Lemma keeps_try_except : forall (A : Type) (m : M A) (h : exn -> M A),
  keeps R m -> (forall e, keeps R (h e)) -> keeps R (try_except m h).
Proof.
  intros A m h Hm Hh w o w' H. unfold try_except in H.
  destruct (m w) as [[a | e |] w1] eqn:E.
  - injection H as _ <-. eapply Hm; exact E.
  - eapply R_trans; [eapply Hm; exact E | eapply Hh; exact H].
  - injection H as _ <-. eapply Hm; exact E.
Qed.

End Keeps.

Lemma unstuck_ret : forall (A : Type) (a : A), unstuck (ret a).
Proof. intros A a w. discriminate. Qed.

Lemma unstuck_raise : forall (A : Type) (e : exn), unstuck (@raise A e).
Proof. intros A e w. discriminate. Qed.

Lemma unstuck_set_state : forall f, unstuck (set_state f).
Proof. intros f w. discriminate. Qed.

Lemma unstuck_get_state : unstuck get_state.
Proof. intros w. discriminate. Qed.

Lemma unstuck_json_get : forall v k default,
  unstuck (lift (json_get v k default)).
Proof. intros v k default w. destruct v; discriminate. Qed.

Lemma unstuck_bind : forall (A B : Type) (m : M A) (k : A -> M B),
  unstuck m -> (forall a, unstuck (k a)) -> unstuck (bind m k).
Proof.
  intros A B m k Hm Hk w. unfold bind. specialize (Hm w).
  destruct (m w) as [[a | e |] w1]; simpl in *.
  - apply Hk.
  - discriminate.
  - contradiction.
Qed.

Lemma unstuck_try_except : forall (A : Type) (m : M A) (h : exn -> M A),
  unstuck m -> (forall e, unstuck (h e)) -> unstuck (try_except m h).
Proof.
  intros A m h Hm Hh w. unfold try_except. specialize (Hm w).
  destruct (m w) as [[a | e |] w1]; simpl in *.
  - discriminate.
  - apply Hh.
  - contradiction.
Qed.

Ltac unstuck_steps :=
  repeat first
    [ apply unstuck_ret
    | apply unstuck_raise
    | apply unstuck_set_state
    | apply unstuck_get_state
    | apply unstuck_json_get
    | apply unstuck_bind; [| intros]
    | match goal with
      | |- unstuck (if ?b then _ else _) => destruct b
      | |- unstuck (match ?x with _ => _ end) => destruct x
      end ].

Lemma same_identity_refl : forall w, same_identity w w.
Proof. intros w. repeat split. Qed.

Lemma same_identity_trans : forall a b c,
  same_identity a b -> same_identity b c -> same_identity a c.
Proof.
  intros a b c (H1 & H2 & H3 & H4) (K1 & K2 & K3 & K4).
  repeat split; congruence.
Qed.

Lemma truthy_str_true : forall o,
  truthy_str o = true -> exists s, o = Some s /\ s <> "".
Proof.
  intros [s |] H; simpl in H; [| discriminate].
  exists s. split; [reflexivity |]. intros ->. discriminate.
Qed.

(** Take a run of a computation apart, one scrutinee at a time. *)
Ltac run_cases_in H :=
  repeat (cbv beta iota zeta
               delta [bind lift set_state get_state ret raise try_except] in H;
          match type of H with
          | context [match ?x with _ => _ end] =>
              lazymatch x with
              | context [match _ with _ => _ end] => fail
              | _ => destruct x eqn:?
              end
          end).

Section Capture.

Lemma capture_refresh_effect :
  forall req status body resp w o w',
    capture_refresh req status body resp w = (o, w') ->
    same_identity w w' /\ cookie_rotated w w'.
Proof.
  intros req status body resp w o w' H.
  unfold capture_refresh, refresh_cookie_of, rotate_cookie in H.
  run_cases_in H;
    cbv beta iota zeta
        delta [bind lift set_state get_state ret raise try_except] in H;
    injection H as _ <-;
    cbn [state log admin_user_id company_id created_user_ids
         refresh_cookie_value old_refresh_cookie_value];
    (split; [repeat split |]);
    try (left; split; reflexivity);
    match goal with
    | E : truthy_str _ = true |- _ =>
        apply truthy_str_true in E as (cv & Ecv & Hne);
        right; exists cv; cbn; rewrite ?Ecv; repeat split; auto
    end.
Qed.

Lemma capture_login_elsewhere : forall req status body resp,
  req_url req <> "/auth/login" ->
  capture_login req status body resp = ret tt.
Proof.
  intros req status body resp H. unfold capture_login.
  apply String.eqb_neq in H. now rewrite H.
Qed.

(** C9. State capture for a request to "/auth/refresh" (whatever it
    returns, and for the status 200 in particular) leaves the admin user
    id, the company id and the list of created user ids as they were and
    makes no HTTP call; of the cookie slots, either both are unchanged,
    or the refresh cookie has a new non-empty value and the previous one
    has moved to the old-cookie slot.  Only the access token and the two
    cookie slots can differ. *)
Theorem refresh_capture_frame :
  forall (req : RequestSpec) (status : option Z) (body : json)
         (resp : option Response) (w w' : World) (o : outcome unit),
    req_url req = "/auth/refresh" ->
    status = Some 200 ->
    capture_state req status body resp w = (o, w') ->
    admin_user_id (state w') = admin_user_id (state w)
    /\ company_id (state w') = company_id (state w)
    /\ created_user_ids (state w') = created_user_ids (state w)
    /\ log w' = log w
    /\ cookie_rotated w w'.
Proof.
  intros req status body resp w w' o Hurl Hstatus H.
  unfold capture_state in H.
  rewrite capture_login_elsewhere in H by (rewrite Hurl; discriminate).
  assert (Hcreated : capture_created req status body = ret tt).
  { unfold capture_created. rewrite Hurl.
    replace (PyStr.contains "/system/users" "/auth/refresh") with false
      by reflexivity.
    now rewrite andb_false_r. }
  rewrite Hcreated in H. unfold bind at 1 2 in H. cbn [ret] in H.
  destruct (capture_refresh req status body resp w) as [[[] | e |] w1] eqn:E;
    cbn [ret] in H; injection H as _ <-;
    destruct (capture_refresh_effect _ _ _ _ _ _ _ E)
      as ((H1 & H2 & H3 & H4) & Hc); auto.
Qed.

End Capture.

Lemma refresh_capture_frame_witness :
  exists o w',
    capture_state (mkRequestSpec "POST" "/auth/refresh" [] JNull [] 1)
      (Some 200)
      (JDict [("data", JDict [("accessToken", JStr "t2")])])
      (Some (mkResponse 200
               [("Set-Cookie", "nexa_refresh_token=r2; Path=/; HttpOnly")]
               None ""))
      (mkWorld (mkState (JStr "t1") (Some "r1") (JStr "u1") (JStr "c1")
                  [JStr "n1"] None) [])
    = (o, w')
    /\ admin_user_id (state w') = JStr "u1"
    /\ company_id (state w') = JStr "c1"
    /\ created_user_ids (state w') = [JStr "n1"]
    /\ access_token (state w') = JStr "t2"
    /\ refresh_cookie_value (state w') = Some "r2"
    /\ old_refresh_cookie_value (state w') = Some "r1".
Proof.
  eexists. eexists.
  match goal with
  | |- ?A /\ _ => assert (E : A) by (vm_compute; reflexivity)
  end.
  split; [exact E |].
  destruct (refresh_capture_frame
              (mkRequestSpec "POST" "/auth/refresh" [] JNull [] 1)
              (Some 200) _ _ _ _ _ eq_refl eq_refl E)
    as (H1 & H2 & H3 & _ & _).
  split; [exact H1 |]. split; [exact H2 |]. split; [exact H3 |].
  repeat split.
Defined.

(** ** The calls of a run *)

Section Calls.

Variable BASE_URL : string.
Variable http : list HttpCall -> HttpCall -> http_outcome.

Lemma execute_request_eq : forall method url headers json_body cookies w,
  execute_request BASE_URL http method url headers json_body cookies w
  = (Ok (tuple_of
           (http (log w) (call_of BASE_URL method url headers json_body cookies))),
     after_call w (call_of BASE_URL method url headers json_body cookies)).
Proof.
  intros. unfold execute_request, call_of, after_call, tuple_of.
  destruct (http (log w) _) as [resp | [| |] msg]; reflexivity.
Qed.

Lemma tuple_of_failed : forall kind msg,
  exists err, tuple_of (Failed kind msg) = (None, JNull, None, Some err)
              /\ truthy_str (Some err) = true.
Proof.
  intros [| |] msg; eexists; (split; [reflexivity | reflexivity]).
Qed.

Lemma tuple_of_responded : forall resp,
  tuple_of (Responded resp)
  = (Some (status_code resp), body_of resp, Some resp, None).
Proof. reflexivity. Qed.

Lemma primary_call_eq : forall tc w,
  primary_call BASE_URL http tc w
  = match primary_request BASE_URL (state w) tc with
    | Ok c => (Ok (tuple_of (http (log w) c)), after_call w c)
    | Raise e => (Raise e, w)
    | Stuck => (Stuck, w)
    end.
Proof.
  intros tc w. unfold primary_call, primary_request.
  cbv beta iota zeta delta [bind lift get_state].
  destruct (resolve_url (state w) (req_url (tc_request tc)))
    as [url | e |]; cbn [obind]; try reflexivity.
  destruct (resolve_headers (state w) (req_headers (tc_request tc)) (tc_id tc))
    as [headers | e |]; cbn [obind]; try reflexivity.
  destruct (resolve_body (state w) (req_body (tc_request tc)) (tc_id tc))
    as [json_body | e |]; cbn [obind]; try reflexivity.
  apply execute_request_eq.
Qed.

Lemma warm_up_call_eq : forall tc w,
  warm_up_call BASE_URL http tc w
  = match warm_up_request BASE_URL (state w) tc with
    | Ok c => (Ok tt, after_call w c)
    | Raise e => (Ok tt, w)
    | Stuck => (Stuck, w)
    end.
Proof.
  intros tc w. unfold warm_up_call, warm_up_request.
  cbv beta iota zeta delta [bind lift get_state try_except ret].
  destruct (resolve_headers (state w) (req_headers (tc_request tc)) (tc_id tc))
    as [headers | e |]; cbn [obind]; try reflexivity.
  destruct (resolve_body (state w) (req_body (tc_request tc)) (tc_id tc))
    as [json_body | e |]; cbn [obind]; try reflexivity.
  now rewrite execute_request_eq.
Qed.

Lemma times_warm_up : forall tc c n w,
  warm_up_request BASE_URL (state w) tc = Ok c ->
  times n (warm_up_call BASE_URL http tc) w
  = (Ok tt, mkWorld (state w) (log w ++ repeat c n)).
Proof.
  intros tc c n. induction n as [| n IH]; intros w Hc.
  - cbn. rewrite app_nil_r. now destruct w.
  - cbn [times repeat]. unfold bind. rewrite warm_up_call_eq, Hc.
    rewrite IH by exact Hc. cbn [after_call state log].
    now rewrite <- app_assoc.
Qed.

(** A warm-up call shares the method, the resolved headers and the
    resolved body of the scored call; its URL is the template's and it
    carries no cookies. *)
Lemma warm_up_of_primary : forall st tc final,
  primary_request BASE_URL st tc = Ok final ->
  exists warm,
    warm_up_request BASE_URL st tc = Ok warm
    /\ call_method warm = call_method final
    /\ call_headers warm = call_headers final
    /\ call_json warm = call_json final
    /\ call_url warm = BASE_URL ++ req_url (tc_request tc)
    /\ call_cookies warm = None.
Proof.
  intros st tc final H. unfold primary_request in H. unfold warm_up_request.
  destruct (resolve_url st (req_url (tc_request tc)))
    as [url | e |]; cbn [obind] in H; try discriminate.
  destruct (resolve_headers st (req_headers (tc_request tc)) (tc_id tc))
    as [headers | e |]; cbn [obind] in *; try discriminate.
  destruct (resolve_body st (req_body (tc_request tc)) (tc_id tc))
    as [json_body | e |]; cbn [obind] in *; try discriminate.
  injection H as <-. eexists. split; [reflexivity |]. repeat split.
Qed.

End Calls.

(** ** The pre-condition step *)

Lemma same_log_refl : forall w, same_log w w.
Proof. reflexivity. Qed.

Lemma same_log_trans : forall a b c,
  same_log a b -> same_log b c -> same_log a c.
Proof. unfold same_log. intros; congruence. Qed.

Ltac same_log_steps :=
  repeat first
    [ apply (keeps_ret same_log_refl)
    | apply (keeps_raise same_log_refl)
    | apply (keeps_lift same_log_refl)
    | apply (keeps_get_state same_log_refl)
    | apply keeps_set_state; intros; reflexivity
    | apply (keeps_bind same_log_trans); [| intros]
    | match goal with
      | |- keeps _ (if ?b then _ else _) => destruct b
      | |- keeps _ (match ?x with _ => _ end) => destruct x
      end ].

Section Preconditions.

Variable BASE_URL : string.
Variable http : list HttpCall -> HttpCall -> http_outcome.

Lemma login_capture_same_log : forall status body resp,
  keeps same_log (login_capture status body resp).
Proof. intros. unfold login_capture. same_log_steps. Qed.

Lemma login_capture_unstuck : forall status body resp,
  unstuck (login_capture status body resp).
Proof. intros. unfold login_capture. unstuck_steps. Qed.

Lemma login_attempt_logs_one : forall email pw w,
  exists o w1,
    login_attempt BASE_URL http email pw w = (o, w1)
    /\ o <> Stuck
    /\ log w1 = (log w ++ [login_call BASE_URL email pw])%list.
Proof.
  intros email pw w. unfold login_attempt, do_login, http_call.
  cbv beta iota zeta delta [bind ret].
  fold (login_call BASE_URL email pw).
  destruct (http (log w) (login_call BASE_URL email pw)) as [resp | kind msg].
  - destruct (login_capture (status_code resp) (body_of resp) resp
                (mkWorld (state w) (log w ++ [login_call BASE_URL email pw])))
      as [o w1] eqn:E.
    exists o, w1. split; [reflexivity |]. split.
    + pose proof (login_capture_unstuck (status_code resp) (body_of resp) resp
                    (mkWorld (state w)
                       (log w ++ [login_call BASE_URL email pw]))) as U.
      now rewrite E in U.
    + apply login_capture_same_log in E. exact E.
  - eexists. eexists. split; [reflexivity |]. split; [discriminate |].
    reflexivity.
Qed.

Lemma try_logins_logs : forall creds w,
  exists b w1 calls,
    try_logins BASE_URL http creds w = (Ok b, w1)
    /\ log w1 = (log w ++ calls)%list
    /\ Forall (fun c => exists email pw,
                 In (email, pw) creds /\ c = login_call BASE_URL email pw)
         calls
    /\ (List.length calls <= List.length creds)%nat.
Proof.
  induction creds as [| [email pw] creds IH]; intros w.
  - exists false, w, []. cbn. rewrite app_nil_r. repeat split; auto.
  - cbn [try_logins]. unfold bind at 1. unfold try_except.
    destruct (login_attempt_logs_one email pw w) as (o & w1 & E & Hns & Hlog).
    rewrite E.
    assert (Hhere : Forall (fun c => exists e p,
                      In (e, p) ((email, pw) :: creds)
                      /\ c = login_call BASE_URL e p)
                      [login_call BASE_URL email pw]).
    { constructor; [| constructor]. exists email, pw.
      split; [now left | reflexivity]. }
    assert (Hrest : forall w2, log w2 = log w1 ->
      exists b w3 calls,
        try_logins BASE_URL http creds w2 = (Ok b, w3)
        /\ log w3 = (log w ++ calls)%list
        /\ Forall (fun c => exists e p,
                     In (e, p) ((email, pw) :: creds)
                     /\ c = login_call BASE_URL e p) calls
        /\ (List.length calls <= S (List.length creds))%nat).
    { intros w2 H2. destruct (IH w2) as (b & w3 & calls & E3 & L3 & F3 & N3).
      exists b, w3, (login_call BASE_URL email pw :: calls).
      split; [exact E3 |]. split.
      - rewrite L3, H2, Hlog, <- app_assoc. reflexivity.
      - split.
        + constructor.
          * exists email, pw. split; [now left | reflexivity].
          * eapply Forall_impl; [| exact F3].
            intros c (e & p & Hin & ->). exists e, p.
            split; [now right | reflexivity].
        + cbn. lia. }
    destruct o as [[|] | e |].
    + exists true, w1, [login_call BASE_URL email pw].
      cbn. repeat split; auto. lia.
    + cbn [ret]. apply Hrest. reflexivity.
    + cbn [ret]. apply Hrest. reflexivity.
    + contradiction.
Qed.

Lemma ensure_login_logs : forall w,
  exists b w1 calls,
    ensure_login BASE_URL http w = (Ok b, w1)
    /\ log w1 = (log w ++ calls)%list
    /\ Forall (is_login_call BASE_URL) calls
    /\ (List.length calls <= 2)%nat
    /\ (truthy (access_token (state w)) = true -> w1 = w).
Proof.
  intros w. unfold ensure_login.
  cbv beta iota zeta delta [bind get_state].
  destruct (truthy (access_token (state w))) eqn:T.
  - exists true, w, []. cbn. rewrite app_nil_r. repeat split; auto.
  - destruct (try_logins_logs LOGIN_CREDENTIALS w)
      as (b & w1 & calls & E & L & F & N).
    exists b, w1, calls. repeat split; auto. discriminate.
Qed.

(** The pre-condition step returns, and logs login calls only: none when
    a token is held, none when the endpoint does not require
    authentication and the case is neither REFRESH-001 nor LOGOUT-001. *)
Lemma preconditions_logs : forall endpoint tc w,
  exists w1 logins,
    preconditions BASE_URL http endpoint tc w = (Ok tt, w1)
    /\ log w1 = (log w ++ logins)%list
    /\ Forall (is_login_call BASE_URL) logins
    /\ (truthy (access_token (state w)) = true -> w1 = w)
    /\ (ep_auth_required endpoint = false ->
        tc_id tc <> "REFRESH-001" -> tc_id tc <> "LOGOUT-001" -> w1 = w).
Proof.
  intros endpoint tc w. unfold preconditions.
  assert (Hstep : forall (b : bool) w0,
    exists w1 calls,
      (if b then bind (ensure_login BASE_URL http) (fun _ => ret tt)
       else ret tt) w0 = (Ok tt, w1)
      /\ log w1 = (log w0 ++ calls)%list
      /\ Forall (is_login_call BASE_URL) calls
      /\ (truthy (access_token (state w0)) = true -> w1 = w0)
      /\ (b = false -> w1 = w0)).
  { intros [|] w0.
    - destruct (ensure_login_logs w0) as (b & w1 & calls & E & L & F & _ & T).
      exists w1, calls. unfold bind. rewrite E. cbn.
      repeat split; auto. discriminate.
    - exists w0, []. cbn. rewrite app_nil_r. repeat split; auto. }
  destruct (Hstep (ep_auth_required endpoint) w)
    as (w1 & c1 & E1 & L1 & F1 & T1 & B1).
  destruct (Hstep (String.eqb (tc_id tc) "REFRESH-001") w1)
    as (w2 & c2 & E2 & L2 & F2 & T2 & B2).
  destruct (Hstep (String.eqb (tc_id tc) "LOGOUT-001") w2)
    as (w3 & c3 & E3 & L3 & F3 & T3 & B3).
  exists w3, (c1 ++ c2 ++ c3)%list.
  unfold bind at 1. rewrite E1. unfold bind at 1. rewrite E2. rewrite E3.
  split; [reflexivity |]. split.
  { rewrite L3, L2, L1. now rewrite <- !app_assoc. }
  split.
  { apply Forall_app. split; [exact F1 |]. apply Forall_app. now split. }
  split.
  - intros T. assert (w1 = w) by auto. subst w1.
    assert (w2 = w) by auto. subst w2. auto.
  - intros Ha Hr Hl. apply String.eqb_neq in Hr, Hl.
    assert (w1 = w) by auto. subst w1.
    assert (w2 = w) by auto. subst w2. auto.
Qed.

End Preconditions.

(** ** Whole runs of a case *)

Lemma capture_state_same_log : forall req status body resp,
  keeps same_log (capture_state req status body resp).
Proof.
  intros. unfold capture_state, capture_login, capture_refresh,
    capture_created, refresh_cookie_of, rotate_cookie.
  same_log_steps.
Qed.

Lemma capture_state_unstuck : forall req status body resp,
  unstuck (capture_state req status body resp).
Proof.
  intros. unfold capture_state, capture_login, capture_refresh,
    capture_created, refresh_cookie_of, rotate_cookie.
  unstuck_steps.
Qed.

Section Runs.

Variable BASE_URL : string.
Variable http : list HttpCall -> HttpCall -> http_outcome.

(** [run_test] from the world in which the scored call is made. *)
Lemma run_test_from_primary : forall endpoint tc w w1 w2 call,
  skip_reason (tc_id tc) = None ->
  preconditions BASE_URL http endpoint tc w = (Ok tt, w1) ->
  warm_up BASE_URL http tc w1 = (Ok tt, w2) ->
  primary_request BASE_URL (state w2) tc = Ok call ->
  run_test BASE_URL http endpoint tc w
  = match http (log w2) call with
    | Failed kind msg =>
        (Ok (make_result endpoint tc "fail" None JNull [TRANSPORT_ASSERTION]
               (snd (tuple_of (Failed kind msg)))),
         after_call w2 call)
    | Responded resp =>
        match capture_state (tc_request tc) (Some (status_code resp))
                (body_of resp) (Some resp) (after_call w2 call) with
        | (Ok _, w3) =>
            (Ok (score endpoint tc (Some (status_code resp)) (body_of resp)
                   (Some resp)), w3)
        | (Raise e, w3) => (Raise e, w3)
        | (Stuck, w3) => (Stuck, w3)
        end
    end.
Proof.
  intros endpoint tc w w1 w2 call Hskip Hpre Hwarm Hreq.
  unfold run_test. rewrite Hskip. unfold bind at 1. rewrite Hpre.
  unfold bind at 1. rewrite Hwarm. unfold bind at 1.
  rewrite primary_call_eq, Hreq.
  destruct (http (log w2) call) as [resp | kind msg].
  - rewrite tuple_of_responded. cbn [truthy_str]. unfold bind.
    destruct (capture_state (tc_request tc) (Some (status_code resp))
                (body_of resp) (Some resp) (after_call w2 call))
      as [[[] | e |] w3]; reflexivity.
  - destruct (tuple_of_failed kind msg) as (err & E & T).
    rewrite E, T. reflexivity.
Qed.

(** C6. When the scored call of an executed case fails at the transport
    level (a connection error, a timeout or any other exception of the
    library), [run_test] returns a result with status "fail", no actual
    status, a null body and the single assertion "request execution"
    with outcome false; the failed call is logged once and nothing else
    is done; the loop over the cases goes on with the next case, with
    the result counted as failed. *)
Theorem transport_failure_fails_case :
  forall (endpoint : Endpoint) (tc : TestCase) (w w1 w2 : World)
         (call : HttpCall) (kind : transport_error) (msg : string),
    skip_reason (tc_id tc) = None ->
    preconditions BASE_URL http endpoint tc w = (Ok tt, w1) ->
    warm_up BASE_URL http tc w1 = (Ok tt, w2) ->
    primary_request BASE_URL (state w2) tc = Ok call ->
    http (log w2) call = Failed kind msg ->
    exists r err,
      run_test BASE_URL http endpoint tc w = (Ok r, after_call w2 call)
      /\ r_status r = "fail"
      /\ r_actual_status r = None
      /\ r_response_body r = JNull
      /\ r_assertions r
         = [mkAssertion "request execution" (Some false) None None None]
      /\ r_error r = Some err
      /\ (forall tcs acc,
            run_cases BASE_URL http endpoint (tc :: tcs) acc w
            = run_cases BASE_URL http endpoint tcs
                ((fst acc ++ [r])%list, count (snd acc) r)
                (after_call w2 call))
      /\ (forall t, failed (count t r) = failed t + 1
                    /\ passed (count t r) = passed t
                    /\ skipped (count t r) = skipped t).
Proof.
  intros endpoint tc w w1 w2 call kind msg Hskip Hpre Hwarm Hreq Hfail.
  pose proof (run_test_from_primary endpoint tc w w1 w2 call
                Hskip Hpre Hwarm Hreq) as Hrun.
  rewrite Hfail in Hrun.
  destruct (tuple_of_failed kind msg) as (err & E & _).
  rewrite E in Hrun. cbn [snd] in Hrun.
  eexists. exists err. split; [exact Hrun |].
  repeat split.
  intros tcs acc. cbn [run_cases]. unfold bind at 1. now rewrite Hrun.
Qed.

(** C3, amended.  For an executed case with repeat count n > 1 whose
    request resolves: after the pre-condition step, which logs login
    calls only (none when a token is held, none when the endpoint does
    not require authentication and the case is neither REFRESH-001 nor
    LOGOUT-001), [run_test] logs exactly n calls, n - 1 equal warm-up
    calls that carry the method, the resolved headers and the resolved
    body of the scored call, then the scored call; the outcomes of the
    warm-up calls are dropped, and the assertions of a returned result
    are those of the outcome of the scored call. *)
Theorem repeat_case_calls :
  forall (endpoint : Endpoint) (tc : TestCase) (w w1 : World)
         (final : HttpCall) (n : Z),
    skip_reason (tc_id tc) = None ->
    req_repeat (tc_request tc) = n ->
    1 < n ->
    preconditions BASE_URL http endpoint tc w = (Ok tt, w1) ->
    primary_request BASE_URL (state w1) tc = Ok final ->
    exists warm o w3,
      run_test BASE_URL http endpoint tc w = (o, w3)
      /\ o <> Stuck
      /\ log w3
         = (log w1 ++ repeat warm (Z.to_nat (n - 1)) ++ [final])%list
      /\ Z.of_nat (List.length (repeat warm (Z.to_nat (n - 1)) ++ [final])%list)
         = n
      /\ call_method warm = call_method final
      /\ call_headers warm = call_headers final
      /\ call_json warm = call_json final
      /\ (forall r, o = Ok r ->
            r_assertions r
            = scored_assertions tc
                (http (log w1 ++ repeat warm (Z.to_nat (n - 1)))%list final))
      /\ (exists logins,
            log w1 = (log w ++ logins)%list
            /\ Forall (is_login_call BASE_URL) logins
            /\ (truthy (access_token (state w)) = true -> logins = [])
            /\ (ep_auth_required endpoint = false ->
                tc_id tc <> "REFRESH-001" -> tc_id tc <> "LOGOUT-001" ->
                logins = [])).
Proof.
  intros endpoint tc w w1 final n Hskip Hn Hgt Hpre Hreq.
  destruct (warm_up_of_primary BASE_URL _ _ _ Hreq)
    as (warm & Hwarm & Hm & Hh & Hj & _ & _).
  set (k := Z.to_nat (n - 1)).
  set (w2 := mkWorld (state w1) (log w1 ++ repeat warm k)).
  assert (Hw : warm_up BASE_URL http tc w1 = (Ok tt, w2)).
  { unfold warm_up. rewrite Hn.
    replace (n >? 1) with true by (symmetry; apply Z.gtb_lt; lia).
    now apply times_warm_up. }
  pose proof (run_test_from_primary endpoint tc w w1 w2 final
                Hskip Hpre Hw Hreq) as Hrun.
  assert (Hlen : Z.of_nat (List.length (repeat warm k ++ [final])%list) = n).
  { rewrite length_app, repeat_length. cbn. unfold k. lia. }
  assert (Hlogins : exists logins,
            log w1 = (log w ++ logins)%list
            /\ Forall (is_login_call BASE_URL) logins
            /\ (truthy (access_token (state w)) = true -> logins = [])
            /\ (ep_auth_required endpoint = false ->
                tc_id tc <> "REFRESH-001" -> tc_id tc <> "LOGOUT-001" ->
                logins = [])).
  { destruct (preconditions_logs BASE_URL http endpoint tc w)
      as (w1' & logins & E & L & F & T & Q).
    rewrite Hpre in E. injection E as <-.
    assert (Hnil : w1 = w -> logins = []).
    { intros ->. rewrite <- (app_nil_r (log w)) in L at 1.
      now apply app_inv_head in L. }
    exists logins. repeat split; auto. }
  exists warm.
  destruct (http (log w2) final) as [resp | kind msg] eqn:Eh.
  - destruct (capture_state (tc_request tc) (Some (status_code resp))
                (body_of resp) (Some resp) (after_call w2 final))
      as [o3 w3] eqn:Ec.
    pose proof (capture_state_same_log _ _ _ _ _ _ _ Ec) as Hl.
    pose proof (capture_state_unstuck (tc_request tc)
                  (Some (status_code resp)) (body_of resp) (Some resp)
                  (after_call w2 final)) as Hu.
    rewrite Ec in Hu. cbn [fst] in Hu.
    assert (Hlog3 : log w3 = (log w1 ++ repeat warm k ++ [final])%list).
    { rewrite Hl. cbn. now rewrite <- app_assoc. }
    destruct o3 as [[] | e |]; [| | contradiction].
    + eexists. exists w3. split; [exact Hrun |].
      split; [discriminate |]. split; [exact Hlog3 |].
      split; [exact Hlen |]. repeat split; auto.
      intros r [= <-]. cbn [log w2] in Eh. rewrite Eh. reflexivity.
    + eexists. exists w3. split; [exact Hrun |].
      split; [discriminate |]. split; [exact Hlog3 |].
      split; [exact Hlen |]. repeat split; auto.
      intros r [=].
  - eexists. eexists. split; [exact Hrun |].
    split; [discriminate |]. split.
    { cbn. now rewrite <- app_assoc. }
    split; [exact Hlen |]. repeat split; auto.
    intros r [= <-]. cbn [log w2] in Eh. rewrite Eh. reflexivity.
Qed.

End Runs.

Lemma transport_failure_fails_case_witness :
  exists r,
    run_test Sample.base Sample.unreachable
      (Sample.open_endpoint "GET" "/health") Sample.ping_case Sample.world0
    = (Ok r,
       mkWorld initial_state
         [call_of Sample.base "GET" "/health" [] JNull None])
    /\ r_status r = "fail"
    /\ r_actual_status r = None
    /\ r_assertions r
       = [mkAssertion "request execution" (Some false) None None None]
    /\ r_error r = Some "Connection error: connection refused".
Proof.
  destruct (transport_failure_fails_case Sample.base Sample.unreachable
              (Sample.open_endpoint "GET" "/health") Sample.ping_case
              Sample.world0 Sample.world0 Sample.world0
              (call_of Sample.base "GET" "/health" [] JNull None)
              ConnectionError "connection refused"
              eq_refl eq_refl eq_refl eq_refl eq_refl)
    as (r & err & Hrun & Hs & Ha & _ & Has & He & _).
  exists r. split; [exact Hrun |]. split; [exact Hs |].
  split; [exact Ha |]. split; [exact Has |].
  assert (E : run_test Sample.base Sample.unreachable
                (Sample.open_endpoint "GET" "/health") Sample.ping_case
                Sample.world0
              = (Ok (make_result (Sample.open_endpoint "GET" "/health")
                       Sample.ping_case "fail" None JNull
                       [TRANSPORT_ASSERTION]
                       (Some "Connection error: connection refused")),
                 after_call Sample.world0
                   (call_of Sample.base "GET" "/health" [] JNull None)))
    by (vm_compute; reflexivity).
  rewrite E in Hrun. injection Hrun as <-. reflexivity.
Defined.

(** C3 as stated fails: a case read twice on an endpoint that requires
    authentication, with no token held and the target out of reach,
    makes four calls, not two (two login attempts come first), and its
    warm-up call is not the scored call: the warm-up goes to the URL
    template as written, the scored call to the resolved URL. *)
Lemma repeat_case_extra_and_unequal_calls :
  exists r w' login1 login2 warm final,
    run_test Sample.base Sample.unreachable Sample.users_endpoint
      Sample.repeat_read_case Sample.world0 = (Ok r, w')
    /\ skip_reason (tc_id Sample.repeat_read_case) = None
    /\ req_repeat (tc_request Sample.repeat_read_case) = 2
    /\ log w' = [login1; login2; warm; final]
    /\ List.length (log w') = 4%nat
    /\ call_url warm = "http://localhost:3000/system/users/:id"
    /\ call_url final
       = "http://localhost:3000/system/users/00000000-0000-4000-a000-000000000002"
    /\ warm <> final.
Proof.
  do 6 eexists.
  match goal with
  | |- ?A /\ _ => assert (E : A) by (vm_compute; reflexivity)
  end.
  split; [exact E |].
  repeat split. discriminate.
Qed.

Lemma repeat_case_calls_witness :
  exists warm o w3,
    run_test Sample.base
      (Sample.always (Sample.cookie_response 401 ""))
      (Sample.open_endpoint "POST" "/auth/login") Sample.lockout_case
      Sample.world0 = (o, w3)
    /\ log w3 = [warm; warm; warm]
    /\ call_url warm = "http://localhost:3000/auth/login"
    /\ (forall r, o = Ok r ->
          List.map a_check (r_assertions r) = ["status code"]).
Proof.
  destruct (repeat_case_calls Sample.base
              (Sample.always (Sample.cookie_response 401 ""))
              (Sample.open_endpoint "POST" "/auth/login") Sample.lockout_case
              Sample.world0 Sample.world0
              (call_of Sample.base "POST" "/auth/login" []
                 (JDict [("email", JStr "admin@test.com");
                         ("password", JStr "wrong")]) None)
              3 eq_refl eq_refl eq_refl eq_refl
              ltac:(vm_compute; reflexivity))
    as (warm & o & w3 & Hrun & _ & Hlog & _ & Hm & Hh & Hj & Has & _).
  assert (Hw : warm = call_of Sample.base "POST" "/auth/login" []
                 (JDict [("email", JStr "admin@test.com");
                         ("password", JStr "wrong")]) None).
  { cbn in Hlog.
    assert (E : exists o' w', run_test Sample.base
                (Sample.always (Sample.cookie_response 401 ""))
                (Sample.open_endpoint "POST" "/auth/login")
                Sample.lockout_case Sample.world0 = (o', w')
                /\ nth_error (log w') 0
                   = Some (call_of Sample.base "POST" "/auth/login" []
                             (JDict [("email", JStr "admin@test.com");
                                     ("password", JStr "wrong")]) None)).
    { do 2 eexists. split; vm_compute; reflexivity. }
    destruct E as (o' & w' & E1 & E2). rewrite Hrun in E1.
    injection E1 as _ <-. rewrite Hlog in E2. cbn in E2.
    now injection E2. }
  exists warm, o, w3. split; [exact Hrun |]. split.
  - rewrite Hlog, Hw. reflexivity.
  - split; [rewrite Hw; reflexivity |].
    intros r Hr. rewrite (Has r Hr). reflexivity.
Defined.

(** ** Body resolution: text and structure *)

(** *** Strings *)

Lemma sapp_assoc : forall a b c : string, (a ++ b) ++ c = a ++ (b ++ c).
Proof. induction a as [| x a IH]; intros; cbn; [| rewrite IH]; reflexivity. Qed.

Lemma slength_app : forall a b : string,
  String.length (a ++ b) = (String.length a + String.length b)%nat.
Proof. induction a as [| x a IH]; intros; cbn; [| rewrite IH]; reflexivity. Qed.

Lemma sapp_nil_r : forall a : string, a ++ "" = a.
Proof. induction a as [| x a IH]; cbn; [| rewrite IH]; reflexivity. Qed.

Lemma prefix_cons : forall a p c s,
  String.prefix (String a p) (String c s)
  = if Ascii.eqb a c then String.prefix p s else false.
Proof.
  intros a p c s.
  change (String.prefix (String a p) (String c s))
    with (match ascii_dec a c with
          | left _ => String.prefix p s
          | right _ => false
          end).
  destruct (ascii_dec a c) as [-> | Hne].
  - now rewrite Ascii.eqb_refl.
  - apply Ascii.eqb_neq in Hne. now rewrite Hne.
Qed.

Lemma prefix_nil : forall s, String.prefix "" s = true.
Proof. now destruct s. Qed.

Lemma prefix_app : forall p x, String.prefix p (p ++ x) = true.
Proof.
  induction p as [| a p IH]; intros x; [apply prefix_nil |].
  cbn [append]. rewrite prefix_cons, Ascii.eqb_refl. apply IH.
Qed.

Lemma drop_app : forall p x, PyStr.drop (String.length p) (p ++ x) = x.
Proof. induction p as [| a p IH]; intros x; cbn; [reflexivity | apply IH]. Qed.

Lemma prefix_split : forall p s,
  String.prefix p s = true -> s = p ++ PyStr.drop (String.length p) s.
Proof.
  induction p as [| a p IH]; intros s H; [reflexivity |].
  destruct s as [| c s]; [discriminate |].
  rewrite prefix_cons in H.
  destruct (Ascii.eqb a c) eqn:E; [| discriminate].
  apply Ascii.eqb_eq in E. subst c.
  cbn. f_equal. now apply IH.
Qed.

Lemma escape_char_plain : forall c,
  is_plain c = true -> Json.escape_char c = String c "".
Proof.
  intros c. destruct c as [[|] [|] [|] [|] [|] [|] [|] [|]];
    vm_compute; intros H; (reflexivity || discriminate).
Qed.

Lemma escape_char_not_plain : forall c,
  is_plain c = false ->
  no_lt (Json.escape_char c) = true
  /\ exists t, Json.escape_char c = String backslash t.
Proof.
  intros c. destruct c as [[|] [|] [|] [|] [|] [|] [|] [|]];
    vm_compute; intros H; try discriminate;
    (split; [reflexivity | eexists; reflexivity]).
Qed.

Lemma escape_plain : forall s, all_plain s = true -> Json.escape s = s.
Proof.
  induction s as [| c s IH]; cbn; intros H; [reflexivity |].
  apply andb_true_iff in H as [Hc Hs].
  rewrite (escape_char_plain c Hc), IH by assumption. reflexivity.
Qed.

Lemma escape_app : forall a b,
  Json.escape (a ++ b) = Json.escape a ++ Json.escape b.
Proof.
  induction a as [| c a IH]; intros b; cbn; [reflexivity |].
  now rewrite IH, sapp_assoc.
Qed.

Lemma all_plain_app : forall a b,
  all_plain (a ++ b) = all_plain a && all_plain b.
Proof.
  induction a as [| c a IH]; intros b; cbn; [reflexivity |].
  now rewrite IH, andb_assoc.
Qed.

Section Replace.

(** A placeholder [old] that opens with "<" and is made of plain
    characters, replaced by a text [new] of plain characters. *)
Variables (old' new : string).
Let old : string := String "<" old'.
Hypothesis old_plain : all_plain old = true.
Hypothesis new_plain : all_plain new = true.

Lemma replace_skip : forall k s,
  PyStr.replace_from k old new s = PyStr.replace_from O old new (PyStr.drop k s).
Proof.
  intros k s. revert k. induction s as [| c s IH]; intros [| k];
    try reflexivity.
  cbn [PyStr.replace_from PyStr.drop]. apply IH.
Qed.

Lemma replace_match : forall x,
  PyStr.replace_from O old new (old ++ x)
  = new ++ PyStr.replace_from O old new x.
Proof.
  intros x. unfold old at 2. cbn [append PyStr.replace_from].
  change (String "<" (old' ++ x)) with (old ++ x).
  rewrite prefix_app. unfold old at 1. cbn iota.
  f_equal. rewrite replace_skip. now rewrite drop_app.
Qed.

Lemma replace_no_match : forall c s,
  String.prefix old (String c s) = false ->
  PyStr.replace_from O old new (String c s)
  = String c (PyStr.replace_from O old new s).
Proof. intros c s H. cbn [PyStr.replace_from]. now rewrite H. Qed.

Lemma replace_past : forall t x,
  no_lt t = true ->
  PyStr.replace_from O old new (t ++ x) = t ++ PyStr.replace_from O old new x.
Proof.
  induction t as [| c t IH]; intros x H; [reflexivity |].
  cbn in H. apply andb_true_iff in H as [Hc Ht].
  cbn [append]. rewrite replace_no_match.
  - now rewrite IH.
  - unfold old. rewrite prefix_cons. unfold is_lt in Hc.
    rewrite Ascii.eqb_sym. now destruct (Ascii.eqb c "<").
Qed.

Lemma replace_char : forall c x,
  is_lt c = false ->
  PyStr.replace_from O old new (String c x)
  = String c (PyStr.replace_from O old new x).
Proof.
  intros c x H. apply (replace_past (String c "")). cbn. now rewrite H.
Qed.

(** A plain pattern matches the escaped text of [s] followed by a quote
    exactly when it matches [s]. *)
Lemma prefix_escape : forall p s rest,
  all_plain p = true ->
  String.prefix p (Json.escape s ++ String dquote rest) = String.prefix p s.
Proof.
  induction p as [| a p IH]; intros s rest Hp.
  - now rewrite !prefix_nil.
  - cbn in Hp. apply andb_true_iff in Hp as [Ha Hp].
    destruct s as [| c s].
    + cbn [Json.escape append]. rewrite prefix_cons.
      destruct (Ascii.eqb a dquote) eqn:E; [| reflexivity].
      apply Ascii.eqb_eq in E. subst a. discriminate.
    + cbn [Json.escape]. destruct (is_plain c) eqn:Hc.
      * rewrite (escape_char_plain c Hc). cbn [append].
        rewrite !prefix_cons.
        destruct (Ascii.eqb a c); [apply IH; exact Hp | reflexivity].
      * destruct (escape_char_not_plain c Hc) as [_ [t ->]].
        cbn [append]. rewrite !prefix_cons.
        destruct (Ascii.eqb a backslash) eqn:E.
        { apply Ascii.eqb_eq in E. subst a. discriminate. }
        destruct (Ascii.eqb a c) eqn:E2; [| reflexivity].
        apply Ascii.eqb_eq in E2. subst a. congruence.
Qed.

(** Replacing in the text of a string literal is replacing in the
    string. *)
Lemma replace_escape : forall n s rest,
  (String.length s <= n)%nat ->
  PyStr.replace_from O old new (Json.escape s ++ String dquote rest)
  = Json.escape (PyStr.replace s old new)
    ++ String dquote (PyStr.replace_from O old new rest).
Proof.
  induction n as [| n IH]; intros s rest Hlen.
  - destruct s; [| cbn in Hlen; lia]. cbn [Json.escape append].
    unfold PyStr.replace. cbn [PyStr.replace_from]. unfold old at 2.
    cbn [Json.escape append].
    apply (replace_past (String dquote "")). reflexivity.
  - destruct (String.prefix old s) eqn:Hpre.
    + apply prefix_split in Hpre. set (s2 := PyStr.drop _ s) in Hpre.
      assert (Hlen2 : (String.length s2 <= n)%nat).
      { assert (String.length s = String.length old + String.length s2)%nat
          by (rewrite Hpre at 1; apply slength_app).
        assert (Ho : String.length old = S (String.length old'))
          by reflexivity.
        lia. }
      rewrite Hpre. rewrite escape_app, (escape_plain old old_plain).
      rewrite sapp_assoc, replace_match.
      unfold PyStr.replace. rewrite replace_match.
      rewrite escape_app, (escape_plain new new_plain), sapp_assoc.
      f_equal. apply (IH s2 rest Hlen2).
    + destruct s as [| c s].
      * cbn [Json.escape append]. unfold PyStr.replace.
        cbn [PyStr.replace_from]. unfold old at 2.
        cbn [Json.escape append].
        apply (replace_past (String dquote "")). reflexivity.
      * cbn in Hlen.
        unfold PyStr.replace. rewrite (replace_no_match c s Hpre).
        cbn [Json.escape]. rewrite sapp_assoc.
        destruct (is_plain c) eqn:Hc.
        -- rewrite (escape_char_plain c Hc). cbn [append].
           rewrite replace_no_match.
           ++ f_equal. apply IH. lia.
           ++ change (String c (Json.escape s ++ String dquote rest))
                with (String c "" ++ (Json.escape s ++ String dquote rest)).
              rewrite <- (escape_char_plain c Hc), <- sapp_assoc.
              change (Json.escape_char c ++ Json.escape s)
                with (Json.escape (String c s)).
              now rewrite prefix_escape.
        -- destruct (escape_char_not_plain c Hc) as [Hno _].
           rewrite replace_past by exact Hno.
           rewrite sapp_assoc. f_equal. apply IH. lia.
Qed.

End Replace.

(** *** Structure *)

(** Induction on JSON values, with the hypotheses for the items of a list
    and the values of a dict. *)
Lemma json_induction : forall P : json -> Prop,
  P JNull ->
  (forall b, P (JBool b)) ->
  (forall z, P (JNum z)) ->
  (forall s, P (JStr s)) ->
  (forall l, Forall P l -> P (JList l)) ->
  (forall d, Forall (fun kv => P (snd kv)) d -> P (JDict d)) ->
  forall v, P v.
Proof.
  intros P Hnull Hbool Hnum Hstr Hlist Hdict.
  fix IH 1. intros [| b | z | s | l | d].
  - exact Hnull.
  - apply Hbool.
  - apply Hnum.
  - apply Hstr.
  - apply Hlist. induction l as [| x l IHl]; constructor; [apply IH | exact IHl].
  - apply Hdict. induction d as [| [k x] d IHd]; constructor;
      [apply IH | exact IHd].
Qed.

Lemma shape_of_subst : forall f v, shape_of (subst_json f v) = shape_of v.
Proof.
  intros f v. induction v as [| b | z | s | l IH | d IH] using json_induction;
    try reflexivity.
  - cbn. f_equal. rewrite map_map. apply map_ext_in.
    intros x Hx. rewrite Forall_forall in IH. now apply IH.
  - cbn. f_equal. rewrite map_map. apply map_ext_in.
    intros [k x] Hx. rewrite Forall_forall in IH. cbn. now apply (IH (k, x)).
Qed.

Lemma dumps_list : forall l,
  Json.dumps (JList l) = "[" ++ dumps_items l ++ "]".
Proof. reflexivity. Qed.

Lemma dumps_dict : forall d,
  Json.dumps (JDict d) = "{" ++ dumps_members d ++ "}".
Proof. reflexivity. Qed.

Lemma no_lt_uint : forall u, no_lt (NilEmpty.string_of_uint u) = true.
Proof. induction u; cbn; auto. Qed.

Lemma no_lt_of_Z : forall z, no_lt (PyStr.of_Z z) = true.
Proof.
  intros z. unfold PyStr.of_Z, NilZero.string_of_int, NilZero.string_of_uint.
  destruct (Z.to_int z) as [u | u]; destruct u; cbn; auto using no_lt_uint.
Qed.

Section ReplaceDumps.

Variables (old' new : string).
Let old : string := String "<" old'.
Hypothesis old_plain : all_plain old = true.
Hypothesis new_plain : all_plain new = true.

Let sub : json -> json := subst_json (fun s => PyStr.replace s old new).
Let rep : string -> string := PyStr.replace_from O old new.

Lemma replace_quote : forall s rest,
  rep (Json.quote s ++ rest) = Json.quote (PyStr.replace s old new) ++ rep rest.
Proof.
  intros s rest. unfold Json.quote, rep. cbn [append].
  rewrite (replace_char old' new) by reflexivity.
  f_equal. rewrite !sapp_assoc. cbn [append].
  apply (replace_escape old' new old_plain new_plain (String.length s)).
  lia.
Qed.

Ltac past_chars :=
  repeat (rewrite (replace_char old' new) by reflexivity; f_equal).

(** Replacing a placeholder in the text of a value is replacing it in
    the strings of the value. *)
Lemma replace_dumps : forall v rest,
  rep (Json.dumps v ++ rest) = Json.dumps (sub v) ++ rep rest.
Proof.
  induction v as [| b | z | s | l IH | d IH] using json_induction;
    intros rest.
  - apply (replace_past old' new "null"). reflexivity.
  - destruct b;
      [apply (replace_past old' new "true") | apply (replace_past old' new "false")];
      reflexivity.
  - apply (replace_past old' new). apply no_lt_of_Z.
  - apply replace_quote.
  - unfold sub. cbn [subst_json]. fold sub. rewrite !dumps_list.
    assert (Hitems : forall rest',
      rep (dumps_items l ++ String "]" rest')
      = dumps_items (List.map sub l) ++ String "]" (rep rest')).
    { induction IH as [| x l Hx Hl IHl]; intros rest'.
      - cbn [dumps_items List.map append]. unfold rep. now past_chars.
      - cbn [dumps_items List.map]. rewrite !sapp_assoc, Hx.
        f_equal. destruct l as [| y l].
        + cbn [List.map append]. unfold rep. now past_chars.
        + change (List.map sub (y :: l)) with (sub y :: List.map sub l).
          cbv iota. rewrite !sapp_assoc. cbn [append]. unfold rep.
          past_chars. apply IHl. }
    cbn [append]. unfold rep at 1. past_chars. fold rep.
    rewrite !sapp_assoc. cbn [append]. apply Hitems.
  - unfold sub. cbn [subst_json]. fold sub. rewrite !dumps_dict.
    assert (Hmembers : forall rest',
      rep (dumps_members d ++ String "}" rest')
      = dumps_members
          (List.map (fun kv => (PyStr.replace (fst kv) old new, sub (snd kv))) d)
        ++ String "}" (rep rest')).
    { induction IH as [| [k x] d Hx Hd IHd]; intros rest'.
      - cbn [dumps_members List.map append]. unfold rep. now past_chars.
      - cbn [dumps_members List.map fst snd]. rewrite !sapp_assoc.
        rewrite replace_quote. f_equal. cbn [append]. unfold rep at 1.
        past_chars. fold rep. cbn [snd] in Hx. rewrite Hx.
        f_equal. destruct d as [| [k' y] d].
        + cbn [List.map append]. unfold rep. now past_chars.
        + cbn [List.map]. cbv iota. rewrite ?sapp_assoc. cbn [append].
          unfold rep. past_chars. apply IHd. }
    cbn [append]. unfold rep at 1. past_chars. fold rep.
    rewrite !sapp_assoc. cbn [append]. apply Hmembers.
Qed.

Lemma replace_dumps_whole : forall v,
  PyStr.replace (Json.dumps v) old new = Json.dumps (sub v).
Proof.
  intros v. unfold PyStr.replace.
  rewrite <- (sapp_nil_r (Json.dumps v)). fold rep.
  rewrite replace_dumps. unfold rep. cbn. now rewrite !sapp_nil_r.
Qed.

End ReplaceDumps.

(** *** Reading back what [dumps] wrote *)

Lemma scanstring_char : forall c x,
  Json.scanstring (Json.escape_char c ++ x)
  = Json.parse_map (String c) (Json.scanstring x).
Proof.
  intros c x. destruct c as [[|] [|] [|] [|] [|] [|] [|] [|]]; reflexivity.
Qed.

Lemma scanstring_escape : forall s rest,
  Json.scanstring (Json.escape s ++ String dquote rest) = Json.Parsed s rest.
Proof.
  induction s as [| c s IH]; intros rest; [reflexivity |].
  cbn [Json.escape]. rewrite sapp_assoc, scanstring_char, IH. reflexivity.
Qed.

Lemma closes_number : forall rest,
  closes rest = true ->
  Json.starts_with_digit rest = false /\ Json.float_follows rest = false.
Proof.
  intros [| c rest] H; [split; reflexivity |].
  cbn in H. unfold Json.starts_with_digit, Json.float_follows.
  destruct c as [[|] [|] [|] [|] [|] [|] [|] [|]];
    try discriminate H; split; reflexivity.
Qed.

Lemma span_digits_uint : forall u rest,
  Json.starts_with_digit rest = false ->
  Json.span_digits (NilEmpty.string_of_uint u ++ rest)
  = (NilEmpty.string_of_uint u, rest).
Proof.
  induction u; intros rest H;
    try (cbn [NilEmpty.string_of_uint append Json.span_digits];
         rewrite IHu by exact H; reflexivity).
  cbn [NilEmpty.string_of_uint append].
  destruct rest as [| c rest]; [reflexivity |].
  cbn in *. now rewrite H.
Qed.

Lemma digits_value_uint : forall u,
  Json.digits_value (NilEmpty.string_of_uint u) = Z.of_uint u.
Proof. intros u. unfold Json.digits_value. now rewrite NilEmpty.usu. Qed.

Lemma to_uint_nonzero_head : forall p, nonzero_head (Pos.to_uint p).
Proof.
  intros p.
  assert (Hn : Decimal.unorm (Pos.to_uint p) = Pos.to_uint p).
  { rewrite <- DecimalPos.Unsigned.to_of, DecimalPos.Unsigned.of_to.
    reflexivity. }
  pose proof (DecimalPos.Unsigned.to_uint_nonzero p) as Hz.
  pose proof (DecimalPos.Unsigned.to_uint_nonnil p) as Hnil.
  destruct (Pos.to_uint p) as [| u | u | u | u | u | u | u | u | u | u];
    cbn; auto.
  rewrite DecimalFacts.unorm_D0 in Hn. unfold Decimal.unorm in Hn.
  destruct (Decimal.nzhead u) eqn:E.
  - injection Hn as <-. now apply Hz.
  - exfalso. apply (DecimalFacts.nzhead_nonzero u u). congruence.
  - discriminate.
  - discriminate.
  - discriminate.
  - discriminate.
  - discriminate.
  - discriminate.
  - discriminate.
  - discriminate.
  - discriminate.
Qed.

Lemma match_unsigned_uint : forall u rest,
  nonzero_head u ->
  closes rest = true ->
  Json.match_unsigned (NilEmpty.string_of_uint u ++ rest)
  = Some (Z.of_uint u, rest).
Proof.
  intros u rest Hu Hrest. destruct (closes_number rest Hrest) as [Hd _].
  pose proof (span_digits_uint u rest Hd) as Hs.
  pose proof (digits_value_uint u) as Hv.
  destruct u; try contradiction;
    cbn [NilEmpty.string_of_uint append] in *;
    unfold Json.match_unsigned;
    match goal with
    | |- context [Ascii.eqb ?c "0"] =>
        change (Ascii.eqb c "0") with false;
        change (Json.is_digit c) with true
    end;
    cbv iota; rewrite Hs, Hv; reflexivity.
Qed.

Lemma match_number_of_Z : forall z rest,
  closes rest = true ->
  Json.match_number (PyStr.of_Z z ++ rest) = Json.Parsed (JNum z) rest.
Proof.
  intros z rest Hrest. destruct (closes_number rest Hrest) as [_ Hf].
  unfold PyStr.of_Z. destruct z as [| p | p]; cbn [Z.to_int].
  - cbn. now rewrite Hf.
  - pose proof (to_uint_nonzero_head p) as Hu.
    assert (Hz : Z.of_uint (Pos.to_uint p) = Z.pos p)
      by (apply (DecimalZ.of_to (Z.pos p))).
    pose proof (match_unsigned_uint _ rest Hu Hrest) as Hm.
    unfold NilZero.string_of_int, NilZero.string_of_uint.
    destruct (Pos.to_uint p) eqn:E; try contradiction;
      cbn [NilEmpty.string_of_uint append] in *;
      unfold Json.match_number;
      match goal with
      | |- context [Ascii.eqb ?c "-"] => change (Ascii.eqb c "-") with false
      end;
      cbv iota; rewrite Hm, Hf, Hz; reflexivity.
  - pose proof (to_uint_nonzero_head p) as Hu.
    assert (Hz : - Z.of_uint (Pos.to_uint p) = Z.neg p)
      by (apply (DecimalZ.of_to (Z.neg p))).
    pose proof (match_unsigned_uint _ rest Hu Hrest) as Hm.
    unfold NilZero.string_of_int, NilZero.string_of_uint.
    assert (Hs : match Pos.to_uint p with
                 | Decimal.Nil => "0"
                 | _ => NilEmpty.string_of_uint (Pos.to_uint p)
                 end = NilEmpty.string_of_uint (Pos.to_uint p)).
    { destruct (Pos.to_uint p); try reflexivity. contradiction. }
    rewrite Hs. cbn [append]. unfold Json.match_number.
    change (Ascii.eqb "-" "-") with true. cbv iota.
    rewrite Hm, Hf, Hz. reflexivity.
Qed.

Lemma value_start_facts : forall c,
  value_start c = true ->
  Json.is_ws c = false /\ Ascii.eqb c "]" = false /\ Ascii.eqb c "}" = false.
Proof.
  intros c. destruct c as [[|] [|] [|] [|] [|] [|] [|] [|]];
    vm_compute; intros H; try discriminate H; repeat split.
Qed.

Lemma number_start_facts : forall c,
  number_start c = true ->
  value_start c = true
  /\ Ascii.eqb c dquote = false /\ Ascii.eqb c "{" = false
  /\ Ascii.eqb c "[" = false /\ Ascii.eqb "n" c = false
  /\ Ascii.eqb "t" c = false /\ Ascii.eqb "f" c = false
  /\ Ascii.eqb "N" c = false /\ Ascii.eqb "I" c = false.
Proof.
  intros c. destruct c as [[|] [|] [|] [|] [|] [|] [|] [|]];
    vm_compute; intros H; try discriminate H; repeat split.
Qed.

Lemma of_Z_head : forall z,
  exists c t, PyStr.of_Z z = String c t /\ number_start c = true.
Proof.
  intros z. unfold PyStr.of_Z. destruct z as [| p | p]; cbn [Z.to_int].
  - do 2 eexists. split; reflexivity.
  - pose proof (to_uint_nonzero_head p) as Hu.
    unfold NilZero.string_of_int, NilZero.string_of_uint.
    destruct (Pos.to_uint p); try contradiction;
      do 2 eexists; (split; [reflexivity | reflexivity]).
  - do 2 eexists. split; reflexivity.
Qed.

Lemma dumps_head : forall v,
  exists c t, Json.dumps v = String c t /\ value_start c = true.
Proof.
  intros [| [|] | z | s | l | d];
    try (do 2 eexists; split; reflexivity).
  destruct (of_Z_head z) as (c & t & E & H).
  exists c, t. split; [exact E |].
  now apply number_start_facts in H.
Qed.

Lemma skip_ws_value : forall c t,
  value_start c = true -> Json.skip_ws (String c t) = String c t.
Proof.
  intros c t H. apply value_start_facts in H as (H & _).
  cbn [Json.skip_ws]. now rewrite H.
Qed.

Lemma skip_ws_dumps : forall v rest,
  Json.skip_ws (Json.dumps v ++ rest) = Json.dumps v ++ rest.
Proof.
  intros v rest. destruct (dumps_head v) as (c & t & E & H).
  rewrite E. cbn [append]. now apply skip_ws_value.
Qed.

Lemma json_size_list : forall l, json_size (JList l) = S (items_size l).
Proof. reflexivity. Qed.

Lemma json_size_dict : forall d, json_size (JDict d) = S (members_size d).
Proof. reflexivity. Qed.

Lemma dict_set_fresh : forall (A : Type) k (v : A) d,
  PyDict.mem k d = false -> PyDict.set k v d = (d ++ [(k, v)])%list.
Proof.
  intros A k v d. unfold PyDict.mem.
  induction d as [| [k' v'] d IH]; cbn; intros H; [reflexivity |].
  destruct (String.eqb k k'); [discriminate |]. f_equal. now apply IH.
Qed.

Lemma dict_mem_app : forall (A : Type) k (d e : list (string * A)),
  PyDict.mem k (d ++ e)%list = PyDict.mem k d || PyDict.mem k e.
Proof.
  intros A k d e. unfold PyDict.mem.
  induction d as [| [k' v'] d IH]; cbn; [reflexivity |].
  destruct (String.eqb k k'); [reflexivity | exact IH].
Qed.

Lemma of_pairs_distinct : forall (A : Type) (d : list (string * A)),
  PyDict.distinct_keys d = true -> PyDict.of_pairs d = d.
Proof.
  intros A d. unfold PyDict.of_pairs.
  assert (H : forall acc,
    PyDict.distinct_keys d = true ->
    (forall k, PyDict.mem k d = true -> PyDict.mem k acc = false) ->
    fold_left (fun d kv => PyDict.set (fst kv) (snd kv) d) d acc
    = (acc ++ d)%list).
  { induction d as [| [k v] d IH]; intros acc Hd Hacc; cbn.
    - now rewrite app_nil_r.
    - cbn in Hd. apply andb_true_iff in Hd as [Hk Hd].
      rewrite dict_set_fresh.
      + rewrite IH; [now rewrite <- app_assoc | exact Hd |].
        intros k' Hk'. rewrite dict_mem_app.
        rewrite Hacc.
        * cbn. unfold PyDict.mem. cbn.
          destruct (String.eqb k' k) eqn:E; [| reflexivity].
          apply String.eqb_eq in E. subst k'.
          rewrite Hk' in Hk. discriminate.
        * unfold PyDict.mem. cbn.
          destruct (String.eqb k' k); [reflexivity | exact Hk'].
      + apply Hacc. unfold PyDict.mem. cbn. now rewrite String.eqb_refl. }
  intros Hd. apply (H [] Hd). reflexivity.
Qed.

Lemma scan_once_string : forall f s',
  Json.scan_once (S f) (String dquote s')
  = Json.parse_map JStr (Json.scanstring s').
Proof. reflexivity. Qed.

Lemma skip_ws_quote : forall x,
  Json.skip_ws (String dquote x) = String dquote x.
Proof. reflexivity. Qed.

Lemma scan_once_list : forall f s',
  Json.scan_once (S f) (String "[" s')
  = match Json.skip_ws s' with
    | String c1 s1 =>
        if Ascii.eqb c1 "]" then Json.Parsed (JList []) s1
        else Json.parse_map JList (Json.scan_items f (String c1 s1))
    | EmptyString => Json.parse_map JList (Json.scan_items f EmptyString)
    end.
Proof. reflexivity. Qed.

Lemma scan_once_dict : forall f s',
  Json.scan_once (S f) (String "{" s')
  = match Json.skip_ws s' with
    | String c1 s1 =>
        if Ascii.eqb c1 "}" then Json.Parsed (JDict []) s1
        else if Ascii.eqb c1 dquote
        then Json.parse_map (fun ps => JDict (PyDict.of_pairs ps))
               (Json.scan_members f s1)
        else Json.Invalid
    | EmptyString => Json.Invalid
    end.
Proof. reflexivity. Qed.

Lemma scan_once_number : forall f c t,
  number_start c = true ->
  Json.scan_once (S f) (String c t) = Json.match_number (String c t).
Proof.
  intros f c t H.
  apply number_start_facts in H as (_ & H1 & H2 & H3 & H4 & H5 & H6 & H7 & H8).
  cbn [Json.scan_once]. rewrite H1, H2, H3.
  rewrite !prefix_cons, H4, H5, H6, H7, H8. reflexivity.
Qed.

Lemma scan_once_literals : forall f rest,
  Json.scan_once (S f) ("null" ++ rest) = Json.Parsed JNull rest
  /\ Json.scan_once (S f) ("true" ++ rest) = Json.Parsed (JBool true) rest
  /\ Json.scan_once (S f) ("false" ++ rest) = Json.Parsed (JBool false) rest.
Proof.
  intros f rest. repeat split.
  - cbn [append Json.scan_once].
    change (Ascii.eqb "n" dquote) with false.
    change (Ascii.eqb "n" "{") with false.
    change (Ascii.eqb "n" "[") with false. cbv iota.
    change (String "n" (String "u" (String "l" (String "l" rest))))
      with ("null" ++ rest).
    rewrite prefix_app. reflexivity.
  - cbn [append Json.scan_once].
    change (Ascii.eqb "t" dquote) with false.
    change (Ascii.eqb "t" "{") with false.
    change (Ascii.eqb "t" "[") with false. cbv iota.
    rewrite (prefix_cons "n" "ull"). change (Ascii.eqb "n" "t") with false.
    cbv iota.
    change (String "t" (String "r" (String "u" (String "e" rest))))
      with ("true" ++ rest).
    rewrite prefix_app. reflexivity.
  - cbn [append Json.scan_once].
    change (Ascii.eqb "f" dquote) with false.
    change (Ascii.eqb "f" "{") with false.
    change (Ascii.eqb "f" "[") with false. cbv iota.
    rewrite (prefix_cons "n" "ull"). change (Ascii.eqb "n" "f") with false.
    cbv iota.
    rewrite (prefix_cons "t" "rue"). change (Ascii.eqb "t" "f") with false.
    cbv iota.
    change (String "f" (String "a" (String "l" (String "s" (String "e" rest)))))
      with ("false" ++ rest).
    rewrite prefix_app. reflexivity.
Qed.

Lemma scan_items_step : forall f s v rest c r,
  Json.scan_once f s = Json.Parsed v rest ->
  Json.skip_ws rest = String c r ->
  Json.scan_items (S f) s
  = if Ascii.eqb c "]" then Json.Parsed [v] r
    else if Ascii.eqb c ","
    then Json.parse_map (cons v) (Json.scan_items f (Json.skip_ws r))
    else Json.Invalid.
Proof. intros f s v rest c r H1 H2. cbn [Json.scan_items]. now rewrite H1, H2. Qed.

Lemma scan_members_step : forall f s k rest r v rest' c r',
  Json.scanstring s = Json.Parsed k rest ->
  Json.skip_ws rest = String ":" r ->
  Json.scan_once f (Json.skip_ws r) = Json.Parsed v rest' ->
  Json.skip_ws rest' = String c r' ->
  Json.scan_members (S f) s
  = if Ascii.eqb c "}" then Json.Parsed [(k, v)] r'
    else if Ascii.eqb c "," then
      match Json.skip_ws r' with
      | String c2 r2 =>
          if Ascii.eqb c2 dquote
          then Json.parse_map (cons (k, v)) (Json.scan_members f r2)
          else Json.Invalid
      | EmptyString => Json.Invalid
      end
    else Json.Invalid.
Proof.
  intros f s k rest r v rest' c r' H1 H2 H3 H4.
  cbn [Json.scan_members]. rewrite H1, H2.
  change (negb (Ascii.eqb ":" ":")) with false. cbv iota.
  now rewrite H3, H4.
Qed.

(** [scan_once] reads back the text of a value, up to the text that
    follows it. *)
Lemma scan_once_dumps : forall v fuel rest,
  (json_size v <= fuel)%nat ->
  closes rest = true ->
  valid_keys v = true ->
  Json.scan_once fuel (Json.dumps v ++ rest) = Json.Parsed v rest.
Proof.
  induction v as [| b | z | s | l IH | d IH] using json_induction;
    intros fuel rest Hfuel Hrest Hkeys;
    (destruct fuel as [| f]; [cbn in Hfuel; lia |]).
  - apply scan_once_literals.
  - destruct b; apply scan_once_literals.
  - destruct (of_Z_head z) as (c & t & E & Hc).
    cbn [Json.dumps]. rewrite E. cbn [append].
    rewrite scan_once_number by exact Hc.
    change (String c (t ++ rest)) with (String c t ++ rest).
    rewrite <- E. now apply match_number_of_Z.
  - cbn [Json.dumps]. unfold Json.quote. cbn [append].
    rewrite scan_once_string, sapp_assoc. cbn [append].
    now rewrite scanstring_escape.
  - rewrite dumps_list, json_size_list in *. rewrite !sapp_assoc.
    cbn [append]. rewrite scan_once_list.
    cbn [valid_keys] in Hkeys.
    assert (Hitems : forall f' rest',
      l <> [] -> (items_size l <= f')%nat -> closes rest' = true ->
      Json.scan_items f' (dumps_items l ++ String "]" rest')
      = Json.Parsed l rest').
    { clear Hfuel f rest Hrest. rename Hkeys into Hk.
      induction IH as [| x l Hx Hl IHl]; intros f' rest' Hne Hf Hr;
        [contradiction |].
      cbn [forallb] in Hk. apply andb_true_iff in Hk as [Hkx Hkl].
      cbn [items_size] in Hf.
      destruct f' as [| f']; [lia |].
      cbn [dumps_items]. rewrite sapp_assoc.
      destruct l as [| y l].
      - cbn [append].
        rewrite (scan_items_step f' _ x (String "]" rest') "]" rest').
        + reflexivity.
        + apply Hx; [lia | reflexivity | exact Hkx].
        + reflexivity.
      - rewrite sapp_assoc. cbn [append].
        rewrite (scan_items_step f' _ x
                   (String "," (String " "
                      (dumps_items (y :: l) ++ String "]" rest')))
                   "," (String " " (dumps_items (y :: l) ++ String "]" rest'))).
        + change (Ascii.eqb "," "]") with false.
          change (Ascii.eqb "," ",") with true. cbv iota.
          cbn [Json.skip_ws]. change (Json.is_ws " ") with true. cbv iota.
          cbn [dumps_items]. rewrite sapp_assoc, skip_ws_dumps.
          rewrite <- sapp_assoc.
          change (Json.dumps y
                  ++ match l with [] => "" | _ => ", " ++ dumps_items l end)
            with (dumps_items (y :: l)).
          rewrite IHl; [reflexivity | exact Hkl | discriminate | | exact Hr].
          cbn [items_size] in *. lia.
        + apply Hx; [lia | reflexivity | exact Hkx].
        + reflexivity. }
    destruct l as [| x l].
    + reflexivity.
    + cbn [dumps_items]. rewrite sapp_assoc, skip_ws_dumps.
      destruct (dumps_head x) as (c & t & E & Hc).
      rewrite E. cbn [append].
      apply value_start_facts in Hc as (_ & Hc & _). rewrite Hc.
      change (String c (t ++ ?X)) with (String c t ++ X).
      rewrite <- E, <- sapp_assoc.
      change (Json.dumps x
              ++ match l with [] => "" | _ => ", " ++ dumps_items l end)
        with (dumps_items (x :: l)).
      rewrite Hitems; [reflexivity | discriminate | lia | exact Hrest].
  - rewrite dumps_dict, json_size_dict in *. rewrite !sapp_assoc.
    cbn [append]. rewrite scan_once_dict.
    cbn [valid_keys] in Hkeys. apply andb_true_iff in Hkeys as [Hdist Hkeys].
    assert (Hmembers : forall f' rest' k x d',
      d = (k, x) :: d' -> (members_size d <= f')%nat -> closes rest' = true ->
      Json.scan_members f'
        (Json.escape k
         ++ String dquote (": " ++ Json.dumps x
              ++ match d' with [] => "" | _ => ", " ++ dumps_members d' end
              ++ String "}" rest'))
      = Json.Parsed d rest').
    { clear Hfuel f rest Hrest Hdist. rename Hkeys into Hk.
      induction IH as [| [k0 x0] d Hx Hd IHd];
        intros f' rest' k x d' Heq Hf Hr; [discriminate |].
      injection Heq as -> -> ->.
      cbn [forallb snd] in Hk. apply andb_true_iff in Hk as [Hkx Hkd].
      cbn [members_size] in Hf. cbn [snd] in Hx.
      destruct f' as [| f']; [lia |].
      destruct d' as [| [k1 x1] d1].
      - cbn [append].
        rewrite (scan_members_step f' _ k
                   (String ":" (String " " (Json.dumps x ++ String "}" rest')))
                   (String " " (Json.dumps x ++ String "}" rest'))
                   x (String "}" rest') "}" rest').
        + reflexivity.
        + apply scanstring_escape.
        + reflexivity.
        + cbn [Json.skip_ws]. change (Json.is_ws " ") with true. cbv iota.
          rewrite skip_ws_dumps. apply Hx; [lia | reflexivity | exact Hkx].
        + reflexivity.
      - cbn [append].
        rewrite (scan_members_step f' _ k
                   (String ":" (String " "
                      (Json.dumps x
                       ++ String "," (String " "
                            (dumps_members ((k1, x1) :: d1)
                             ++ String "}" rest')))))
                   (String " "
                      (Json.dumps x
                       ++ String "," (String " "
                            (dumps_members ((k1, x1) :: d1)
                             ++ String "}" rest'))))
                   x
                   (String "," (String " "
                      (dumps_members ((k1, x1) :: d1) ++ String "}" rest')))
                   ","
                   (String " "
                      (dumps_members ((k1, x1) :: d1) ++ String "}" rest'))).
        + change (Ascii.eqb "," "}") with false.
          change (Ascii.eqb "," ",") with true. cbv iota.
          cbn [Json.skip_ws]. change (Json.is_ws " ") with true. cbv iota.
          cbn [dumps_members]. unfold Json.quote at 1. cbn [append].
          rewrite skip_ws_quote.
          change (Ascii.eqb dquote dquote) with true. cbv iota.
          repeat progress (cbn [append]; rewrite ?sapp_assoc).
          match goal with
          | |- Json.parse_map _ ?m = _ =>
              replace m with (Json.Parsed ((k1, x1) :: d1) rest')
          end; [reflexivity |].
          symmetry. apply (IHd Hkd f' rest' k1 x1 d1 eq_refl); [| exact Hr].
          cbn [members_size] in *. lia.
        + apply scanstring_escape.
        + reflexivity.
        + cbn [Json.skip_ws]. change (Json.is_ws " ") with true. cbv iota.
          rewrite skip_ws_dumps.
          apply Hx; [lia | reflexivity | exact Hkx].
        + reflexivity. }
    destruct d as [| [k x] d'].
    + reflexivity.
    + cbn [dumps_members]. unfold Json.quote at 1. cbn [append].
      rewrite skip_ws_quote.
      change (Ascii.eqb dquote "}") with false.
      change (Ascii.eqb dquote dquote) with true. cbv iota.
      repeat progress (cbn [append]; rewrite ?sapp_assoc).
      match goal with
      | |- Json.parse_map _ ?m = _ =>
          replace m with (Json.Parsed ((k, x) :: d') rest)
      end.
      * cbn [Json.parse_map]. now rewrite of_pairs_distinct.
      * symmetry. apply (Hmembers f rest k x d' eq_refl); [lia | exact Hrest].
Qed.

Lemma json_size_le_length : forall v,
  (json_size v <= String.length (Json.dumps v))%nat.
Proof.
  induction v as [| b | z | s | l IH | d IH] using json_induction.
  - cbn. lia.
  - destruct b; cbn; lia.
  - destruct (of_Z_head z) as (c & t & E & _). cbn [Json.dumps json_size].
    rewrite E. cbn. lia.
  - cbn. lia.
  - rewrite json_size_list, dumps_list.
    assert (H : (items_size l <= String.length (dumps_items l) + 1)%nat).
    { induction IH as [| x l Hx Hl IHl]; [cbn; lia |].
      cbn [items_size dumps_items]. rewrite slength_app.
      destruct l as [| y l]; [cbn in *; lia |].
      rewrite slength_app. cbn [String.length] in *. lia. }
    cbn [append String.length]. rewrite slength_app. cbn. lia.
  - rewrite json_size_dict, dumps_dict.
    assert (H : (members_size d <= String.length (dumps_members d) + 1)%nat).
    { induction IH as [| [k x] d Hx Hd IHd]; [cbn; lia |].
      cbn [members_size dumps_members]. cbn [snd] in Hx.
      rewrite !slength_app.
      destruct d as [| [k' y] d]; [cbn in *; lia |].
      rewrite slength_app. cbn [String.length] in *. lia. }
    cbn [append String.length]. rewrite slength_app. cbn. lia.
Qed.

(** Round trip: [loads] reads back what [dumps] wrote, for a value whose
    dicts have distinct keys. *)
Lemma loads_dumps : forall v,
  valid_keys v = true -> Json.loads (Json.dumps v) = Json.Parsed v "".
Proof.
  intros v Hk. unfold Json.loads.
  rewrite <- (sapp_nil_r (Json.dumps v)) at 2.
  rewrite skip_ws_dumps, scan_once_dumps; [reflexivity | | reflexivity | exact Hk].
  pose proof (json_size_le_length v). lia.
Qed.

(** *** Body resolution *)

Lemma replace_each_dumps : forall rs v,
  forallb (fun r => is_placeholder (fst r) && plain_value (snd r)) rs = true ->
  replace_each rs (Json.dumps v)
  = Ok (Json.dumps
          (fold_left (fun v r => subst_json (substitute_one r) v) rs v)).
Proof.
  induction rs as [| [p val] rs IH]; intros v H; [reflexivity |].
  cbn [forallb fst snd] in H.
  apply andb_true_iff in H as [Hr Hrs].
  apply andb_true_iff in Hr as [Hp Hv].
  destruct val as [| | | new | |]; try discriminate Hv.
  destruct p as [| c old']; [discriminate |].
  cbn [is_placeholder] in Hp. apply andb_true_iff in Hp as [Hc Hp].
  apply Ascii.eqb_eq in Hc. subst c. cbn [plain_value] in Hv.
  cbn [replace_each replace_with obind fold_left].
  rewrite (replace_dumps_whole old' new Hp Hv).
  now apply IH.
Qed.

Lemma shape_of_resolve : forall st v,
  shape_of (resolve_json st v) = shape_of v.
Proof.
  intros st v. unfold resolve_json. generalize (replacements st).
  intros rs. revert v. induction rs as [| r rs IH]; intros v; [reflexivity |].
  cbn [fold_left]. rewrite IH. apply shape_of_subst.
Qed.

(** C5, amended.  When the values that [resolve_body] substitutes (the
    held admin user id or its stand-in, the last created user id or its
    stand-in) are strs of characters from space to tilde other than the
    double quote and the backslash, and the keys of every dict of the
    template are still pairwise distinct after the substitution, then
    [resolve_body] returns the template with the placeholders replaced
    in its strings, a value of the shape of the template. *)
Theorem resolve_body_keeps_shape :
  forall (st : State) (body_spec : json) (id : string),
    plain_replacements st = true ->
    valid_keys (resolve_json st body_spec) = true ->
    resolve_body st body_spec id = Ok (resolve_json st body_spec)
    /\ shape_of (resolve_json st body_spec) = shape_of body_spec.
Proof.
  intros st body_spec id Hplain Hkeys.
  split; [| apply shape_of_resolve].
  assert (Hrs : forallb (fun r => is_placeholder (fst r) && plain_value (snd r))
                  (replacements st) = true).
  { unfold plain_replacements in Hplain. unfold replacements in *.
    cbn [forallb fst snd] in *.
    repeat (apply andb_true_iff in Hplain as [? Hplain]).
    repeat (apply andb_true_iff; split); auto. }
  assert (Hnull : resolve_json st JNull = JNull).
  { unfold resolve_json. generalize (replacements st). intros rs.
    induction rs as [| r rs IH]; [reflexivity | exact IH]. }
  assert (Hgen : obind (replace_each (replacements st) (Json.dumps body_spec))
                   loads_outcome
                 = Ok (resolve_json st body_spec)).
  { rewrite (replace_each_dumps _ _ Hrs). cbn [obind].
    unfold loads_outcome. fold (resolve_json st body_spec).
    now rewrite loads_dumps. }
  destruct body_spec; try exact Hgen.
  cbn [resolve_body]. now rewrite Hnull.
Qed.

(** C5 as stated fails.  With a held admin user id that contains a
    double quote, the resolved text is not JSON and [resolve_body]
    raises; with one that contains a quoted key and value, the resolved
    text is the JSON of a dict with a second member, which is not the
    shape of the template. *)
Lemma resolve_body_breaks_structure :
  let template := JDict [("userId", JStr "<userId>")] in
  let quoted := String "a" (String dquote "b") in
  let injecting :=
    "x" ++ String dquote ", " ++ String dquote "role" ++ String dquote ": "
    ++ String dquote "admin" in
  resolve_body (mkState JNull None (JStr quoted) JNull [] None) template "T-1"
  = Raise JSONDecodeError
  /\ resolve_body (mkState JNull None (JStr injecting) JNull [] None)
       template "T-1"
     = Ok (JDict [("userId", JStr "x"); ("role", JStr "admin")])
  /\ shape_of (JDict [("userId", JStr "x"); ("role", JStr "admin")])
     <> shape_of template.
Proof.
  cbv zeta. split; [vm_compute; reflexivity |].
  split; [vm_compute; reflexivity | discriminate].
Qed.

Lemma resolve_body_keeps_shape_witness :
  resolve_body initial_state
    (JDict [("userId", JStr "<userId>");
            ("mfaToken", JStr "<valid-totp>");
            ("targets", JList [JStr "<target-user-id>"; JNum 3])])
    "MFA-RESET-010"
  = Ok (JDict [("userId", JStr "00000000-0000-4000-a000-000000000002");
               ("mfaToken", JStr "000000");
               ("targets",
                JList [JStr "00000000-0000-0000-0000-000000000099"; JNum 3])]).
Proof.
  exact (proj1 (resolve_body_keeps_shape initial_state
                  (JDict [("userId", JStr "<userId>");
                          ("mfaToken", JStr "<valid-totp>");
                          ("targets",
                           JList [JStr "<target-user-id>"; JNum 3])])
                  "MFA-RESET-010" eq_refl eq_refl)).
Defined.

(** * Further properties of the runner *)

(** ** The request executor *)

Lemma take_length : forall n s, (String.length (PyStr.take n s) <= n)%nat.
Proof.
  induction n as [| n IH]; intros [| c s]; cbn; try lia.
  specialize (IH s). lia.
Qed.

Lemma take_prefix : forall n s, String.prefix (PyStr.take n s) s = true.
Proof.
  induction n as [| n IH]; intros [| c s]; cbn [PyStr.take];
    try apply prefix_nil.
  rewrite prefix_cons, Ascii.eqb_refl. apply IH.
Qed.

(** X1. [execute_request] always returns, whatever the library does: it
    logs exactly one call, to the base URL followed by the given URL,
    with the given method, headers and body, a timeout of 30 and
    redirects off, a cookie dict only when it is not empty, and leaves
    the state alone.  The error of the returned tuple is truthy exactly
    when the library raised, and then the other three components are
    None; otherwise they are the status, the body and the response. *)
Theorem execute_request_contract :
  forall (BASE_URL : string) (http : list HttpCall -> HttpCall -> http_outcome)
         (method url : string) (headers : list (string * json))
         (json_body : json) (cookies : option (list (string * string)))
         (w : World),
  exists status body resp err c,
    execute_request BASE_URL http method url headers json_body cookies w
    = (Ok (status, body, resp, err), mkWorld (state w) (log w ++ [c]))
    /\ call_method c = method
    /\ call_url c = BASE_URL ++ url
    /\ call_headers c = Some headers
    /\ call_json c = json_body
    /\ call_timeout c = 30
    /\ call_allow_redirects c = false
    /\ (call_cookies c = None <-> cookies = None \/ cookies = Some [])
    /\ (call_cookies c <> None -> call_cookies c = cookies)
    /\ (truthy_str err = true <->
        exists kind msg, http (log w) c = Failed kind msg)
    /\ (truthy_str err = true ->
        status = None /\ body = JNull /\ resp = None)
    /\ (truthy_str err = false ->
        exists r, http (log w) c = Responded r
                  /\ status = Some (status_code r)
                  /\ body = body_of r /\ resp = Some r /\ err = None).
Proof.
  intros. rewrite execute_request_eq.
  set (c := call_of BASE_URL method url headers json_body cookies).
  assert (Hc : (call_cookies c = None <-> cookies = None \/ cookies = Some [])
               /\ (call_cookies c <> None -> call_cookies c = cookies)).
  { subst c. destruct cookies as [[| x l] |]; cbn; split;
      try (split; [intros H; try discriminate H; auto
                  | intros [H | H]; try discriminate H; reflexivity]);
      try (intros H; try reflexivity; contradiction). }
  destruct Hc as [Hc1 Hc2].
  destruct (http (log w) c) as [r | kind msg] eqn:E.
  - exists (Some (status_code r)), (body_of r), (Some r), None, c.
    split; [reflexivity |].
    do 6 (split; [reflexivity |]).
    split; [exact Hc1 |]. split; [exact Hc2 |].
    split; [| split].
    + split; [intros H; cbn in H; discriminate H
             | intros (k & m & H); congruence].
    + intros H; cbn in H; discriminate H.
    + intros _. exists r. split; [exact E | repeat split].
  - destruct (tuple_of_failed kind msg) as (err & Et & Ht).
    exists None, JNull, None, (Some err), c.
    split; [rewrite Et; reflexivity |].
    do 6 (split; [reflexivity |]).
    split; [exact Hc1 |]. split; [exact Hc2 |].
    split; [| split].
    + split; [intros _; exists kind, msg; exact E | intros _; exact Ht].
    + intros _. repeat split.
    + intros H. rewrite Ht in H. discriminate H.
Qed.

(** X2. What the executor keeps of an unexpected answer is capped: the
    error string of a failed request has at most 218 characters, and the
    body that stands in for a response that is not JSON is a dict with
    the single key "_raw" whose value is a prefix of the response text
    of at most 500 characters. *)
Theorem diagnostics_are_capped :
  forall (BASE_URL : string) (http : list HttpCall -> HttpCall -> http_outcome)
         (method url : string) (headers : list (string * json))
         (json_body : json) (cookies : option (list (string * string)))
         (w w' : World) (status : option Z) (body : json)
         (resp : option Response) (err : option string),
    execute_request BASE_URL http method url headers json_body cookies w
    = (Ok (status, body, resp, err), w') ->
    (forall e, err = Some e -> (String.length e <= 218)%nat)
    /\ (forall r,
          resp = Some r -> resp_json r = None ->
          exists raw,
            body = JDict [("_raw", JStr raw)]
            /\ (String.length raw <= 500)%nat
            /\ String.prefix raw (resp_text r) = true).
Proof.
  intros BASE_URL http method url headers json_body cookies w w'
         status body resp err H.
  rewrite execute_request_eq in H. injection H as H _.
  destruct (http (log w) _) as [r0 | kind msg].
  - cbv [tuple_of] in H. injection H as <- <- <- <-.
    split; [discriminate |].
    intros r E Hj. injection E as ->.
    exists (PyStr.take 500 (resp_text r)). unfold body_of. rewrite Hj.
    split; [reflexivity |]. split; [apply take_length | apply take_prefix].
  - split.
    + intros e ->.
      assert (some_inj : forall x y : string, Some x = Some y -> x = y)
        by (intros x y E; congruence).
      destruct kind; cbv [tuple_of] in H;
        apply (f_equal snd) in H; cbv [snd] in H;
        apply some_inj in H; rewrite <- H; clear H.
      * rewrite slength_app. pose proof (take_length 200 msg).
        change (String.length "Connection error: ") with 18%nat. lia.
      * vm_compute. lia.
      * rewrite slength_app. pose proof (take_length 200 msg).
        change (String.length "Error: ") with 7%nat. lia.
    + intros r ->. destruct kind; cbv [tuple_of] in H; discriminate H.
Qed.

Lemma diagnostics_are_capped_witness :
  exists status body resp err w',
    execute_request Sample.base
      (Sample.always (mkResponse 502 [] None "<html>Bad Gateway</html>"))
      "GET" "/health" [] JNull None Sample.world0
    = (Ok (status, body, resp, err), w')
    /\ exists raw,
         body = JDict [("_raw", JStr raw)] /\ (String.length raw <= 500)%nat.
Proof.
  do 5 eexists.
  match goal with
  | |- ?A /\ _ => assert (E : A) by (vm_compute; reflexivity)
  end.
  split; [exact E |].
  destruct (proj2 (diagnostics_are_capped _ _ _ _ _ _ _ _ _ _ _ _ _ E)
              _ eq_refl eq_refl) as (raw & B & L & _).
  exists raw. split; [exact B | exact L].
Defined.

(** ** Logging in before a case *)

Lemma login_frame_refl : forall w, login_frame w w.
Proof. intros w. split; reflexivity. Qed.

Lemma login_frame_trans : forall a b c,
  login_frame a b -> login_frame b c -> login_frame a c.
Proof. intros a b c [H1 H2] [K1 K2]. split; congruence. Qed.

Ltac login_frame_steps :=
  repeat first
    [ apply (keeps_ret login_frame_refl)
    | apply (keeps_raise login_frame_refl)
    | apply (keeps_lift login_frame_refl)
    | apply (keeps_get_state login_frame_refl)
    | apply keeps_set_state; intros; split; reflexivity
    | apply (keeps_bind login_frame_trans); [| intros]
    | match goal with
      | |- keeps _ (if ?b then _ else _) => destruct b
      | |- keeps _ (match ?x with _ => _ end) => destruct x
      end ].

Section EnsureLogin.

Variable BASE_URL : string.
Variable http : list HttpCall -> HttpCall -> http_outcome.

Lemma login_capture_frame : forall status body resp,
  keeps login_frame (login_capture status body resp).
Proof. intros. unfold login_capture. login_frame_steps. Qed.

Lemma login_attempt_effect : forall email pw w,
  exists o w1,
    login_attempt BASE_URL http email pw w = (o, w1)
    /\ o <> Stuck
    /\ log w1 = (log w ++ [login_call BASE_URL email pw])%list
    /\ login_frame w w1.
Proof.
  intros email pw w.
  destruct (login_attempt_logs_one BASE_URL http email pw w)
    as (o & w1 & E & Hns & Hlog).
  exists o, w1. repeat split; auto.
  - revert E. unfold login_attempt, do_login, http_call.
    cbv beta iota zeta delta [bind ret].
    destruct (http (log w) _) as [resp | kind msg]; intros E.
    + apply login_capture_frame in E. apply E.
    + injection E as _ <-. reflexivity.
  - revert E. unfold login_attempt, do_login, http_call.
    cbv beta iota zeta delta [bind ret].
    destruct (http (log w) _) as [resp | kind msg]; intros E.
    + apply login_capture_frame in E. apply E.
    + injection E as _ <-. reflexivity.
Qed.

Lemma try_logins_effect : forall creds w,
  exists b w1 k,
    try_logins BASE_URL http creds w = (Ok b, w1)
    /\ log w1 = (log w ++ login_calls_of BASE_URL creds k)%list
    /\ (k <= List.length creds)%nat
    /\ login_frame w w1
    /\ (b = false -> k = List.length creds)
    /\ (creds <> [] -> (1 <= k)%nat).
Proof.
  induction creds as [| [email pw] creds IH]; intros w.
  - exists false, w, O. cbn. rewrite app_nil_r.
    repeat split; auto. congruence.
  - cbn [try_logins]. unfold bind at 1. unfold try_except.
    destruct (login_attempt_effect email pw w)
      as (o & w1 & E & Hns & Hlog & Hfr).
    rewrite E.
    assert (Hrest :
      exists b w3 k,
        try_logins BASE_URL http creds w1 = (Ok b, w3)
        /\ log w3
           = (log w ++ login_calls_of BASE_URL ((email, pw) :: creds) k)%list
        /\ (k <= List.length ((email, pw) :: creds))%nat
        /\ login_frame w w3
        /\ (b = false -> k = List.length ((email, pw) :: creds))
        /\ ((email, pw) :: creds <> [] -> (1 <= k)%nat)).
    { destruct (IH w1) as (b & w3 & k & E3 & L3 & N3 & F3 & B3 & _).
      exists b, w3, (S k). split; [exact E3 |]. split.
      - rewrite L3, Hlog, <- app_assoc. reflexivity.
      - cbn [List.length]. repeat split.
        + lia.
        + eapply login_frame_trans; eauto.
        + eapply login_frame_trans; eauto.
        + intros Hb. rewrite (B3 Hb). reflexivity.
        + intros _. lia. }
    destruct o as [[|] | e |].
    + exists true, w1, 1%nat. cbn [ret]. split; [reflexivity |].
      split; [exact Hlog |]. cbn [List.length].
      repeat split; try apply Hfr; try lia; try discriminate.
    + cbn [ret]. exact Hrest.
    + cbn [ret]. exact Hrest.
    + contradiction.
Qed.

End EnsureLogin.




(** ** The helpers, in general *)

Lemma contains_here : forall x s,
  String.prefix x s = true -> PyStr.contains x s = true.
Proof. intros x s H. destruct s; cbn [PyStr.contains]; now rewrite H. Qed.

Lemma contains_later : forall x c s,
  PyStr.contains x s = true -> PyStr.contains x (String c s) = true.
Proof.
  intros x c s H. cbn [PyStr.contains].
  destruct (String.prefix x (String c s)); [reflexivity | exact H].
Qed.

Lemma contains_intro : forall x a c, PyStr.contains x (a ++ x ++ c) = true.
Proof.
  intros x a c. induction a as [| ch a IH].
  - change ("" ++ x ++ c) with (x ++ c). apply contains_here, prefix_app.
  - change (String ch a ++ x ++ c) with (String ch (a ++ x ++ c)).
    apply contains_later, IH.
Qed.

Lemma contains_elim : forall x s,
  PyStr.contains x s = true -> exists a c, s = a ++ x ++ c.
Proof.
  intros x s. induction s as [| ch s IH]; cbn [PyStr.contains]; intros H.
  - destruct (String.prefix x "") eqn:P; [| discriminate].
    exists "", (PyStr.drop (String.length x) "").
    apply prefix_split in P. exact P.
  - destruct (String.prefix x (String ch s)) eqn:P.
    + exists "", (PyStr.drop (String.length x) (String ch s)).
      apply prefix_split in P. exact P.
    + destruct (IH H) as (a & c & ->). now exists (String ch a), c.
Qed.

Lemma split_nonempty : forall sep s, PyStr.split sep s <> [].
Proof.
  intros sep s. destruct s as [| ch s]; cbn [PyStr.split]; [discriminate |].
  destruct (Ascii.eqb ch sep); [discriminate |].
  destruct (PyStr.split sep s); discriminate.
Qed.

Lemma split_head_prefix : forall sep s p ps,
  PyStr.split sep s = p :: ps -> exists c, s = p ++ c.
Proof.
  intros sep s. induction s as [| ch s IH]; cbn [PyStr.split]; intros p ps H.
  - injection H as <- _. now exists "".
  - destruct (Ascii.eqb ch sep).
    + injection H as <- _. now exists (String ch s).
    + destruct (PyStr.split sep s) as [| q qs] eqn:E.
      * now apply split_nonempty in E.
      * injection H as <- _. destruct (IH q qs eq_refl) as (c & ->).
        now exists c.
Qed.

Lemma split_piece_within : forall sep s piece,
  In piece (PyStr.split sep s) -> exists a c, s = a ++ piece ++ c.
Proof.
  intros sep s. induction s as [| ch s IH]; cbn [PyStr.split]; intros piece H.
  - destruct H as [<- | []]. now exists "", "".
  - destruct (Ascii.eqb ch sep).
    + destruct H as [<- | H]; [now exists "", (String ch s) |].
      destruct (IH piece H) as (a & c & ->). now exists (String ch a), c.
    + destruct (PyStr.split sep s) as [| q qs] eqn:E.
      * now apply split_nonempty in E.
      * destruct H as [<- | H].
        -- destruct (split_head_prefix sep s q qs E) as (c & ->).
           now exists "", c.
        -- destruct (IH piece (or_intror H)) as (a & c & ->).
           now exists (String ch a), c.
Qed.

Lemma lstrip_within : forall s, exists a, s = a ++ PyStr.lstrip s.
Proof.
  induction s as [| ch s [a IH]]; cbn [PyStr.lstrip]; [now exists "" |].
  destruct (PyStr.isspace ch); [| now exists ""].
  exists (String ch a).
  change (String ch s = String ch (a ++ PyStr.lstrip s)). now f_equal.
Qed.

Lemma rstrip_within : forall s, exists c, s = PyStr.rstrip s ++ c.
Proof.
  induction s as [| ch s [c IH]]; cbn [PyStr.rstrip]; [now exists "" |].
  destruct (PyStr.rstrip s) as [| r rs] eqn:E.
  - destruct (PyStr.isspace ch).
    + now exists (String ch s).
    + exists s. reflexivity.
  - exists c. change (String ch s = String ch (String r rs ++ c)).
    now f_equal.
Qed.

Lemma strip_within : forall s, exists a c, s = a ++ PyStr.strip s ++ c.
Proof.
  intros s. unfold PyStr.strip.
  destruct (lstrip_within s) as (a & Ha).
  destruct (rstrip_within (PyStr.lstrip s)) as (c & Hc).
  exists a, c. now rewrite <- Hc.
Qed.

Lemma after_refresh_name : forall p,
  PyStr.startswith p "nexa_refresh_token=" = true ->
  exists v, p = "nexa_refresh_token=" ++ v
            /\ PyStr.after_first "=" p = Some v.
Proof.
  intros p H. unfold PyStr.startswith in H. apply prefix_split in H.
  exists (PyStr.drop (String.length "nexa_refresh_token=") p).
  split; [exact H |]. rewrite H at 1. reflexivity.
Qed.

Lemma first_refresh_part_iff : forall parts v,
  first_refresh_part parts = Some v <->
  exists before piece after,
    parts = (before ++ piece :: after)%list
    /\ Forall (fun p => names_refresh_cookie p = false) before
    /\ PyStr.strip piece = "nexa_refresh_token=" ++ v.
Proof.
  induction parts as [| part parts IH]; intros v; cbn [first_refresh_part].
  - split; [discriminate |].
    intros (before & piece & after & H & _). now destruct before.
  - fold (names_refresh_cookie part).
    destruct (names_refresh_cookie part) eqn:N.
    + destruct (after_refresh_name _ N) as (v0 & Hv0 & A). rewrite A. split.
      * intros E. injection E as <-.
        exists [], part, parts. repeat split; auto.
      * intros (before & piece & after & H & F & S).
        destruct before as [| b before]; cbn in H; injection H as <- _.
        -- rewrite Hv0 in S. f_equal.
           apply (f_equal (PyStr.drop (String.length "nexa_refresh_token=")))
             in S.
           rewrite !drop_app in S. exact S.
        -- inversion F; congruence.
    + rewrite IH. split.
      * intros (before & piece & after & -> & F & S).
        exists (part :: before), piece, after. repeat split; auto.
      * intros (before & piece & after & H & F & S).
        destruct before as [| b before]; cbn in H; injection H as <- ->.
        -- unfold names_refresh_cookie, PyStr.startswith in N.
           rewrite S, prefix_app in N. discriminate.
        -- exists before, piece, after. inversion F; subst. auto.
Qed.

(** X5. [extract_refresh_cookie] returns the text that follows
    "nexa_refresh_token=" in the first piece of the Set-Cookie header,
    between semicolons and stripped of white space on both sides, that
    starts with this name, later "=" signs included; it returns None
    exactly when no piece starts with the name, also when the name
    occurs elsewhere in the header. *)
Theorem extract_refresh_cookie_spec : forall (resp : Response),
  let sc := header_get "set-cookie" (resp_headers resp) "" in
  (forall v, extract_refresh_cookie resp = Some v <-> first_refresh_value sc v)
  /\ (extract_refresh_cookie resp = None <->
      Forall (fun p => names_refresh_cookie p = false) (PyStr.split ";" sc)).
Proof.
  intros resp sc.
  assert (Hguard : forall piece,
            In piece (PyStr.split ";" sc) ->
            names_refresh_cookie piece = true ->
            PyStr.contains "nexa_refresh_token=" sc = true).
  { intros piece Hin N.
    destruct (split_piece_within _ _ _ Hin) as (a & c & ->).
    destruct (strip_within piece) as (a' & c' & Hp).
    destruct (after_refresh_name _ N) as (v & Hv & _).
    rewrite Hp, Hv, !sapp_assoc, <- (sapp_assoc a a').
    apply contains_intro. }
  assert (Hvalue : forall v,
            extract_refresh_cookie resp = Some v <-> first_refresh_value sc v).
  { intros v. unfold extract_refresh_cookie, first_refresh_value. fold sc.
    destruct (PyStr.contains "nexa_refresh_token=" sc) eqn:C; cbn [negb].
    - apply first_refresh_part_iff.
    - split; [discriminate |].
      intros (before & piece & after & H & F & S).
      enough (false = true) by discriminate.
      apply (Hguard piece).
      + rewrite H. apply in_elt.
      + unfold names_refresh_cookie, PyStr.startswith.
        rewrite S. apply prefix_app. }
  split; [exact Hvalue |].
  split.
  - intros HN. apply Forall_forall. intros p Hin.
    destruct (names_refresh_cookie p) eqn:N; [| reflexivity].
    exfalso. apply in_split in Hin as (l1 & l2 & Hs).
    assert (Hfirst : exists v, first_refresh_part (PyStr.split ";" sc) = Some v).
    { rewrite Hs. clear - N. induction l1 as [| q l1 IH]; cbn [app first_refresh_part].
      - fold (names_refresh_cookie p). rewrite N.
        destruct (after_refresh_name _ N) as (v & _ & A). eauto.
      - fold (names_refresh_cookie q).
        destruct (names_refresh_cookie q) eqn:Nq; [| exact IH].
        destruct (after_refresh_name _ Nq) as (v & _ & A). eauto. }
    destruct Hfirst as (v & Hv).
    apply first_refresh_part_iff in Hv. apply Hvalue in Hv. congruence.
  - intros F. destruct (extract_refresh_cookie resp) as [v |] eqn:E;
      [| reflexivity].
    destruct (proj1 (Hvalue v) eq_refl) as (before & piece & after & H & _ & S).
    rewrite Forall_forall in F.
    specialize (F piece). rewrite H in F. specialize (F (in_elt _ _ _)).
    unfold names_refresh_cookie, PyStr.startswith in F.
    rewrite S, prefix_app in F. discriminate.
Qed.

Lemma split_app_sep : forall sep a b,
  PyStr.split sep (a ++ String sep b)
  = (PyStr.split sep a ++ PyStr.split sep b)%list.
Proof.
  intros sep a b. induction a as [| ch a IH]; cbn [append PyStr.split].
  - rewrite Ascii.eqb_refl. reflexivity.
  - destruct (Ascii.eqb ch sep); [now rewrite IH |].
    rewrite IH. destruct (PyStr.split sep a) as [| p ps] eqn:E.
    + now apply split_nonempty in E.
    + reflexivity.
Qed.

Lemma get_path_app : forall keys1 keys2 obj,
  keys2 <> [] ->
  get_path obj (keys1 ++ keys2) = get_path (get_path obj keys1) keys2.
Proof.
  induction keys1 as [| k keys1 IH]; intros keys2 obj H; [reflexivity |].
  cbn [app get_path].
  assert (Hm : get_path (JStr MISSING) keys2 = JStr MISSING)
    by (destruct keys2; [congruence | reflexivity]).
  destruct obj; try (symmetry; exact Hm).
  destruct (PyDict.get k d); [now apply IH | symmetry; exact Hm].
Qed.

(** X6. Dotted keys compose: looking up [a.b] is looking up [b] in what
    the lookup of [a] gives, the missing-value marker included.  So the
    "data." fallback of the body checks looks the field up in the value
    under "data". *)
Theorem get_nested_composes : forall (obj : json) (a b : string),
  get_nested obj (a ++ "." ++ b) = get_nested (get_nested obj a) b.
Proof.
  intros obj a b. unfold get_nested.
  change (a ++ "." ++ b) with (a ++ String "." b).
  rewrite split_app_sep. apply get_path_app, split_nonempty.
Qed.

(** ** Resolving the request of a case *)

Lemma dict_set_keys : forall (A : Type) k (v : A) d,
  PyDict.mem k d = true ->
  List.map fst (PyDict.set k v d) = List.map fst d.
Proof.
  intros A k v d. unfold PyDict.mem.
  induction d as [| [k' v'] d IH]; cbn; intros H; [discriminate |].
  destruct (String.eqb k k') eqn:E.
  - apply String.eqb_eq in E. now subst k'.
  - cbn. f_equal. now apply IH.
Qed.

Lemma dict_get_map : forall (A B : Type) (f : A -> B) k (d : list (string * A)),
  PyDict.get k (List.map (fun kv => (fst kv, f (snd kv))) d)
  = option_map f (PyDict.get k d).
Proof.
  intros A B f k d. induction d as [| [k' v'] d IH]; cbn; [reflexivity |].
  destruct (String.eqb k k'); [reflexivity | exact IH].
Qed.

Lemma dict_get_set_neq : forall (A : Type) k k' (v : A) d,
  String.eqb k k' = false ->
  PyDict.get k (PyDict.set k' v d) = PyDict.get k d.
Proof.
  intros A k k' v d H. apply dict_get_set_other.
  intros ->. rewrite String.eqb_refl in H. discriminate.
Qed.

(** X7. [resolve_headers] never raises, it returns whenever the token
    held is not a list or a dict, and what it returns has the
    header names of the template, in the order of the template.  Only
    two headers can change: every other header keeps the text of the
    template; X-Company-ID is replaced exactly when its template has
    both a "<" and a ">", by the company id held or, when none is held,
    the stand-in ending in 0001. *)
Theorem resolve_headers_frame :
  forall (st : State) (headers_spec : list (string * string)) (id : string),
    (forall e, resolve_headers st headers_spec id <> Raise e)
    /\ (py_str (access_token st) <> None ->
        exists headers, resolve_headers st headers_spec id = Ok headers)
    /\ forall headers,
         resolve_headers st headers_spec id = Ok headers ->
         List.map fst headers = List.map fst headers_spec
         /\ (forall name,
               name <> "Authorization" -> name <> "X-Company-ID" ->
               PyDict.get name headers
               = option_map JStr (PyDict.get name headers_spec))
         /\ (forall val,
               PyDict.get "X-Company-ID" headers_spec = Some val ->
               PyDict.get "X-Company-ID" headers
               = Some (if PyStr.contains "<" val && PyStr.contains ">" val
                       then py_or (company_id st)
                              (JStr "00000000-0000-4000-a000-000000000001")
                       else JStr val)).
Proof.
  intros st headers_spec id.
  set (headers0 := List.map (fun kv => (fst kv, JStr (snd kv))) headers_spec).
  assert (Hget0 : forall k,
            PyDict.get k headers0 = option_map JStr (PyDict.get k headers_spec))
    by (intros k; apply dict_get_map).
  assert (Hmem0 : forall k val,
            PyDict.get k headers_spec = Some val ->
            PyDict.mem k headers0 = true).
  { intros k val H. unfold PyDict.mem. now rewrite Hget0, H. }
  assert (Hkeys0 : List.map fst headers0 = List.map fst headers_spec).
  { unfold headers0. rewrite List.map_map. reflexivity. }
  assert (Hfirst : exists headers1,
    (match PyDict.get "Authorization" headers_spec with
     | Some val =>
         obind (resolve_authorization st val) (fun r =>
         match r with
         | Some v => Ok (PyDict.set "Authorization" (JStr v) headers0)
         | None => Ok headers0
         end)
     | None => Ok headers0
     end = Ok headers1 \/
     match PyDict.get "Authorization" headers_spec with
     | Some val =>
         obind (resolve_authorization st val) (fun r =>
         match r with
         | Some v => Ok (PyDict.set "Authorization" (JStr v) headers0)
         | None => Ok headers0
         end)
     | None => Ok headers0
     end = Stuck /\ py_str (access_token st) = None)
    /\ List.map fst headers1 = List.map fst headers_spec
    /\ (forall name, name <> "Authorization" ->
          PyDict.get name headers1
          = option_map JStr (PyDict.get name headers_spec))).
  { destruct (PyDict.get "Authorization" headers_spec) as [val |] eqn:A.
    - assert (Hcases : (resolve_authorization st val = Stuck
                        /\ py_str (access_token st) = None)
                       \/ exists r, resolve_authorization st val = Ok r).
      { unfold resolve_authorization.
        repeat match goal with
               | |- context [if ?b then _ else _] => destruct b
               | |- context [match py_str ?x with _ => _ end] =>
                   destruct (py_str x)
               end; eauto. }
      destruct Hcases as [[-> Hp] | ([v |] & ->)]; cbn [obind].
      + exists headers0. split; [now right |]. split; [exact Hkeys0 |].
        intros name _. apply Hget0.
      + exists (PyDict.set "Authorization" (JStr v) headers0).
        split; [now left |]. split.
        * rewrite dict_set_keys; [exact Hkeys0 | eapply Hmem0; exact A].
        * intros name Hn. rewrite dict_get_set_other; [apply Hget0 | exact Hn].
      + exists headers0. split; [now left |]. split; [exact Hkeys0 |].
        intros name _. apply Hget0.
    - exists headers0. split; [now left |]. split; [exact Hkeys0 |].
      intros name _. apply Hget0. }
  destruct Hfirst as (headers1 & Hrun & Hkeys1 & Hget1).
  unfold resolve_headers. fold headers0.
  destruct Hrun as [-> | [-> Hp]]; cbn [obind].
  2: { split; [discriminate |]. split; [congruence | discriminate]. }
  assert (Hmem1 : forall val,
            PyDict.get "X-Company-ID" headers_spec = Some val ->
            PyDict.mem "X-Company-ID" headers1 = true).
  { intros val H. unfold PyDict.mem.
    rewrite Hget1, H; [reflexivity | discriminate]. }
  destruct (PyDict.get "X-Company-ID" headers_spec) as [val |] eqn:C.
  - destruct (PyStr.contains "<" val && PyStr.contains ">" val) eqn:P.
    + split; [discriminate |]. split; [eauto |].
      intros headers E. injection E as <-.
      split; [| split].
      * rewrite dict_set_keys; [exact Hkeys1 | eapply Hmem1; reflexivity].
      * intros name Ha Hc.
        rewrite dict_get_set_other; [now apply Hget1 | exact Hc].
      * intros val' E. injection E as <-. rewrite P.
        apply dict_get_set_same.
    + split; [discriminate |]. split; [eauto |].
      intros headers E. injection E as <-.
      split; [exact Hkeys1 | split].
      * intros name Ha _. now apply Hget1.
      * intros val' E. injection E as <-. rewrite P.
        rewrite Hget1, C; [reflexivity | discriminate].
  - split; [discriminate |]. split; [eauto |].
    intros headers E. injection E as <-.
    split; [exact Hkeys1 | split].
    + intros name Ha _. now apply Hget1.
    + discriminate.
Qed.

Lemma fold_left_map_set :
  forall (A B : Type) (f : A -> B) (d : list (string * A)) acc,
    fold_left (fun c kv => PyDict.set (fst kv) (f (snd kv)) c) d acc
    = fold_left (fun c kv => PyDict.set (fst kv) (snd kv) c)
        (List.map (fun kv => (fst kv, f (snd kv))) d) acc.
Proof.
  intros A B f d. induction d as [| kv d IH]; intros acc; cbn;
    [reflexivity | apply IH].
Qed.

Lemma distinct_keys_map :
  forall (A B : Type) (f : A -> B) (d : list (string * A)),
    PyDict.distinct_keys (List.map (fun kv => (fst kv, f (snd kv))) d)
    = PyDict.distinct_keys d.
Proof.
  intros A B f d. induction d as [| [k v] d IH]; cbn; [reflexivity |].
  rewrite IH. unfold PyDict.mem.
  rewrite (dict_get_map A B f k d).
  destruct (PyDict.get k d); reflexivity.
Qed.

(** X8. The cookies of a case are resolved one by one: the cookie dict
    sent has the names of the template, in its order, and the value of
    each is the resolution of its own template, whatever the other
    cookies are. *)
Theorem resolve_cookies_pointwise :
  forall (st : State) (cookies_spec : list (string * string)),
    PyDict.distinct_keys cookies_spec = true ->
    resolve_cookies st cookies_spec
    = List.map (fun kv => (fst kv, resolve_cookie st (snd kv))) cookies_spec.
Proof.
  intros st cookies_spec H. unfold resolve_cookies.
  rewrite (fold_left_map_set _ _ (resolve_cookie st)).
  apply (of_pairs_distinct string). now rewrite distinct_keys_map.
Qed.

Lemma resolve_cookies_pointwise_witness :
  resolve_cookies
    (mkState JNull (Some "r1") JNull JNull [] None)
    [("nexa_refresh_token", "<valid-refresh-token>");
     ("old", "<already-revoked-token>"); ("lang", "en")]
  = [("nexa_refresh_token", "r1"); ("old", "revoked-placeholder");
     ("lang", "en")].
Proof.
  exact (resolve_cookies_pointwise
           (mkState JNull (Some "r1") JNull JNull [] None)
           [("nexa_refresh_token", "<valid-refresh-token>");
            ("old", "<already-revoked-token>"); ("lang", "en")]
           eq_refl).
Defined.

Lemma no_lt_app : forall a b, no_lt (a ++ b) = no_lt a && no_lt b.
Proof.
  induction a as [| c a IH]; intros b; cbn [append no_lt]; [reflexivity |].
  now rewrite IH, andb_assoc.
Qed.

Lemma no_lt_escape_char : forall c,
  is_lt c = false -> no_lt (Json.escape_char c) = true.
Proof.
  intros c. destruct c as [[|] [|] [|] [|] [|] [|] [|] [|]];
    vm_compute; intros H; congruence.
Qed.

Lemma no_lt_escape : forall s, no_lt s = true -> no_lt (Json.escape s) = true.
Proof.
  induction s as [| c s IH]; cbn [no_lt Json.escape]; intros H;
    [reflexivity |].
  apply andb_true_iff in H as [Hc Hs]. apply negb_true_iff in Hc.
  now rewrite no_lt_app, no_lt_escape_char, IH.
Qed.

Lemma no_lt_quote : forall s, no_lt s = true -> no_lt (Json.quote s) = true.
Proof.
  intros s H. unfold Json.quote. cbn [no_lt].
  rewrite no_lt_app, no_lt_escape by exact H. reflexivity.
Qed.

Lemma no_lt_dumps : forall v, lt_free v = true -> no_lt (Json.dumps v) = true.
Proof.
  induction v as [| b | z | s | l IH | d IH] using json_induction;
    cbn [lt_free]; intros H.
  - reflexivity.
  - now destruct b.
  - apply no_lt_of_Z.
  - now apply no_lt_quote.
  - rewrite dumps_list. cbn [append no_lt is_lt]. rewrite no_lt_app.
    cbn [no_lt is_lt]. rewrite andb_true_r.
    change (negb (Ascii.eqb "[" "<")) with true. cbn [andb].
    induction IH as [| x l Hx Hl IHl]; [reflexivity |].
    cbn [forallb] in H. apply andb_true_iff in H as [H1 H2].
    cbn [dumps_items]. rewrite no_lt_app, (Hx H1). cbn [andb].
    destruct l as [| y l]; [reflexivity |].
    rewrite no_lt_app. cbn [andb]. now apply IHl.
  - rewrite dumps_dict. cbn [append no_lt is_lt]. rewrite no_lt_app.
    cbn [no_lt is_lt]. rewrite andb_true_r.
    change (negb (Ascii.eqb "{" "<")) with true. cbn [andb].
    induction IH as [| [k x] d Hx Hd IHd]; [reflexivity |].
    cbn [forallb fst snd] in H.
    apply andb_true_iff in H as [H1 H2].
    apply andb_true_iff in H1 as [Hk H1].
    cbn [dumps_members]. cbn [snd] in Hx.
    rewrite !no_lt_app, (no_lt_quote _ Hk), (Hx H1). cbn [andb].
    destruct d as [| [k' y] d]; [reflexivity |].
    rewrite no_lt_app. cbn [andb]. now apply IHd.
Qed.

Lemma replace_no_lt : forall old' new s,
  no_lt s = true -> PyStr.replace s (String "<" old') new = s.
Proof.
  intros old' new s. unfold PyStr.replace.
  induction s as [| c s IH]; cbn [no_lt]; intros H; [reflexivity |].
  apply andb_true_iff in H as [Hc Hs]. apply negb_true_iff in Hc.
  unfold is_lt in Hc. cbn [PyStr.replace_from].
  rewrite prefix_cons, Ascii.eqb_sym, Hc. now rewrite IH.
Qed.

(** X9. A template without placeholders goes through [resolve_body]
    unchanged: when no string of the body has a "<", the keys of its
    dicts are distinct and the ids held are strs (or none is held), the
    resolved body is the body of the plan, whatever characters the ids
    have. *)
Theorem resolve_body_without_placeholder :
  forall (st : State) (body_spec : json) (id : string),
    str_replacements st = true ->
    lt_free body_spec = true ->
    valid_keys body_spec = true ->
    resolve_body st body_spec id = Ok body_spec.
Proof.
  intros st body_spec id Hstr Hfree Hkeys.
  assert (Hrep : replace_each (replacements st) (Json.dumps body_spec)
                 = Ok (Json.dumps body_spec)).
  { pose proof (no_lt_dumps _ Hfree) as Hno.
    unfold str_replacements in Hstr. revert Hstr.
    unfold replacements. cbn [forallb snd].
    generalize (py_or (admin_user_id st)
                  (JStr "00000000-0000-4000-a000-000000000002")).
    generalize (match created_user_ids st with
                | [] => JStr "00000000-0000-0000-0000-000000000099"
                | _ :: _ => last_created st
                end).
    intros target user Hstr.
    destruct user; try discriminate Hstr.
    destruct target; try discriminate Hstr.
    cbn [replace_each replace_with obind].
    now rewrite !(replace_no_lt _ _ _ Hno). }
  assert (Hgen : obind (replace_each (replacements st) (Json.dumps body_spec))
                   loads_outcome = Ok body_spec).
  { rewrite Hrep. cbn [obind]. unfold loads_outcome.
    now rewrite loads_dumps. }
  destruct body_spec; try exact Hgen. reflexivity.
Qed.

Lemma resolve_body_without_placeholder_witness :
  resolve_body
    (mkState JNull None (JStr (String "a" (String dquote "b"))) JNull [] None)
    (JDict [("email", JStr "admin@test.com"); ("remember", JBool true)])
    "LOGIN-001"
  = Ok (JDict [("email", JStr "admin@test.com"); ("remember", JBool true)]).
Proof.
  exact (resolve_body_without_placeholder
           (mkState JNull None (JStr (String "a" (String dquote "b"))) JNull
              [] None)
           (JDict [("email", JStr "admin@test.com"); ("remember", JBool true)])
           "LOGIN-001" eq_refl eq_refl eq_refl).
Defined.




Lemma times_no_effect : forall (m : M unit) n w,
  m w = (Ok tt, w) -> times n m w = (Ok tt, w).
Proof.
  intros m n w Hm. induction n as [| n IH]; cbn [times]; [reflexivity |].
  unfold bind. rewrite Hm. exact IH.
Qed.



(** ** Results and their scoring *)

Section Results.

Variable BASE_URL : string.
Variable http : list HttpCall -> HttpCall -> http_outcome.

Lemma run_test_result : forall endpoint tc w r w',
  run_test BASE_URL http endpoint tc w = (Ok r, w') ->
  result_of endpoint tc r.
Proof.
  intros endpoint tc w r w' Hrun. unfold run_test in Hrun.
  destruct (skip_reason (tc_id tc)) as [reason |] eqn:Hskip.
  - injection Hrun as <- _. now constructor.
  - unfold bind in Hrun.
    destruct (preconditions BASE_URL http endpoint tc w) as [[[] | e |] w1];
      try discriminate.
    destruct (warm_up BASE_URL http tc w1) as [[[] | e |] w2];
      try discriminate.
    destruct (primary_call BASE_URL http tc w2)
      as [[[[[status body] resp] err] | e |] w3]; try discriminate.
    destruct (truthy_str err) eqn:T.
    + injection Hrun as <- _. now constructor.
    + destruct (capture_state (tc_request tc) status body resp w3)
        as [[[] | e |] w4]; try discriminate.
      injection Hrun as <- _. now constructor.
Qed.

End Results.

Lemma skip_reason_not_empty : forall id reason,
  skip_reason id = Some reason -> reason <> "".
Proof.
  intros id reason. unfold skip_reason.
  destruct (str_in id SKIP_TOTP_TESTS).
  - intros H. injection H as <-. discriminate.
  - unfold SKIP_MISSING_SEED. cbn [PyDict.get].
    repeat match goal with
           | |- context [if String.eqb id ?k then _ else _] =>
               destruct (String.eqb id k)
           end;
      intros H; try discriminate H; injection H as <-; discriminate.
Qed.

Lemma status_assertion_first : forall tc status body resp,
  exists a rest,
    run_assertions tc status body resp = a :: rest
    /\ a_check a = "status code"
    /\ a_passed a
       = Some (match status with
               | Some s => s =? exp_status (tc_expected tc)
               | None => false
               end).
Proof.
  intros. unfold run_assertions, assert_status. cbn [app].
  eexists. eexists. split; [reflexivity |]. split; reflexivity.
Qed.

Lemma all_passed_head : forall a rest,
  all_passed (a :: rest) = true ->
  a_passed a <> None -> a_passed a = Some true.
Proof.
  intros a rest H Hd. apply all_passed_iff in H as [_ H].
  apply H; [now left | exact Hd].
Qed.

(** X11. What a result says about itself.  Every result of [run_test]
    has status "pass", "fail" or "skip", and "skip" exactly for the
    cases of the skip tables.  Its error is None exactly when the status
    is "pass", and a non-empty text otherwise.  A pass has the expected
    status code as its actual status, and its first assertion is the
    status check, passed; so the list of definite assertions of a scored
    case is never empty.  The labels of the result are those of the
    case: its id, its method and URL template, its expected status. *)
Theorem result_invariant :
  forall (BASE_URL : string) (http : list HttpCall -> HttpCall -> http_outcome)
         (endpoint : Endpoint) (tc : TestCase) (w w' : World) (r : Result),
    run_test BASE_URL http endpoint tc w = (Ok r, w') ->
    (r_status r = "pass" \/ r_status r = "fail" \/ r_status r = "skip")
    /\ (r_status r = "skip" <-> skip_reason (tc_id tc) <> None)
    /\ (r_error r = None <-> r_status r = "pass")
    /\ (r_status r <> "pass" -> truthy_str (r_error r) = true)
    /\ (r_status r = "pass" ->
        r_actual_status r = Some (r_expected_status r)
        /\ exists a rest,
             r_assertions r = a :: rest
             /\ a_check a = "status code" /\ a_passed a = Some true)
    /\ r_test_id r = tc_id tc
    /\ r_endpoint r
       = req_method (tc_request tc) ++ " " ++ req_url (tc_request tc)
    /\ r_expected_status r = exp_status (tc_expected tc).
Proof.
  intros BASE_URL http endpoint tc w w' r Hrun.
  apply run_test_result in Hrun.
  destruct Hrun as [reason Hskip | err Hskip Herr | status body resp Hskip].
  - pose proof (skip_reason_not_empty _ _ Hskip) as Hne.
    cbn [make_result r_status r_error r_actual_status r_assertions
         r_test_id r_endpoint r_expected_status].
    split; [now right; right |].
    split; [split; [intros _; congruence | reflexivity] |].
    split; [split; discriminate |].
    split; [intros _; now apply truthy_str_some |].
    split; [discriminate |].
    repeat split.
  - cbn [make_result r_status r_error r_actual_status r_assertions
         r_test_id r_endpoint r_expected_status].
    split; [now right; left |].
    split; [split; [discriminate | congruence] |].
    split; [split; [intros H; rewrite H in Herr; discriminate Herr
                   | discriminate] |].
    split; [intros _; exact Herr |].
    split; [discriminate |].
    repeat split.
  - unfold score.
    destruct (status_assertion_first tc status body resp)
      as (a & rest & Ha & Hc & Hp).
    destruct (all_passed (run_assertions tc status body resp)) eqn:P;
      cbn [make_result r_status r_error r_actual_status r_assertions
           r_test_id r_endpoint r_expected_status].
    + split; [now left |].
      split; [split; [discriminate | congruence] |].
      split; [split; reflexivity |].
      split; [congruence |].
      split; [| repeat split].
      intros _. rewrite Ha in P. apply all_passed_head in P; [| congruence].
      split.
      * rewrite Hp in P. injection P as P.
        destruct status as [s |]; [| discriminate].
        apply Z.eqb_eq in P. now subst s.
      * exists a, rest. repeat split; auto.
    + split; [now right; left |].
      split; [split; [discriminate | congruence] |].
      split; [split; discriminate |].
      split; [reflexivity |].
      split; [discriminate |].
      repeat split.
Qed.

Lemma result_invariant_witness :
  exists r w',
    run_test Sample.base (Sample.always Sample.login_ok_response)
      (Sample.open_endpoint "GET" "/health") Sample.ping_case Sample.world0
    = (Ok r, w')
    /\ (r_error r = None <-> r_status r = "pass").
Proof.
  eexists. eexists.
  match goal with
  | |- ?A /\ _ => assert (E : A) by (vm_compute; reflexivity)
  end.
  split; [exact E |].
  exact (proj1 (proj2 (proj2
           (result_invariant Sample.base
              (Sample.always Sample.login_ok_response)
              (Sample.open_endpoint "GET" "/health") Sample.ping_case
              Sample.world0 _ _ E)))).
Defined.

Lemma filter_definite_app : forall xs ys,
  List.filter is_definite (xs ++ ys)
  = (List.filter is_definite xs ++ List.filter is_definite ys)%list.
Proof. intros. apply List.filter_app. Qed.

Lemma db_note_indefinite : forall tc,
  List.filter is_definite (assert_db_note tc) = [].
Proof.
  intros tc. unfold assert_db_note.
  destruct (PyDict.get "enabled" (tc_db_verification tc)) as [e |];
    [| reflexivity].
  destruct (truthy e); reflexivity.
Qed.

Lemma all_passed_without_note : forall xs tc,
  all_passed (xs ++ assert_db_note tc) = all_passed xs.
Proof.
  intros xs tc. unfold all_passed.
  now rewrite filter_definite_app, db_note_indefinite, app_nil_r.
Qed.

Lemma run_assertions_note : forall tc status body resp,
  exists checks,
    (forall db_v,
       run_assertions (with_db_verification tc db_v) status body resp
       = (checks ++ assert_db_note (with_db_verification tc db_v))%list)
    /\ run_assertions tc status body resp
       = (checks ++ assert_db_note tc)%list.
Proof.
  intros tc status body resp.
  exists (assert_status (tc_expected tc) status
          ++ assert_body_contains (tc_expected tc) body
          ++ assert_body_exact (tc_expected tc) body
          ++ assert_headers (tc_expected tc) resp
          ++ assert_cookie_set (tc_expected tc) resp
          ++ assert_cookie_not_set (tc_expected tc) resp
          ++ assert_cookie_cleared (tc_expected tc) resp)%list.
  split; [intros db_v |]; unfold run_assertions;
    cbn [with_db_verification tc_expected]; now rewrite <- !app_assoc.
Qed.

(** X12. The database note never decides a case: whatever the
    "db_verification" entry of a case says, enabled or not, the scored
    result has the same status and the same error; the note only adds,
    at the end of the assertions, one entry without an outcome. *)
Theorem db_note_never_decides :
  forall (endpoint : Endpoint) (tc : TestCase) (db_v : list (string * json))
         (status : option Z) (body : json) (resp : option Response),
    let r := score endpoint tc status body resp in
    let r' := score endpoint (with_db_verification tc db_v) status body resp in
    r_status r' = r_status r
    /\ r_error r' = r_error r
    /\ exists checks,
         r_assertions r = (checks ++ assert_db_note tc)%list
         /\ r_assertions r'
            = (checks ++ assert_db_note (with_db_verification tc db_v))%list
         /\ (List.length (assert_db_note (with_db_verification tc db_v)) <= 1)%nat
         /\ Forall (fun a => a_passed a = None)
              (assert_db_note (with_db_verification tc db_v)).
Proof.
  intros endpoint tc db_v status body resp.
  destruct (run_assertions_note tc status body resp) as (checks & H' & H).
  cbv zeta. unfold score.
  rewrite (H' db_v), H, !all_passed_without_note.
  destruct (all_passed checks); cbn [make_result r_status r_error r_assertions];
    (split; [reflexivity |]; split; [reflexivity |]);
    exists checks; (split; [reflexivity |]; split; [reflexivity |]);
    unfold assert_db_note; cbn [with_db_verification tc_db_verification];
    destruct (PyDict.get "enabled" db_v) as [e |];
    try destruct (truthy e); cbn [List.length];
    (split; [lia | repeat constructor]).
Qed.

Lemma resp_truthy_false_iff : forall r,
  resp_truthy r = false <-> 400 <= status_code r < 600.
Proof.
  intros r. unfold resp_truthy. rewrite negb_false_iff, andb_true_iff.
  rewrite Z.leb_le, Z.ltb_lt. reflexivity.
Qed.

(** X13. An error response is scored on its status and its body alone:
    for a response with a status from 400 to 599 the header checks and
    the three cookie checks of the case are not made, so the result is
    the result of the case without these expectations. *)
Theorem error_response_skips_header_checks :
  forall (endpoint : Endpoint) (tc : TestCase) (body : json) (r : Response),
    400 <= status_code r < 600 ->
    score endpoint tc (Some (status_code r)) body (Some r)
    = score endpoint (with_expected tc (body_checks_only (tc_expected tc)))
        (Some (status_code r)) body (Some r).
Proof.
  intros endpoint tc body r Hr. apply resp_truthy_false_iff in Hr.
  assert (H : run_assertions tc (Some (status_code r)) body (Some r)
              = run_assertions
                  (with_expected tc (body_checks_only (tc_expected tc)))
                  (Some (status_code r)) body (Some r)).
  { unfold run_assertions, assert_headers, assert_cookie_set,
      assert_cookie_not_set, assert_cookie_cleared, resp_present.
    rewrite Hr, !andb_false_r. reflexivity. }
  unfold score. rewrite H. reflexivity.
Qed.

Lemma error_response_skips_header_checks_witness :
  score (Sample.open_endpoint "POST" "/auth/logout")
    (Sample.logout_case 401) (Some 401) JNull
    (Some (mkResponse 401 [] None ""))
  = score (Sample.open_endpoint "POST" "/auth/logout")
      (with_expected (Sample.logout_case 401)
         (body_checks_only (tc_expected (Sample.logout_case 401))))
      (Some 401) JNull (Some (mkResponse 401 [] None "")).
Proof.
  apply (error_response_skips_header_checks
           (Sample.open_endpoint "POST" "/auth/logout")
           (Sample.logout_case 401) JNull (mkResponse 401 [] None "")).
  cbn. lia.
Defined.

Lemma py_eq_missing : forall exp,
  py_eq (JStr MISSING) exp = true <-> exp = JStr MISSING.
Proof.
  intros exp. destruct exp; cbn [py_eq]; try (split; congruence).
  rewrite String.eqb_eq. split; congruence.
Qed.

(** X14. What a "body_exact" check makes of its key.  When the dotted
    key leads to a value, the check compares this value with the expected
    one.  When the key is absent, the check passes only if the expected
    value is the string "__MISSING__": an expected null does not match
    an absent key, though the actual value is then recorded as None. *)
Theorem body_exact_check :
  forall (expected : Expectation) (body : json) (i : nat) (key : string)
         (exp : json),
    nth_error (exp_body_exact expected) i = Some (key, exp) ->
    exists a,
      nth_error (assert_body_exact expected body) i = Some a
      /\ a_expected a = Some exp
      /\ (forall v, reaches body (PyStr.split "." key) v ->
            a_passed a = Some (py_eq v exp)
            /\ (v <> JStr MISSING -> a_actual a = Some v))
      /\ (breaks_off body (PyStr.split "." key) ->
            a_actual a = Some JNull
            /\ (a_passed a = Some true <-> exp = JStr MISSING)
            /\ (exp = JNull -> a_passed a = Some false)).
Proof.
  intros expected body i key exp Hi.
  eexists. split.
  - unfold assert_body_exact. apply nth_error_map_some. exact Hi.
  - cbn [fst snd a_expected a_passed a_actual]. split; [reflexivity |].
    split.
    + intros v Hv. unfold get_nested. rewrite (get_path_reaches _ _ _ Hv).
      split; [reflexivity |].
      intros Hne. destruct (is_missing v) eqn:M; [| reflexivity].
      apply is_missing_iff in M. contradiction.
    + intros Hb. unfold get_nested. rewrite (get_path_breaks _ _ Hb).
      split; [reflexivity |]. split.
      * split.
        -- intros H. injection H as H. now apply py_eq_missing.
        -- intros ->. reflexivity.
      * intros ->. reflexivity.
Qed.

Lemma body_exact_check_witness :
  exists a,
    nth_error
      (assert_body_exact
         (mkExpectation 200 [] [("data.deletedAt", JNull)] [] None None None)
         (JDict [("data", JDict [("id", JStr "u1")])]))
      0
    = Some a
    /\ a_actual a = Some JNull
    /\ a_passed a = Some false.
Proof.
  destruct (body_exact_check
              (mkExpectation 200 [] [("data.deletedAt", JNull)] [] None None
                 None)
              (JDict [("data", JDict [("id", JStr "u1")])])
              0 "data.deletedAt" JNull eq_refl)
    as (a & Ha & _ & _ & Hb).
  exists a. split; [exact Ha |].
  assert (B : breaks_off (JDict [("data", JDict [("id", JStr "u1")])])
                (PyStr.split "." "data.deletedAt")).
  { apply (breaks_later _ _ _ (JDict [("id", JStr "u1")])); [reflexivity |].
    now apply breaks_no_key. }
  destruct (Hb B) as (H1 & _ & H3). split; [exact H1 | now apply H3].
Defined.

(** ** Capturing the session from responses *)

Lemma kept_or_truthy_trans : forall a b c,
  kept_or_truthy a b -> kept_or_truthy b c -> kept_or_truthy a c.
Proof.
  unfold kept_or_truthy. intros a b c [-> | H] [-> | K]; auto.
Qed.

Lemma never_blanks_refl : forall w, never_blanks w w.
Proof.
  intros w. unfold never_blanks, kept_or_truthy.
  repeat split; auto. exists []. now rewrite app_nil_r.
Qed.

Lemma never_blanks_trans : forall a b c,
  never_blanks a b -> never_blanks b c -> never_blanks a c.
Proof.
  intros a b c (L1 & T1 & U1 & C1 & R1 & ids1 & I1 & F1)
               (L2 & T2 & U2 & C2 & R2 & ids2 & I2 & F2).
  split; [congruence |].
  split; [eapply kept_or_truthy_trans; eauto |].
  split; [eapply kept_or_truthy_trans; eauto |].
  split; [eapply kept_or_truthy_trans; eauto |].
  split.
  - destruct R2 as [R2 | R2]; [rewrite R2; exact R1 | now right].
  - exists (ids1 ++ ids2)%list. split.
    + rewrite I2, I1, app_assoc. reflexivity.
    + apply Forall_app. now split.
Qed.

Ltac never_blanks_set :=
  intros; unfold never_blanks, kept_or_truthy;
  cbn [state log access_token admin_user_id company_id created_user_ids
       refresh_cookie_value old_refresh_cookie_value];
  repeat split; auto;
  first [ exists []; now rewrite app_nil_r
        | eexists; split; [reflexivity |]; repeat constructor; assumption ].

Ltac never_blanks_steps :=
  repeat first
    [ apply (keeps_ret never_blanks_refl)
    | apply (keeps_raise never_blanks_refl)
    | apply (keeps_lift never_blanks_refl)
    | apply (keeps_get_state never_blanks_refl)
    | apply keeps_set_state; never_blanks_set
    | apply (keeps_bind never_blanks_trans); [| intros]
    | match goal with
      | |- keeps _ (if ?b then _ else _) => destruct b eqn:?
      | |- keeps _ (match ?x with _ => _ end) => destruct x eqn:?
      end ].

(** X15. A capture never blanks the session.  Whatever the response, and
    also when the capture raises half-way, the capture step of [run_test]
    leaves the token, the admin user id, the company id and the refresh
    cookie as they were or sets them to truthy values, and the created
    ids only grow, by truthy ids. *)
Theorem capture_never_blanks :
  forall (req : RequestSpec) (status : option Z) (body : json)
         (resp : option Response) (w : World) (o : outcome unit) (w' : World),
    capture_state req status body resp w = (o, w') ->
    never_blanks w w'.
Proof.
  intros req status body resp w o w'.
  revert w o w'. change (keeps never_blanks (capture_state req status body resp)).
  unfold capture_state, capture_login, capture_refresh, capture_created,
    refresh_cookie_of, rotate_cookie.
  never_blanks_steps.
Qed.

Lemma capture_never_blanks_witness :
  exists o w',
    capture_state (mkRequestSpec "POST" "/auth/login" [] JNull [] 1)
      (Some 200)
      (JDict [("success", JBool true);
              ("data", JDict [("accessToken", JStr "t2");
                              ("user", JDict [("id", JNull)])])])
      (Some (mkResponse 200 [] None ""))
      (mkWorld (mkState (JStr "t1") (Some "r1") (JStr "u1") (JStr "c1")
                  [] None) [])
    = (o, w')
    /\ never_blanks
         (mkWorld (mkState (JStr "t1") (Some "r1") (JStr "u1") (JStr "c1")
                     [] None) [])
         w'.
Proof.
  eexists. eexists.
  match goal with
  | |- ?A /\ _ => assert (E : A) by (vm_compute; reflexivity)
  end.
  split; [exact E |].
  exact (capture_never_blanks _ _ _ _ _ _ _ E).
Defined.

Lemma replace_absent : forall c old' new s,
  PyStr.contains (String c old') s = false ->
  PyStr.replace s (String c old') new = s.
Proof.
  intros c old' new s. unfold PyStr.replace.
  induction s as [| ch s IH]; intros H; [reflexivity |].
  cbn [PyStr.contains] in H.
  destruct (String.prefix (String c old') (String ch s)) eqn:P;
    [discriminate |].
  cbn [PyStr.replace_from]. rewrite P. now rewrite IH.
Qed.

(** X16. A created user takes over the ":id" of every later URL.  After
    a POST to a URL with "/system/users" answered with 200 or 201 and a
    non-empty str at data.id, the capture appends this id to the created
    ids, and from then on [resolve_url] puts it for every ":id", before
    the admin user id, and [resolve_body] puts it for
    "<target-user-id>". *)
Theorem created_id_resolves_urls :
  forall (req : RequestSpec) (status : option Z) (body : json)
         (resp : option Response) (w : World) (data : json) (id : string),
    req_method req = "POST" ->
    PyStr.contains "/system/users" (req_url req) = true ->
    status = Some 200 \/ status = Some 201 ->
    json_get body "data" (JDict []) = Ok data ->
    json_get data "id" JNull = Ok (JStr id) ->
    id <> "" ->
    exists w',
      capture_state req status body resp w = (Ok tt, w')
      /\ created_user_ids (state w')
         = (created_user_ids (state w) ++ [JStr id])%list
      /\ (forall url,
            resolve_url (state w') url = Ok (PyStr.replace url ":id" id))
      /\ PyDict.get "<target-user-id>" (replacements (state w'))
         = Some (JStr id).
Proof.
  intros req status body resp w data id Hm Hu Hs Hd Hi Hne.
  assert (Hlogin : String.eqb (req_url req) "/auth/login" = false).
  { destruct (String.eqb (req_url req) "/auth/login") eqn:E; [| reflexivity].
    apply String.eqb_eq in E. rewrite E in Hu. discriminate Hu. }
  assert (Hrefresh : String.eqb (req_url req) "/auth/refresh" = false).
  { destruct (String.eqb (req_url req) "/auth/refresh") eqn:E; [| reflexivity].
    apply String.eqb_eq in E. rewrite E in Hu. discriminate Hu. }
  assert (Hst : status_is status 200 || status_is status 201 = true).
  { destruct Hs as [-> | ->]; reflexivity. }
  assert (Ht : truthy (JStr id) = true).
  { cbn. destruct (String.eqb id "") eqn:E; [| reflexivity].
    apply String.eqb_eq in E. contradiction. }
  eexists. split.
  - unfold capture_state, capture_login, capture_refresh, capture_created.
    rewrite Hlogin, Hrefresh, Hm, Hu, Hst. cbn [andb String.eqb Ascii.eqb Bool.eqb].
    cbv beta iota zeta delta [bind lift set_state ret].
    rewrite Hd. cbv beta iota. rewrite Hi. cbv beta iota. rewrite Ht.
    reflexivity.
  - cbn [state created_user_ids]. split; [reflexivity |]. split.
    + intros url. unfold resolve_url.
      cbn [created_user_ids admin_user_id].
      destruct (PyStr.contains ":id" url) eqn:C.
      * destruct (created_user_ids (state w) ++ [JStr id])%list eqn:L.
        -- now apply app_eq_nil in L as [_ L].
        -- rewrite <- L. unfold last_created. cbn [created_user_ids].
           rewrite List.last_last. reflexivity.
      * now rewrite replace_absent.
    + unfold replacements. cbn [PyDict.get String.eqb Ascii.eqb Bool.eqb].
      cbn [created_user_ids].
      destruct (created_user_ids (state w) ++ [JStr id])%list eqn:L.
      * now apply app_eq_nil in L as [_ L].
      * rewrite <- L. unfold last_created. cbn [created_user_ids].
        rewrite List.last_last. reflexivity.
Qed.

Lemma created_id_resolves_urls_witness :
  exists w',
    capture_state (mkRequestSpec "POST" "/system/users" [] JNull [] 1)
      (Some 201) (JDict [("data", JDict [("id", JStr "u9")])]) None
      (mkWorld (mkState JNull None (JStr "u1") JNull [] None) [])
    = (Ok tt, w')
    /\ resolve_url (state w') "/system/users/:id/roles"
       = Ok "/system/users/u9/roles".
Proof.
  destruct (created_id_resolves_urls
              (mkRequestSpec "POST" "/system/users" [] JNull [] 1)
              (Some 201) (JDict [("data", JDict [("id", JStr "u9")])]) None
              (mkWorld (mkState JNull None (JStr "u1") JNull [] None) [])
              (JDict [("id", JStr "u9")]) "u9"
              eq_refl eq_refl (or_intror eq_refl) eq_refl eq_refl)
    as (w' & E & _ & U & _); [discriminate |].
  exists w'. split; [exact E |]. apply U.
Defined.

(** X17. What a login case captures.  For a case on "/auth/login"
    answered with status 200 and a truthy "success":
    - when data.accessToken is falsy or data.requiresMfa is truthy,
      nothing is captured, a refresh cookie of the response included;
    - otherwise the token is stored first; when data.user is then not a
      dict (a null, say), the capture raises an AttributeError, which
      [run_test] does not catch, and the token stays stored;
    - when data.user is a dict the capture returns, and a str token is
      what later cases send for a live-token placeholder. *)
Theorem login_response_capture :
  forall (req : RequestSpec) (body : json) (r : Response) (w : World)
         (success data tok mfa user : json),
    req_url req = "/auth/login" ->
    json_get body "success" JNull = Ok success ->
    truthy success = true ->
    json_get body "data" (JDict []) = Ok data ->
    json_get data "accessToken" JNull = Ok tok ->
    json_get data "requiresMfa" JNull = Ok mfa ->
    json_get data "user" (JDict []) = Ok user ->
    (truthy tok = false \/ truthy mfa = true ->
     capture_state req (Some 200) body (Some r) w = (Ok tt, w))
    /\ (truthy tok = true -> truthy mfa = false -> is_dict user = false ->
        capture_state req (Some 200) body (Some r) w
        = (Raise AttributeError,
           mkWorld
             (mkState tok (refresh_cookie_value (state w))
                (admin_user_id (state w)) (company_id (state w))
                (created_user_ids (state w))
                (old_refresh_cookie_value (state w)))
             (log w)))
    /\ (truthy tok = true -> truthy mfa = false -> is_dict user = true ->
        exists w',
          capture_state req (Some 200) body (Some r) w = (Ok tt, w')
          /\ access_token (state w') = tok
          /\ forall t headers_spec id val,
               tok = JStr t ->
               PyDict.get "Authorization" headers_spec = Some val ->
               PyStr.contains "<valid-access-token>" val = true ->
               exists headers,
                 resolve_headers (state w') headers_spec id = Ok headers
                 /\ PyDict.get "Authorization" headers
                    = Some (JStr ("Bearer " ++ t))).
Proof.
  intros req body r w success data tok mfa user
         Hurl Hs Ts Hd Ht Hm Hu.
  assert (Hrest : forall w0,
            (capture_refresh req (Some 200) body (Some r) ;;;
             capture_created req (Some 200) body)%py w0 = (Ok tt, w0)).
  { intros w0. unfold capture_refresh, capture_created. rewrite Hurl.
    change (String.eqb "/auth/login" "/auth/refresh") with false.
    change (PyStr.contains "/system/users" "/auth/login") with false.
    rewrite andb_false_r. reflexivity. }
  assert (Hstart :
            capture_state req (Some 200) body (Some r) w
            = (capture_login req (Some 200) body (Some r) ;;;
               (capture_refresh req (Some 200) body (Some r) ;;;
                capture_created req (Some 200) body))%py w)
    by reflexivity.
  split; [| split].
  - intros Hno. rewrite Hstart. unfold bind at 1.
    assert (E : capture_login req (Some 200) body (Some r) w = (Ok tt, w)).
    { unfold capture_login. rewrite Hurl.
      change (String.eqb "/auth/login" "/auth/login" && status_is (Some 200) 200)
        with true. cbv iota.
      cbv beta iota zeta delta [bind lift set_state ret].
      rewrite Hs. cbv beta iota. rewrite Ts, Hd. cbv beta iota.
      rewrite Ht. cbv beta iota.
      destruct (truthy tok) eqn:Tt; [| reflexivity].
      rewrite Hm. cbv beta iota.
      destruct Hno as [Hno | Hno]; [discriminate Hno |].
      rewrite Hno. reflexivity. }
    rewrite E. apply Hrest.
  - intros Tt Tm Hnd. rewrite Hstart. unfold bind at 1.
    assert (E : capture_login req (Some 200) body (Some r) w
                = (Raise AttributeError,
                   mkWorld
                     (mkState tok (refresh_cookie_value (state w))
                        (admin_user_id (state w)) (company_id (state w))
                        (created_user_ids (state w))
                        (old_refresh_cookie_value (state w)))
                     (log w))).
    { unfold capture_login. rewrite Hurl.
      change (String.eqb "/auth/login" "/auth/login" && status_is (Some 200) 200)
        with true. cbv iota.
      cbv beta iota zeta delta [bind lift set_state ret].
      rewrite Hs. cbv beta iota. rewrite Ts, Hd. cbv beta iota.
      rewrite Ht. cbv beta iota. rewrite Tt, Hm. cbv beta iota.
      rewrite Tm. cbn [negb]. cbv beta iota. rewrite Hu. cbv beta iota.
      destruct user; try discriminate Hnd; reflexivity. }
    rewrite E. reflexivity.
  - intros Tt Tm Hdict.
    destruct (capture_login req (Some 200) body (Some r) w) as [o w1] eqn:E.
    assert (Hw1 : o = Ok tt /\ access_token (state w1) = tok).
    { revert E. unfold capture_login, refresh_cookie_of, rotate_cookie.
      rewrite Hurl.
      change (String.eqb "/auth/login" "/auth/login" && status_is (Some 200) 200)
        with true. cbv iota.
      cbv beta iota zeta delta [bind lift set_state ret].
      rewrite Hs. cbv beta iota. rewrite Ts, Hd. cbv beta iota.
      rewrite Ht. cbv beta iota. rewrite Tt, Hm. cbv beta iota.
      rewrite Tm. cbn [negb]. cbv beta iota. rewrite Hu. cbv beta iota.
      destruct user as [| | | | | u]; try discriminate Hdict.
      cbn [json_get]. cbv beta iota.
      repeat match goal with
             | |- context [if truthy ?x then _ else _] =>
                 destruct (truthy x); cbv beta iota
             | |- context [if truthy_str ?x then _ else _] =>
                 destruct (truthy_str x); cbv beta iota
             end;
        intros E; injection E as <- <-; split; reflexivity. }
    destruct Hw1 as [-> Htok].
    exists w1. split.
    + rewrite Hstart. unfold bind at 1. rewrite E. apply Hrest.
    + split; [exact Htok |].
      intros t headers_spec id val -> Ha Hc.
      apply (resolve_headers_authorization (state w1) headers_spec id val);
        [exact Ha |].
      unfold resolve_authorization. cbn [LIVE_TOKEN_MARKERS existsb].
      rewrite Hc. cbn [orb]. rewrite Htok, Tt. reflexivity.
Qed.

Lemma login_response_capture_witness :
  capture_state (mkRequestSpec "POST" "/auth/login" [] JNull [] 1)
    (Some 200)
    (JDict [("success", JBool true);
            ("data", JDict [("accessToken", JStr "t2"); ("user", JNull)])])
    (Some (mkResponse 200 [] None "")) Sample.world0
  = (Raise AttributeError,
     mkWorld (mkState (JStr "t2") None JNull JNull [] None) []).
Proof.
  apply (proj1 (proj2
           (login_response_capture
              (mkRequestSpec "POST" "/auth/login" [] JNull [] 1)
              (JDict [("success", JBool true);
                      ("data",
                       JDict [("accessToken", JStr "t2"); ("user", JNull)])])
              (mkResponse 200 [] None "") Sample.world0
              (JBool true)
              (JDict [("accessToken", JStr "t2"); ("user", JNull)])
              (JStr "t2") JNull JNull
              eq_refl eq_refl eq_refl eq_refl eq_refl eq_refl eq_refl)));
    reflexivity.
Defined.

(** ** The run as a whole *)

Lemma only_grows_refl : forall w, only_grows w w.
Proof.
  intros w. split; exists []; rewrite app_nil_r; [reflexivity |].
  split; [reflexivity | constructor].
Qed.

Lemma only_grows_trans : forall a b c,
  only_grows a b -> only_grows b c -> only_grows a c.
Proof.
  intros a b c [(l1 & L1) (i1 & I1 & F1)] [(l2 & L2) (i2 & I2 & F2)]. split.
  - exists (l1 ++ l2)%list. rewrite L2, L1, app_assoc. reflexivity.
  - exists (i1 ++ i2)%list. split.
    + rewrite I2, I1, app_assoc. reflexivity.
    + apply Forall_app. now split.
Qed.

Lemma only_grows_call : forall w c, only_grows w (after_call w c).
Proof.
  intros w c. split; [now exists [c] |].
  exists []. cbn. rewrite app_nil_r. split; [reflexivity | constructor].
Qed.

Section WholeRun.

Variable BASE_URL : string.
Variable http : list HttpCall -> HttpCall -> http_outcome.

Lemma ensure_login_grows : keeps only_grows (ensure_login BASE_URL http).
Proof.
  intros w o w' H. unfold ensure_login in H.
  cbv beta iota zeta delta [bind get_state] in H.
  destruct (truthy (access_token (state w))).
  - injection H as _ <-. apply only_grows_refl.
  - destruct (try_logins_effect BASE_URL http LOGIN_CREDENTIALS w)
      as (b & w1 & k & E & L & _ & [F _] & _).
    rewrite E in H. injection H as _ <-. split; [eauto |].
    exists []. rewrite app_nil_r. split; [exact F | constructor].
Qed.

Lemma preconditions_grows : forall endpoint tc,
  keeps only_grows (preconditions BASE_URL http endpoint tc).
Proof.
  intros endpoint tc. unfold preconditions.
  repeat first
    [ apply (keeps_ret only_grows_refl)
    | apply ensure_login_grows
    | apply (keeps_bind only_grows_trans); [| intros]
    | match goal with
      | |- keeps _ (if ?b then _ else _) => destruct b
      end ].
Qed.

Lemma warm_up_grows : forall tc, keeps only_grows (warm_up BASE_URL http tc).
Proof.
  intros tc. unfold warm_up.
  destruct (req_repeat (tc_request tc) >? 1);
    [| apply (keeps_ret only_grows_refl)].
  generalize (Z.to_nat (req_repeat (tc_request tc) - 1)). intros n.
  induction n as [| n IH]; cbn [times];
    [apply (keeps_ret only_grows_refl) |].
  apply (keeps_bind only_grows_trans); [| intros; exact IH].
  intros w o w' H. rewrite warm_up_call_eq in H.
  destruct (warm_up_request BASE_URL (state w) tc);
    injection H as _ <-;
    [apply only_grows_call | apply only_grows_refl | apply only_grows_refl].
Qed.

Lemma primary_call_grows : forall tc,
  keeps only_grows (primary_call BASE_URL http tc).
Proof.
  intros tc w o w' H. rewrite primary_call_eq in H.
  destruct (primary_request BASE_URL (state w) tc);
    injection H as _ <-;
    [apply only_grows_call | apply only_grows_refl | apply only_grows_refl].
Qed.

Lemma capture_state_grows : forall req status body resp,
  keeps only_grows (capture_state req status body resp).
Proof.
  intros req status body resp w o w' H.
  assert (N : never_blanks w w').
  { revert w o w' H.
    change (keeps never_blanks (capture_state req status body resp)).
    unfold capture_state, capture_login, capture_refresh, capture_created,
      refresh_cookie_of, rotate_cookie.
    never_blanks_steps. }
  destruct N as (L & _ & _ & _ & _ & I). split; [| exact I].
  exists []. now rewrite app_nil_r.
Qed.

Lemma run_test_grows : forall endpoint tc,
  keeps only_grows (run_test BASE_URL http endpoint tc).
Proof.
  intros endpoint tc. unfold run_test.
  destruct (skip_reason (tc_id tc)); [apply (keeps_ret only_grows_refl) |].
  apply (keeps_bind only_grows_trans); [apply preconditions_grows | intros _].
  apply (keeps_bind only_grows_trans); [apply warm_up_grows | intros _].
  apply (keeps_bind only_grows_trans); [apply primary_call_grows |].
  intros [[[status body] resp] err].
  destruct (truthy_str err); [apply (keeps_ret only_grows_refl) |].
  apply (keeps_bind only_grows_trans); [apply capture_state_grows | intros _].
  apply (keeps_ret only_grows_refl).
Qed.

Lemma run_cases_grows : forall endpoint tcs acc,
  keeps only_grows (run_cases BASE_URL http endpoint tcs acc).
Proof.
  intros endpoint tcs. induction tcs as [| tc tcs IH]; intros acc;
    cbn [run_cases]; [apply (keeps_ret only_grows_refl) |].
  apply (keeps_bind only_grows_trans); [apply run_test_grows |].
  intros r. apply IH.
Qed.

Lemma run_endpoints_grows : forall endpoints acc,
  keeps only_grows (run_endpoints BASE_URL http endpoints acc).
Proof.
  intros endpoints. induction endpoints as [| ep eps IH]; intros acc;
    cbn [run_endpoints]; [apply (keeps_ret only_grows_refl) |].
  apply (keeps_bind only_grows_trans); [apply run_cases_grows |].
  intros acc'. apply IH.
Qed.

End WholeRun.

(** X18. The run never forgets a created user: over a whole run of a
    plan, also one that ends in an exception, the list of created user
    ids only grows at its end, by truthy ids, so that the last created
    id is always the most recent one; the same holds for each case. *)
Theorem created_ids_only_grow :
  forall (BASE_URL : string) (http : list HttpCall -> HttpCall -> http_outcome),
    (forall endpoints w o w',
       run_plan BASE_URL http endpoints w = (o, w') -> only_grows w w')
    /\ (forall endpoint tc w o w',
          run_test BASE_URL http endpoint tc w = (o, w') -> only_grows w w').
Proof.
  intros BASE_URL http. split.
  - intros endpoints. apply run_endpoints_grows.
  - intros endpoint tc. apply run_test_grows.
Qed.

Lemma result_of_status : forall endpoint tc r,
  result_of endpoint tc r ->
  r_status r = "pass" \/ r_status r = "fail" \/ r_status r = "skip".
Proof.
  intros endpoint tc r [reason H | err H T | status body resp H].
  - right; right; reflexivity.
  - right; left; reflexivity.
  - unfold score.
    destruct (all_passed (run_assertions tc status body resp));
      [left | right; left]; reflexivity.
Qed.

Lemma count_status_snoc : forall status rs r,
  count_status status (rs ++ [r])
  = count_status status rs + (if String.eqb (r_status r) status then 1 else 0).
Proof.
  intros status rs r. unfold count_status.
  rewrite List.filter_app, List.length_app. cbn [List.filter].
  destruct (String.eqb (r_status r) status); cbn [List.length]; lia.
Qed.

Lemma count_summary : forall rs r,
  r_status r = "pass" \/ r_status r = "fail" \/ r_status r = "skip" ->
  count (summary_of rs) r = summary_of (rs ++ [r]).
Proof.
  intros rs r H. unfold count, summary_of.
  cbn [total passed failed skipped].
  rewrite !count_status_snoc, List.length_app. cbn [List.length].
  destruct H as [-> | [-> | ->]]; cbn [String.eqb Ascii.eqb Bool.eqb];
    f_equal; lia.
Qed.

Section Summary.

Variable BASE_URL : string.
Variable http : list HttpCall -> HttpCall -> http_outcome.

Lemma run_cases_results : forall endpoint tcs rs w out w',
  run_cases BASE_URL http endpoint tcs (rs, summary_of rs) w = (Ok out, w') ->
  exists new,
    out = ((rs ++ new)%list, summary_of (rs ++ new))
    /\ Forall2 (fun tc r => result_of endpoint tc r) tcs new.
Proof.
  intros endpoint tcs. induction tcs as [| tc tcs IH]; intros rs w out w' H.
  - cbn in H. injection H as <- _. exists []. rewrite app_nil_r.
    split; [reflexivity | constructor].
  - cbn [run_cases] in H. unfold bind in H.
    destruct (run_test BASE_URL http endpoint tc w) as [[r | e |] w1] eqn:E;
      try discriminate.
    apply run_test_result in E. cbn [fst snd] in H.
    rewrite count_summary in H by (eapply result_of_status; exact E).
    apply IH in H as (new & -> & F).
    exists (r :: new). rewrite <- !app_assoc. split; [reflexivity |].
    now constructor.
Qed.

Lemma run_endpoints_results : forall endpoints rs w out w',
  run_endpoints BASE_URL http endpoints (rs, summary_of rs) w
  = (Ok out, w') ->
  exists new,
    out = ((rs ++ new)%list, summary_of (rs ++ new))
    /\ Forall2 (fun c r => result_of (fst c) (snd c) r)
         (plan_cases endpoints) new.
Proof.
  induction endpoints as [| ep eps IH]; intros rs w out w' H.
  - cbn in H. injection H as <- _. exists []. rewrite app_nil_r.
    split; [reflexivity | constructor].
  - cbn [run_endpoints] in H. unfold bind in H.
    destruct (run_cases BASE_URL http ep (ep_test_cases ep)
                (rs, summary_of rs) w) as [[acc | e |] w1] eqn:E;
      try discriminate.
    apply run_cases_results in E as (new1 & -> & F1).
    apply IH in H as (new2 & -> & F2).
    exists (new1 ++ new2)%list. rewrite <- !app_assoc.
    split; [reflexivity |].
    unfold plan_cases. cbn [flat_map]. apply Forall2_app; [| exact F2].
    clear - F1. induction F1; cbn [List.map]; constructor; auto.
Qed.

End Summary.

Lemma count_status_bounds : forall rs,
  Forall (fun r => r_status r = "pass" \/ r_status r = "fail"
                   \/ r_status r = "skip") rs ->
  Z.of_nat (List.length rs)
  = count_status "pass" rs + count_status "fail" rs + count_status "skip" rs
  /\ 0 <= count_status "pass" rs
  /\ 0 <= count_status "fail" rs
  /\ 0 <= count_status "skip" rs.
Proof.
  intros rs F. split; [| unfold count_status; lia].
  induction F as [| r rs H F IH]; [reflexivity |].
  unfold count_status in *. cbn [List.filter List.length].
  destruct H as [-> | [-> | ->]]; cbn [String.eqb Ascii.eqb Bool.eqb List.length];
    lia.
Qed.

(** X19. The results and the summary of a run.  When the run of a plan
    comes to its end, there is one result for each case of the plan, in
    the order of the plan, built from that case; and the summary counts
    these results: total is their number, passed, failed and skipped are
    the numbers of results with status "pass", "fail" and "skip", which
    add up to the total.  So the report, which selects the failures and
    the skipped cases by their status, lists as many of each as the
    summary counts. *)
Theorem run_plan_summary :
  forall (BASE_URL : string) (http : list HttpCall -> HttpCall -> http_outcome)
         (endpoints : list Endpoint) (w w' : World)
         (results : list Result) (s : Totals),
    run_plan BASE_URL http endpoints w = (Ok (results, s), w') ->
    Forall2 (fun c r => result_of (fst c) (snd c) r)
      (plan_cases endpoints) results
    /\ List.map r_test_id results
       = List.map (fun c => tc_id (snd c)) (plan_cases endpoints)
    /\ s = summary_of results
    /\ total s = passed s + failed s + skipped s
    /\ 0 <= passed s /\ 0 <= failed s /\ 0 <= skipped s
    /\ failed s = Z.of_nat (List.length (report_failures results))
    /\ skipped s = Z.of_nat (List.length (report_skipped results)).
Proof.
  intros BASE_URL http endpoints w w' results s H.
  unfold run_plan in H.
  change (mkTotals 0 0 0 0) with (summary_of []) in H.
  apply run_endpoints_results in H as (new & E & F).
  cbn [app] in E. injection E as -> ->.
  split; [exact F |]. split.
  - clear - F. induction F as [| c r cs rs H F IH]; [reflexivity |].
    cbn [List.map]. f_equal; [| exact IH].
    destruct H; reflexivity.
  - split; [reflexivity |].
    assert (S : Forall (fun r => r_status r = "pass" \/ r_status r = "fail"
                                 \/ r_status r = "skip") new).
    { clear - F. induction F as [| c r cs rs H F IH]; constructor; auto.
      eapply result_of_status; exact H. }
    apply count_status_bounds in S.
    cbn [summary_of total passed failed skipped].
    destruct S as (S1 & S2 & S3 & S4).
    repeat split; auto.
Qed.

Lemma run_plan_summary_witness :
  exists results s w',
    run_plan Sample.base (Sample.always Sample.login_ok_response)
      [mkEndpoint "GET" "/health" false
         [Sample.ping_case; Sample.logout_case 401];
       mkEndpoint "POST" "/auth/login" false [Sample.lockout_case]]
      Sample.world0
    = (Ok (results, s), w')
    /\ s = summary_of results
    /\ total s = passed s + failed s + skipped s.
Proof.
  eexists. eexists. eexists.
  match goal with
  | |- ?A /\ _ => assert (E : A) by (vm_compute; reflexivity)
  end.
  split; [exact E |].
  destruct (run_plan_summary _ _ _ _ _ _ _ E) as (_ & _ & S & T & _).
  split; [exact S | exact T].
Defined.

(** ** The report *)

Lemma of_Z_not_NA : forall z t, PyStr.of_Z z ++ t <> "N/A".
Proof.
  intros z t H. destruct (of_Z_head z) as (c & u & E & Hc).
  rewrite E in H. cbn [append] in H. injection H as -> _.
  discriminate Hc.
Qed.

(** X20. The pass rate of the report.  For a summary whose counts are
    not negative and add up to the total, as those of a run are, the
    pass rate is "N/A" exactly when no case was executed (all were
    skipped, or the plan is empty); otherwise it is the percentage of
    passed among executed cases rounded down, a number from 0 to 100
    that is 100 only when no executed case failed. *)
Theorem pass_rate_spec : forall (s : Totals),
  0 <= passed s -> 0 <= failed s ->
  total s = passed s + failed s + skipped s ->
  (pass_rate s = "N/A" <-> passed s + failed s = 0)
  /\ (0 < passed s + failed s ->
      exists p,
        pass_rate s = PyStr.of_Z p ++ "%"
        /\ 0 <= p <= 100
        /\ p * (passed s + failed s) <= passed s * 100
           < (p + 1) * (passed s + failed s)
        /\ (p = 100 <-> failed s = 0)).
Proof.
  intros s Hp Hf Ht. unfold pass_rate.
  replace (total s - skipped s) with (passed s + failed s) by lia.
  set (e := passed s + failed s).
  destruct (e >? 0) eqn:G.
  - apply Z.gtb_lt in G. split.
    + split; [intros H; now apply of_Z_not_NA in H | lia].
    + intros _. exists (passed s * 100 / e).
      pose proof (Z.mul_div_le (passed s * 100) e G) as H1.
      pose proof (Z.mul_succ_div_gt (passed s * 100) e G) as H2.
      pose proof (Z.div_pos (passed s * 100) e ltac:(lia) G) as H3.
      assert (H4 : passed s * 100 / e <= 100).
      { apply Z.div_le_upper_bound; [exact G |]. unfold e. lia. }
      split; [reflexivity |]. split; [lia |]. split; [lia |].
      split.
      * intros H5. rewrite H5 in H1. unfold e in H1. lia.
      * intros H5. unfold e in *. rewrite H5, Z.add_0_r in *.
        rewrite Z.mul_comm. apply Z.div_mul. lia.
  - assert (e <= 0) by (destruct (Z.gtb_spec e 0); [discriminate | lia]).
    split; [split; [unfold e in *; lia | reflexivity] | lia].
Qed.

Lemma pass_rate_spec_witness :
  pass_rate (mkTotals 7 2 1 4) = "66%"
  /\ exists p, pass_rate (mkTotals 7 2 1 4) = PyStr.of_Z p ++ "%"
               /\ 0 <= p <= 100.
Proof.
  split; [reflexivity |].
  destruct (proj2 (pass_rate_spec (mkTotals 7 2 1 4)
                     ltac:(cbn; lia) ltac:(cbn; lia) eq_refl)
              ltac:(cbn; lia))
    as (p & E & B & _).
  exists p. split; [exact E | exact B].
Defined.

Lemma dict_mem_set : forall (A : Type) k k' (v : A) d,
  PyDict.mem k (PyDict.set k' v d) = String.eqb k k' || PyDict.mem k d.
Proof.
  intros A k k' v d. unfold PyDict.mem.
  destruct (String.eqb k k') eqn:E.
  - apply String.eqb_eq in E. subst k'. now rewrite dict_get_set_same.
  - rewrite dict_get_set_neq by exact E. reflexivity.
Qed.

Lemma distinct_keys_set : forall (A : Type) k (v : A) d,
  PyDict.distinct_keys d = true ->
  PyDict.distinct_keys (PyDict.set k v d) = true.
Proof.
  intros A k v d. induction d as [| [k' v'] d IH]; cbn; intros H;
    [reflexivity |].
  apply andb_true_iff in H as [Hk Hd].
  destruct (String.eqb k k') eqn:E.
  - apply String.eqb_eq in E. subst k'. cbn. now rewrite Hk, Hd.
  - cbn. rewrite dict_mem_set, IH by exact Hd.
    rewrite String.eqb_sym, E. cbn [orb]. now rewrite Hk.
Qed.

Lemma group_by_endpoint_step : forall rs done acc,
  PyDict.distinct_keys acc = true ->
  (forall ep, PyDict.get ep acc
              = match results_of_endpoint ep done with
                | [] => None
                | tests => Some tests
                end) ->
  let by_ep :=
    fold_left
      (fun by_ep r =>
         PyDict.set (r_endpoint r)
           ((match PyDict.get (r_endpoint r) by_ep with
             | Some tests => tests
             | None => []
             end) ++ [r])%list by_ep)
      rs acc in
  PyDict.distinct_keys by_ep = true
  /\ forall ep, PyDict.get ep by_ep
                = match results_of_endpoint ep (done ++ rs) with
                  | [] => None
                  | tests => Some tests
                  end.
Proof.
  induction rs as [| r rs IH]; intros done acc Hd Hg; cbn [fold_left].
  - rewrite app_nil_r. split; assumption.
  - replace (done ++ r :: rs)%list with ((done ++ [r]) ++ rs)%list
      by (rewrite <- app_assoc; reflexivity).
    apply IH; [now apply distinct_keys_set |].
    intros ep. unfold results_of_endpoint. rewrite List.filter_app.
    cbn [List.filter].
    destruct (String.eqb (r_endpoint r) ep) eqn:E.
    + apply String.eqb_eq in E. subst ep.
      rewrite dict_get_set_same, Hg. unfold results_of_endpoint.
      destruct (List.filter _ done) as [| t ts]; reflexivity.
    + rewrite dict_get_set_neq by (rewrite String.eqb_sym; exact E).
      rewrite app_nil_r. apply Hg.
Qed.

(** X21. The sections of the report.  The results are grouped by their
    endpoint label, the method and URL template of their case: the keys
    of the grouping are distinct, and the group of a label is the list
    of all results with this label, in the order of the run, whatever
    endpoints of the plan they come from; a label without results has no
    group. *)
Theorem group_by_endpoint_spec : forall (results : list Result),
  PyDict.distinct_keys (group_by_endpoint results) = true
  /\ (forall ep,
        PyDict.get ep (group_by_endpoint results)
        = match results_of_endpoint ep results with
          | [] => None
          | tests => Some tests
          end)
  /\ (forall ep tests,
        In (ep, tests) (group_by_endpoint results) ->
        tests = results_of_endpoint ep results /\ tests <> []).
Proof.
  intros results.
  destruct (group_by_endpoint_step results [] [] eq_refl (fun _ => eq_refl))
    as [Hd Hg].
  cbn [app] in Hg. fold (group_by_endpoint results) in Hd, Hg.
  split; [exact Hd |]. split; [exact Hg |].
  intros ep tests Hin.
  assert (Hget : PyDict.get ep (group_by_endpoint results) = Some tests).
  { revert Hd Hin. generalize (group_by_endpoint results). intros d.
    induction d as [| [k v] d IH]; cbn; intros Hd; [contradiction |].
    apply andb_true_iff in Hd as [Hk Hd].
    intros [H | H].
    - injection H as -> ->. now rewrite String.eqb_refl.
    - destruct (String.eqb ep k) eqn:E; [| now apply IH].
      apply String.eqb_eq in E. subst k.
      apply IH in H; [| exact Hd]. unfold PyDict.mem in Hk.
      rewrite H in Hk. discriminate. }
  rewrite Hg in Hget.
  destruct (results_of_endpoint ep results) as [| t ts];
    [discriminate |].
  injection Hget as <-. split; [reflexivity | discriminate].
Qed.

Lemma count_status_zero : forall status tests,
  count_status status tests = 0 <->
  forall t, In t tests -> r_status t <> status.
Proof.
  intros status tests. unfold count_status.
  induction tests as [| t tests IH]; cbn [List.filter].
  - split; [intros _ t [] | reflexivity].
  - destruct (String.eqb (r_status t) status) eqn:E.
    + cbn [List.length]. split; [lia |].
      intros H. apply String.eqb_eq in E.
      exfalso. apply (H t); [now left | exact E].
    + rewrite IH. apply String.eqb_neq in E. split.
      * intros H t' [<- | Hin]; auto.
      * intros H t' Hin. apply H. now right.
Qed.

Lemma count_status_pos : forall status tests,
  0 < count_status status tests <->
  exists t, In t tests /\ r_status t = status.
Proof.
  intros status tests. split.
  - intros H. induction tests as [| t tests IH].
    + cbn in H. lia.
    + destruct (String.eqb (r_status t) status) eqn:E.
      * apply String.eqb_eq in E. exists t. split; [now left | exact E].
      * unfold count_status in *. cbn [List.filter] in H. rewrite E in H.
        destruct (IH H) as (t' & Hin & Ht'). exists t'.
        split; [now right | exact Ht'].
  - intros (t & Hin & Ht).
    assert (count_status status tests <> 0).
    { rewrite count_status_zero. intros H. now apply (H t). }
    unfold count_status in *. lia.
Qed.

(** X22. The tag of an endpoint section: "PASS" exactly when a result of
    the section passed and none failed, "PARTIAL" exactly when one passed
    and one failed, "FAIL" exactly when none passed; so a section whose
    cases were all skipped is tagged "FAIL", with 0 failed in its
    heading. *)
Theorem endpoint_tag_spec : forall (tests : list Result),
  (endpoint_tag tests = "PASS" <->
   (exists t, In t tests /\ r_status t = "pass")
   /\ (forall t, In t tests -> r_status t <> "fail"))
  /\ (endpoint_tag tests = "PARTIAL" <->
      (exists t, In t tests /\ r_status t = "pass")
      /\ (exists t, In t tests /\ r_status t = "fail"))
  /\ (endpoint_tag tests = "FAIL" <->
      forall t, In t tests -> r_status t <> "pass")
  /\ ((forall t, In t tests -> r_status t = "skip") ->
      endpoint_tag tests = "FAIL" /\ count_status "fail" tests = 0).
Proof.
  intros tests.
  pose proof (count_status_zero "fail" tests) as F0.
  pose proof (count_status_zero "pass" tests) as P0.
  pose proof (count_status_pos "fail" tests) as F1.
  pose proof (count_status_pos "pass" tests) as P1.
  assert (Hp : 0 <= count_status "pass" tests) by (unfold count_status; lia).
  assert (Hf : 0 <= count_status "fail" tests) by (unfold count_status; lia).
  assert (Hskip : (forall t, In t tests -> r_status t = "skip") ->
                  count_status "pass" tests = 0
                  /\ count_status "fail" tests = 0).
  { intros H. split; [apply P0 | apply F0];
      intros t Hin; rewrite (H t Hin); discriminate. }
  unfold endpoint_tag.
  rewrite <- P1, <- F1, <- P0, <- F0.
  generalize dependent (count_status "fail" tests).
  generalize dependent (count_status "pass" tests).
  intros p _ _ Hp f _ _ Hf Hskip.
  assert (Hall : (forall t, In t tests -> r_status t = "skip") ->
                 (if (f =? 0) && (p >? 0) then "PASS"
                  else if p >? 0 then "PARTIAL" else "FAIL") = "FAIL"
                 /\ f = 0).
  { intros H. destruct (Hskip H) as [-> ->]. split; reflexivity. }
  split; [| split; [| split; [| exact Hall]]];
    clear Hskip Hall;
    destruct (Z.eqb_spec f 0); destruct (Z.gtb_spec p 0); cbn [andb];
    (split; [intros K; first [discriminate K | lia]
            | intros K; first [reflexivity | exfalso; lia]]).
Qed.

(** ** The warm-up turns *)

Lemma times_stuck : forall (m : M unit) n w,
  m w = (Stuck, w) -> times (S n) m w = (Stuck, w).
Proof. intros m n w H. cbn [times]. unfold bind. now rewrite H. Qed.

(** X23. The warm-up turns are silent.  Whatever the server answers, the
    repeat loop of a case never raises and leaves the session as it
    found it: a login that a warm-up call obtains is not captured.  It
    sends either nothing (no repetition asked, or a request that does
    not resolve, the error being swallowed) or repeat - 1 calls, each to
    the URL of the template as it stands, without cookies. *)
Theorem warm_up_is_silent :
  forall (BASE_URL : string) (http : list HttpCall -> HttpCall -> http_outcome)
         (tc : TestCase) (w : World),
  exists o calls,
    warm_up BASE_URL http tc w = (o, mkWorld (state w) (log w ++ calls))
    /\ (forall e, o <> Raise e)
    /\ (calls = []
        \/ List.length calls = Z.to_nat (req_repeat (tc_request tc) - 1))
    /\ Forall (fun c => call_url c = BASE_URL ++ req_url (tc_request tc)
                        /\ call_method c = req_method (tc_request tc)
                        /\ call_cookies c = None) calls
    /\ (o = Stuck <->
        1 < req_repeat (tc_request tc)
        /\ warm_up_request BASE_URL (state w) tc = Stuck).
Proof.
  intros BASE_URL http tc w.
  assert (Hw : mkWorld (state w) (log w ++ []) = w)
    by (rewrite app_nil_r; now destruct w).
  unfold warm_up.
  destruct (Z.gtb_spec (req_repeat (tc_request tc)) 1) as [G | G].
  - destruct (warm_up_request BASE_URL (state w) tc) as [c | e |] eqn:R.
    + exists (Ok tt), (repeat c (Z.to_nat (req_repeat (tc_request tc) - 1))).
      split; [now apply times_warm_up |]. split; [discriminate |].
      split; [right; apply repeat_length |]. split.
      * apply Forall_forall. intros x Hx. apply repeat_spec in Hx. subst x.
        revert R. unfold warm_up_request.
        destruct (resolve_headers _ _ _); cbn [obind]; try discriminate.
        destruct (resolve_body _ _ _); cbn [obind]; try discriminate.
        intros R. injection R as <-. repeat split.
      * split; [discriminate | intros [_ H]; discriminate H].
    + exists (Ok tt), []. rewrite Hw.
      split; [apply times_no_effect; rewrite warm_up_call_eq, R; reflexivity |].
      split; [discriminate |]. split; [now left |]. split; [constructor |].
      split; [discriminate | intros [_ H]; discriminate H].
    + exists Stuck, []. rewrite Hw. split.
      * destruct (Z.to_nat (req_repeat (tc_request tc) - 1)) eqn:N; [lia |].
        apply times_stuck. rewrite warm_up_call_eq, R. reflexivity.
      * split; [discriminate |]. split; [now left |]. split; [constructor |].
        split; [intros _; split; [lia | reflexivity] | reflexivity].
  - exists (Ok tt), []. rewrite Hw. split; [reflexivity |].
    split; [discriminate |]. split; [now left |]. split; [constructor |].
    split; [discriminate | intros [H _]; lia].
Qed.
